(** * Template updater (main.py): a shallow embedding and its properties

    The script talks to a search cluster by running [curl] as a child
    process, reads one line from standard input and prints progress lines.
    Python values coming out of [json.loads] are modelled by the type
    [json]; partial Python operations return [res] (a value or the raised
    exception); the effects of the script (child processes, printing,
    reading a line, the clock, sleeping) are the nodes of the program trees
    [prog], which [exec] runs against an arbitrary environment while
    recording the trace of what happened. *)

From Stdlib Require Import ZArith List String Ascii Bool Lia DecimalString.
Import ListNotations.
Local Open Scope string_scope.
Local Open Scope list_scope.
Local Open Scope Z_scope.

(** String concatenation, as in an f-string or [s + t]. *)
Infix "+++" := String.append (at level 60, right associativity).

(** ** Python values *)

(** A Python float: not-a-number, an infinity, or the finite value
    [m * 2^e]. *)
Inductive pyfloat : Type :=
| FNan
| FInf (negative : bool)
| FFin (m e : Z).

Unset Elimination Schemes.

(** What [json.loads] builds, which is also all the script ever handles:
    [None], booleans, integers, floats, strings, lists and dictionaries.
    A dictionary is the sequence of its items in insertion order. *)
Inductive json : Type :=
| JNull
| JBool (b : bool)
| JInt (n : Z)
| JFloat (f : pyfloat)
| JStr (s : string)
| JArr (l : list json)
| JObj (d : list (string * json)).

Set Elimination Schemes.

Definition dict := list (string * json).

(** Exceptions the modelled operations raise; all derive from
    [Exception]. *)
Inductive exn : Type :=
| TypeError
| AttributeError
| ValueError
| KeyError
| IndexError
| OverflowError
| EOFError
| CalledProcessError (returncode : Z).

Inductive res (A : Type) : Type :=
| Ok (a : A)
| Raise (e : exn).
Arguments Ok {A} a.
Arguments Raise {A} e.

Definition res_bind {A B} (r : res A) (f : A -> res B) : res B :=
  match r with
  | Ok a => f a
  | Raise e => Raise e
  end.

Declare Scope res_scope.
Delimit Scope res_scope with res.
Notation "x <- r ;; k" := (res_bind r (fun x => k))
  (at level 61, r at next level, right associativity) : res_scope.

(** Truth value of a Python object. *)
Definition truthy (v : json) : bool :=
  match v with
  | JNull => false
  | JBool b => b
  | JInt n => negb (n =? 0)
  | JFloat (FFin m _) => negb (m =? 0)
  | JFloat _ => true
  | JStr s => negb (s =? "")%string
  | JArr l => match l with [] => false | _ => true end
  | JObj d => match d with [] => false | _ => true end
  end.

(** ** Dictionaries *)

Fixpoint dict_get (k : string) (d : dict) : option json :=
  match d with
  | [] => None
  | (k', v) :: d' => if (k' =? k)%string then Some v else dict_get k d'
  end.

(** [d[k] = v]: an existing key keeps its position, a new key goes last. *)
Fixpoint dict_set (k : string) (v : json) (d : dict) : dict :=
  match d with
  | [] => [(k, v)]
  | (k', v') :: d' =>
      if (k' =? k)%string then (k, v) :: d' else (k', v') :: dict_set k v d'
  end.

Definition dict_keys (d : dict) : list string := map fst d.

Definition dict_has (k : string) (d : dict) : bool :=
  match dict_get k d with Some _ => true | None => false end.

(** ** Strings *)

(** [needle in hay] on two strings. *)
Fixpoint is_infix (needle hay : string) : bool :=
  String.prefix needle hay ||
  match hay with
  | EmptyString => false
  | String _ hay' => is_infix needle hay'
  end.

(** [s.replace(c, new)] for a one-character [c]: every occurrence is
    replaced. *)
Fixpoint replace_char (c : ascii) (new : string) (s : string) : string :=
  match s with
  | EmptyString => EmptyString
  | String a s' =>
      if Ascii.eqb a c then new +++ replace_char c new s'
      else String a (replace_char c new s')
  end.

Definition lower_ascii (a : ascii) : ascii :=
  let n := nat_of_ascii a in
  if (Nat.leb 65 n && Nat.leb n 90)%bool then ascii_of_nat (n + 32) else a.

Fixpoint lower (s : string) : string :=
  match s with
  | EmptyString => EmptyString
  | String a s' => String (lower_ascii a) (lower s')
  end.

(** [str(n)] for an integer. *)
Definition str_of_Z (n : Z) : string := NilZero.string_of_int (Z.to_int n).

(** ** Operators on values *)

Definition is_str (s : string) (v : json) : bool :=
  match v with
  | JStr s' => (s' =? s)%string
  | _ => false
  end.

(** [k in c] for a string [k]. *)
Definition py_contains (c : json) (k : string) : res bool :=
  match c with
  | JObj d => Ok (dict_has k d)
  | JArr l => Ok (existsb (is_str k) l)
  | JStr s => Ok (is_infix k s)
  | _ => Raise TypeError
  end.

(** [c[k]] for a string [k]. *)
Definition py_getitem (c : json) (k : string) : res json :=
  match c with
  | JObj d => match dict_get k d with Some v => Ok v | None => Raise KeyError end
  | _ => Raise TypeError
  end.

(** [c[0]]. *)
Definition py_first (c : json) : res json :=
  match c with
  | JArr (x :: _) => Ok x
  | JArr [] => Raise IndexError
  | JStr (String a _) => Ok (JStr (String a EmptyString))
  | JStr EmptyString => Raise IndexError
  | JObj _ => Raise KeyError
  | _ => Raise TypeError
  end.

(** [c[k] = v] for a string [k]. *)
Definition py_setitem (c : json) (k : string) (v : json) : res json :=
  match c with
  | JObj d => Ok (JObj (dict_set k v d))
  | _ => Raise TypeError
  end.

(** [c.get(k, default)]: only dictionaries have the method. *)
Definition py_get (c : json) (k : string) (default : json) : res json :=
  match c with
  | JObj d => Ok (match dict_get k d with Some v => v | None => default end)
  | _ => Raise AttributeError
  end.

(** [v.replace('*', '_test')]: only strings have the method. *)
Definition py_replace_star (v : json) : res string :=
  match v with
  | JStr s => Ok (replace_char "*"%char "_test" s)
  | _ => Raise AttributeError
  end.

(** [v in ['created', 'updated']]. *)
Definition in_created_updated (v : json) : bool :=
  is_str "created" v || is_str "updated" v.

(** The object at [c[p1][p2]...] after the assignment
    [c[p1][p2]...[k] = v].  The dictionaries on the way are mutated in
    place, so each keeps its keys in place and holds the changed child. *)
Fixpoint setitem_at (path : list string) (k : string) (v : json) (c : json)
  : res json :=
  match path with
  | [] => py_setitem c k v
  | p :: path' =>
      (sub <- py_getitem c p ;;
       sub' <- setitem_at path' k v sub ;;
       py_setitem c p sub')%res
  end.

(** The field reached by a path of keys, when present. *)
Fixpoint get_path (path : list string) (c : json) : option json :=
  match path with
  | [] => Some c
  | p :: path' =>
      match c with
      | JObj d =>
          match dict_get p d with
          | Some v => get_path path' v
          | None => None
          end
      | _ => None
      end
  end.

Fixpoint is_prefix (p q : list string) : bool :=
  match p, q with
  | [], _ => true
  | a :: p', b :: q' => (a =? b)%string && is_prefix p' q'
  | _ :: _, [] => false
  end.

(** Two paths are unrelated when neither leads through the other. *)
Definition unrelated (p q : list string) : bool :=
  negb (is_prefix p q) && negb (is_prefix q p).

(** ** [int(...)] *)

(** [int(f)] on a finite float truncates toward zero. *)
Definition trunc_float (m e : Z) : Z :=
  if 0 <=? e then m * 2 ^ e else Z.quot m (2 ^ (- e)).

(** ** Effects

    The standard output of a child process is either a text on which
    [json.loads] returns [v], or a text on which it raises
    [JSONDecodeError]. *)
Inductive output : Type :=
| Json (v : json)
| Text (s : string).

(** A child process that ran to its end. *)
Inductive proc : Type :=
| Exit (returncode : Z) (stdout : output).

(** An argument of a command line; [Dumps data] stands for the text
    [json.dumps(data)]. *)
Inductive arg : Type :=
| A (s : string)
| Dumps (data : json).

Definition command := list arg.

(** A printed line: the literal parts of the f-string and the values put
    between them. *)
Inductive frag : Type :=
| Lit (s : string)
| Val (v : json)
| Exc (e : exn).

Definition message := list frag.

(** Programs: what the script does next, and how it goes on from the
    answer. *)
Inductive prog (A : Type) : Type :=
| Ret (a : A)
| Throw (e : exn)
| Print (m : message) (k : prog A)
| Run (c : command) (k : proc -> prog A)
| Input (prompt : string) (k : option string -> prog A)
| Time (k : Z -> prog A)
| Sleep (secs : Z) (k : prog A).
Arguments Ret {A} a.
Arguments Throw {A} e.
Arguments Print {A} m k.
Arguments Run {A} c k.
Arguments Input {A} prompt k.
Arguments Time {A} k.
Arguments Sleep {A} secs k.

Fixpoint bind {A B} (p : prog A) (f : A -> prog B) : prog B :=
  match p with
  | Ret a => f a
  | Throw e => Throw e
  | Print m k => Print m (bind k f)
  | Run c k => Run c (fun r => bind (k r) f)
  | Input s k => Input s (fun l => bind (k l) f)
  | Time k => Time (fun t => bind (k t) f)
  | Sleep n k => Sleep n (bind k f)
  end.

(** [try: p except Exception as e: handler e]. *)
Fixpoint catch {A} (p : prog A) (handler : exn -> prog A) : prog A :=
  match p with
  | Ret a => Ret a
  | Throw e => handler e
  | Print m k => Print m (catch k handler)
  | Run c k => Run c (fun r => catch (k r) handler)
  | Input s k => Input s (fun l => catch (k l) handler)
  | Time k => Time (fun t => catch (k t) handler)
  | Sleep n k => Sleep n (catch k handler)
  end.

Definition lift {A} (r : res A) : prog A :=
  match r with
  | Ok a => Ret a
  | Raise e => Throw e
  end.

Definition print (m : message) : prog unit := Print m (Ret tt).

Declare Scope prog_scope.
Delimit Scope prog_scope with prog.
Notation "x <- p ;; k" := (bind p (fun x => k))
  (at level 61, p at next level, right associativity) : prog_scope.
Notation "p ;; k" := (bind p (fun _ => k))
  (at level 61, right associativity) : prog_scope.

(** [for x in l: s = body x s], the loop variables carried in [s]. *)
Fixpoint for_loop {A S} (l : list A) (body : A -> S -> prog S) (s : S)
  : prog S :=
  match l with
  | [] => Ret s
  | x :: l' => bind (body x s) (for_loop l' body)
  end.

(** What happened, in order. *)
Inductive event : Type :=
| ERun (c : command) (r : proc)
| EPrint (m : message)
| EInput (prompt : string) (line : option string)
| ETime (t : Z)
| ESleep (secs : Z).

Definition trace := list event.

(** The world outside the script: its answers may depend on everything
    that happened before. *)
Record env : Type := {
  on_run : trace -> command -> proc;
  on_input : trace -> string -> option string;
  on_time : trace -> Z
}.

(** Runs [p] in [w] after the history [h]; gives the events of [p] and
    its outcome. *)
Fixpoint exec {A} (w : env) (h : trace) (p : prog A) : trace * res A :=
  match p with
  | Ret a => ([], Ok a)
  | Throw e => ([], Raise e)
  | Print m k =>
      let (t, r) := exec w (h ++ [EPrint m]) k in (EPrint m :: t, r)
  | Run c k =>
      let a := on_run w h c in
      let (t, r) := exec w (h ++ [ERun c a]) (k a) in (ERun c a :: t, r)
  | Input s k =>
      let a := on_input w h s in
      let (t, r) := exec w (h ++ [EInput s a]) (k a) in (EInput s a :: t, r)
  | Time k =>
      let a := on_time w h in
      let (t, r) := exec w (h ++ [ETime a]) (k a) in (ETime a :: t, r)
  | Sleep n k =>
      let (t, r) := exec w (h ++ [ESleep n]) k in (ESleep n :: t, r)
  end.

(** [input(prompt)]: end of input raises [EOFError]. *)
Definition py_input (prompt : string) : prog string :=
  Input prompt (fun line =>
    match line with
    | Some s => Ret s
    | None => Throw EOFError
    end).

(** [v.items()]: only dictionaries have the method. *)
Definition py_items (v : json) : res dict :=
  match v with
  | JObj d => Ok d
  | _ => Raise AttributeError
  end.

(** [not c or k not in c]. *)
Definition absent_or_lacks (c : json) (k : string) : res bool :=
  if negb (truthy c) then Ok true
  else (has <- py_contains c k ;; Ok (negb has))%res.

Definition nl : string := String "010"%char EmptyString.

(** ** The script *)

Definition elasticsearch_url : string :=
  "https://vpc-alero-qa-1-l32rqdjyd567ba76iimggxmmom.us-east-1.es.amazonaws.com".
Definition source_template : string := "audit-v1".
Definition target_template : string := "sharding_test_template".
Definition template_to_change : list string := [target_template].

(** The document of [create_test_document] and the last line of the
    testing step, by outcome. *)
Definition probe_document (timestamp : Z) : json :=
  JObj [("test_field", JStr "test_value");
        ("timestamp", JInt timestamp);
        ("description", JStr "Test document for template validation")].

Definition failed_to_test (template_name : string) : message :=
  [Lit "Failed to test template "; Val (JStr template_name); Lit nl].

Definition verification_failed (template_name : string) : message :=
  [Lit "Template "; Val (JStr template_name);
   Lit (" was updated but verification failed" +++ nl)].

Definition verification_passed (template_name : string) : message :=
  [Lit "Template "; Val (JStr template_name);
   Lit (" was successfully updated and verified" +++ nl)].

(** [os.environ.get(k, default)]. *)
Fixpoint environ_get (environ : list (string * string)) (k default : string)
  : string :=
  match environ with
  | [] => default
  | (k', v) :: environ' =>
      if (k' =? k)%string then v else environ_get environ' k default
  end.

Definition opensearch_url (environ : list (string * string)) : string :=
  environ_get environ "ELASTICSEARCH_URL" elasticsearch_url.

(** [run_command(command)], with [parse_json] left at its default as in
    every call of the script.  [subprocess.run(..., check=True)] raises on
    a non-zero exit status. *)
Definition run_command (cmd : command) : prog json :=
  Run cmd (fun result =>
    match result with
    | Exit returncode stdout =>
        if negb (returncode =? 0) then Throw (CalledProcessError returncode)
        else
          match stdout with
          | Json v => Ret v
          | Text s => Print [Lit "Failed to parse JSON: "; Val (JStr s)]
                        (Ret JNull)
          end
    end).

(** The URL [f"{elasticsearch_url}/{endpoint}"]. *)
Definition at_cluster (endpoint : string) : string :=
  elasticsearch_url +++ "/" +++ endpoint.

Definition curl_command (method endpoint : string) (data : json) : command :=
  let cmd := [A "curl"; A "-s"; A "-X"; A method; A (at_cluster endpoint);
              A "-H"; A "Content-Type: application/json"] in
  if truthy data then cmd ++ [A "-d"; Dumps data] else cmd.

Definition opensearch_command (method endpoint : string) (data : json)
  : prog json :=
  run_command (curl_command method endpoint data).

Definition get_templates : prog json :=
  (print [Lit "Retrieving templates..."] ;;
   opensearch_command "GET" "_template" JNull)%prog.

(** An entry of [template_details]. *)
Record detail : Type := {
  name : string;
  shards : json;
  replicas : json;
  test_index : string
}.

(** The body of the [try] in [get_template_details], for one template. *)
Definition template_detail (template_name : string) (template_data : json)
  : res detail :=
  (s <- py_get template_data "settings" (JObj []) ;;
   settings <- py_get s "index" (JObj []) ;;
   shards <- py_get settings "number_of_shards" (JStr "default") ;;
   replicas <- py_get settings "number_of_replicas" (JStr "default") ;;
   has <- py_contains template_data "index_patterns" ;;
   pattern <- (if has : bool then
                 (patterns <- py_getitem template_data "index_patterns" ;;
                  first <- py_first patterns ;;
                  py_replace_star first)
               else Ok (template_name +++ "_test")) ;;
   Ok {| name := template_name; shards := shards; replicas := replicas;
         test_index := pattern |})%res.

Definition get_template_details (templates : dict) : prog (list detail) :=
  for_loop templates
    (fun (item : string * json) template_details =>
       let (template_name, template_data) := item in
       match template_detail template_name template_data with
       | Ok d => Ret (template_details ++ [d])
       | Raise e =>
           Print [Lit "Error processing template "; Val (JStr template_name);
                  Lit ": "; Exc e] (Ret template_details)
       end)
    [].

(** Lines 83 to 90 of [update_template]: the two settings are written
    into the fetched template, the objects on the way made when missing. *)
Definition modify_settings (template_config : json) (shards replicas : Z)
  : res json :=
  (has_settings <- py_contains template_config "settings" ;;
   c1 <- (if has_settings : bool then Ok template_config
          else py_setitem template_config "settings" (JObj [])) ;;
   settings <- py_getitem c1 "settings" ;;
   has_index <- py_contains settings "index" ;;
   c2 <- (if has_index : bool then Ok c1
          else setitem_at ["settings"] "index" (JObj []) c1) ;;
   c3 <- setitem_at ["settings"; "index"] "number_of_shards"
           (JStr (str_of_Z shards)) c2 ;;
   setitem_at ["settings"; "index"] "number_of_replicas"
     (JStr (str_of_Z replicas)) c3)%res.

(** [response and response.get('acknowledged', False)]. *)
Definition acknowledged (response : json) : res json :=
  if truthy response then py_get response "acknowledged" (JBool false)
  else Ok response.

Definition update_template (template_name : string) (shards replicas : Z)
  : prog json :=
  (print [Lit "Updating template "; Val (JStr template_name); Lit " to ";
          Val (JInt shards); Lit " shard(s) and "; Val (JInt replicas);
          Lit " replica(s)..."] ;;
   current_template <-
     opensearch_command "GET" ("_template/" +++ template_name) JNull ;;
   missing <- lift (absent_or_lacks current_template template_name) ;;
   if missing : bool then
     print [Lit "Failed to retrieve template "; Val (JStr template_name)] ;;
     Ret (JBool false)
   else
     template_config <- lift (py_getitem current_template template_name) ;;
     template_config <- lift (modify_settings template_config shards replicas) ;;
     response <-
       opensearch_command "PUT" ("_template/" +++ template_name)
         template_config ;;
     success <- lift (acknowledged response) ;;
     (if truthy success then
        print [Lit "Successfully updated template "; Val (JStr template_name)]
      else
        print [Lit "Failed to update template "; Val (JStr template_name);
               Lit ": "; Val response]) ;;
     Ret success)%prog.

(** [response and 'result' in response and
     response['result'] in ['created', 'updated']]. *)
Definition created (response : json) : res json :=
  if truthy response then
    (has <- py_contains response "result" ;;
     if has : bool then
       (result <- py_getitem response "result" ;;
        Ok (JBool (in_created_updated result)))
     else Ok (JBool false))%res
  else Ok response.

Definition create_test_document (index_name : string) : prog json :=
  (print [Lit "Creating test document in index "; Val (JStr index_name);
          Lit "..."] ;;
   timestamp <- Time (fun t => Ret t) ;;
   let doc := probe_document timestamp in
   response <- opensearch_command "POST" (index_name +++ "/_doc") doc ;;
   success <- lift (created response) ;;
   (if truthy success then
      print [Lit "Successfully created test document in ";
             Val (JStr index_name)]
    else
      print [Lit "Failed to create test document in "; Val (JStr index_name);
             Lit ": "; Val response]) ;;
   Ret success)%prog.

Definition delete_index (index_name : string) : prog json :=
  (print [Lit "Deleting index "; Val (JStr index_name); Lit "..."] ;;
   response <- opensearch_command "DELETE" index_name JNull ;;
   success <- lift (acknowledged response) ;;
   (if truthy success then
      print [Lit "Successfully deleted index "; Val (JStr index_name)]
    else
      print [Lit "Failed to delete index "; Val (JStr index_name);
             Lit ": "; Val response]) ;;
   Ret success)%prog.

(** Lines 173 to 175 of [copy_template]: the three fields written into
    the source template. *)
Definition retarget (target_template_data : json) (target_template : string)
  : res json :=
  (d1 <- py_setitem target_template_data "order" (JInt 0) ;;
   d2 <- py_setitem d1 "version" (JInt 1) ;;
   py_setitem d2 "index_patterns" (JArr [JStr (target_template +++ "*")]))%res.

Definition copy_template (source_template target_template : string)
  : prog json :=
  (print [Lit "Copying settings from "; Val (JStr source_template);
          Lit " to "; Val (JStr target_template); Lit "..."] ;;
   source_template_data <-
     opensearch_command "GET" ("_template/" +++ source_template) JNull ;;
   missing <- lift (absent_or_lacks source_template_data source_template) ;;
   if missing : bool then
     print [Lit "Failed to retrieve source template ";
            Val (JStr source_template)] ;;
     Ret (JBool false)
   else
     target_template_data <-
       lift (py_getitem source_template_data source_template) ;;
     target_template_data <-
       lift (retarget target_template_data target_template) ;;
     response <-
       opensearch_command "PUT" ("_template/" +++ target_template)
         target_template_data ;;
     success <- lift (acknowledged response) ;;
     (if truthy success then
        print [Lit "Successfully copied settings to ";
               Val (JStr target_template)]
      else
        print [Lit "Failed to copy settings to "; Val (JStr target_template);
               Lit ": "; Val response]) ;;
     Ret success)%prog.

(** The comprehension
    [{k: v for k, v in templates.items() if k in template_to_change}]. *)
Definition filter_templates (items : dict) : dict :=
  fold_left
    (fun (templates : dict) (item : string * json) =>
       let (k, v) := item in
       if existsb (String.eqb k) template_to_change then dict_set k v templates
       else templates)
    items [].

(** ** The specification's reading of the test index

    The substitution as the specification words it: the first wildcard
    alone is replaced. *)
Fixpoint replace_first_char (c : ascii) (new : string) (s : string) : string :=
  match s with
  | EmptyString => EmptyString
  | String a s' =>
      if Ascii.eqb a c then new +++ s'
      else String a (replace_first_char c new s')
  end.

Fixpoint count_char (c : ascii) (s : string) : nat :=
  match s with
  | EmptyString => O
  | String a s' => ((if Ascii.eqb a c then 1 else 0) + count_char c s')%nat
  end.

(** ** Reading an answer *)

(** What [run_command] makes of the answer of a child process. *)
Definition returned (a : proc) : res json :=
  match a with
  | Exit returncode stdout =>
      if negb (returncode =? 0) then Raise (CalledProcessError returncode)
      else match stdout with
           | Json v => Ok v
           | Text _ => Ok JNull
           end
  end.

(** An answer that is present and holds an affirmative [acknowledged]. *)
Definition affirmative (a : proc) : bool :=
  match returned a with
  | Ok (JObj d) =>
      match dict_get "acknowledged" d with
      | Some v => truthy v
      | None => false
      end
  | _ => false
  end.

(** The body [update_template] is about to PUT after the answer [a] to
    its GET: none when the template is reported missing. *)
Definition prepared (template_name : string) (shards replicas : Z) (a : proc)
  : res (option json) :=
  (current_template <- returned a ;;
   missing <- absent_or_lacks current_template template_name ;;
   if missing : bool then Ok None
   else
     template_config <- py_getitem current_template template_name ;;
     template_config <- modify_settings template_config shards replicas ;;
     Ok (Some template_config))%res.

(** The body [copy_template] is about to PUT after the answer [a] to its
    GET: none when the source template is reported missing. *)
Definition copy_prepared (source_template target_template : string) (a : proc)
  : res (option json) :=
  (source_template_data <- returned a ;;
   missing <- absent_or_lacks source_template_data source_template ;;
   if missing : bool then Ok None
   else
     target_template_data <- py_getitem source_template_data source_template ;;
     target_template_data <- retarget target_template_data target_template ;;
     Ok (Some target_template_data))%res.

Definition shards_path : list string :=
  ["settings"; "index"; "number_of_shards"].
Definition replicas_path : list string :=
  ["settings"; "index"; "number_of_replicas"].

(** [int(s)] on a string: [None] when it raises [ValueError].  The
    development holds whatever syntax of integer literals is accepted;
    what is used of it is that [int('-1')] is [-1]. *)
Class IntOfStr : Type := {
  int_of_str : string -> option Z;
  int_of_minus_one : int_of_str "-1" = Some (-1)
}.

Section Script.

Context {parser : IntOfStr}.

Definition py_int (v : json) : res Z :=
  match v with
  | JBool b => Ok (if b then 1 else 0)
  | JInt n => Ok n
  | JFloat FNan => Raise ValueError
  | JFloat (FInf _) => Raise OverflowError
  | JFloat (FFin m e) => Ok (trunc_float m e)
  | JStr s =>
      match int_of_str s with
      | Some n => Ok n
      | None => Raise ValueError
      end
  | _ => Raise TypeError
  end.

(** [int(settings.get(field, '-1'))]. *)
Definition parsed_count (settings : json) (field : string) : res Z :=
  (v <- py_get settings field (JStr "-1") ;; py_int v)%res.

(** [response[index_name].get('settings', {}).get('index', {})]. *)
Definition index_settings (response : json) (index_name : string) : res json :=
  (entry <- py_getitem response index_name ;;
   s <- py_get entry "settings" (JObj []) ;;
   py_get s "index" (JObj []))%res.

Definition verify_index_settings (index_name : string)
  (expected_shards expected_replicas : Z) : prog json :=
  (print [Lit "Verifying settings for index "; Val (JStr index_name);
          Lit "..."] ;;
   response <- opensearch_command "GET" (index_name +++ "/_settings") JNull ;;
   missing <- lift (absent_or_lacks response index_name) ;;
   if missing : bool then
     print [Lit "Failed to retrieve settings for index ";
            Val (JStr index_name)] ;;
     Ret (JBool false)
   else
     settings <- lift (index_settings response index_name) ;;
     actual_shards <- lift (parsed_count settings "number_of_shards") ;;
     actual_replicas <- lift (parsed_count settings "number_of_replicas") ;;
     if (actual_shards =? expected_shards)
        && (actual_replicas =? expected_replicas) then
       print [Lit "Index "; Val (JStr index_name);
              Lit " has correct settings: "; Val (JInt actual_shards);
              Lit " shard(s) and "; Val (JInt actual_replicas);
              Lit " replica(s)"] ;;
       Ret (JBool true)
     else
       print [Lit "Index "; Val (JStr index_name);
              Lit " has incorrect settings: "; Val (JInt actual_shards);
              Lit " shard(s) and "; Val (JInt actual_replicas);
              Lit " replica(s)"] ;;
       Ret (JBool false))%prog.

(** What [verify_index_settings] returns after the answer [a] to its
    GET. *)
Definition verified (index_name : string)
  (expected_shards expected_replicas : Z) (a : proc) : res json :=
  (response <- returned a ;;
   missing <- absent_or_lacks response index_name ;;
   if missing : bool then Ok (JBool false)
   else
     settings <- index_settings response index_name ;;
     actual_shards <- parsed_count settings "number_of_shards" ;;
     actual_replicas <- parsed_count settings "number_of_replicas" ;;
     Ok (JBool ((actual_shards =? expected_shards)
                && (actual_replicas =? expected_replicas))))%res.

(** The lines printed for one template of the listing. *)
Definition display_template (template : detail) (idx : Z) : prog Z :=
  (print [Val (JInt idx); Lit ". "; Val (JStr (name template))] ;;
   print [Lit "   Shards: "; Val (shards template)] ;;
   print [Lit "   Replicas: "; Val (replicas template)] ;;
   print [Lit "   Test index: "; Val (JStr (test_index template))] ;;
   Ret (idx + 1))%prog.

(** Step 2 of [main], for one template. *)
Definition update_step (template : detail)
  (lists : list detail * list detail) : prog (list detail * list detail) :=
  let (updated_templates, failed_templates) := lists in
  (ok <- update_template (name template) 1 1 ;;
   if truthy ok then Ret (updated_templates ++ [template], failed_templates)
   else Ret (updated_templates, failed_templates ++ [template]))%prog.

(** Step 3 of [main], for one updated template. *)
Definition test_template (template : detail) : prog unit :=
  let test_index := test_index template in
  (ok <- create_test_document test_index ;;
   if truthy ok then
     Sleep 2 (Ret tt) ;;
     verified <- verify_index_settings test_index 1 1 ;;
     delete_index test_index ;;
     if truthy verified then print (verification_passed (name template))
     else print (verification_failed (name template))
   else print (failed_to_test (name template)))%prog.

Definition summary (template_details updated_templates failed_templates
  : list detail) : prog unit :=
  (print [Lit (nl +++ "Summary:")] ;;
   print [Lit "--------"] ;;
   print [Lit "Templates updated: ";
          Val (JInt (Z.of_nat (List.length updated_templates))); Lit "/";
          Val (JInt (Z.of_nat (List.length template_details)))] ;;
   match failed_templates with
   | [] => Ret tt
   | _ =>
       print [Lit (nl +++ "Failed templates:")] ;;
       for_loop failed_templates
         (fun template _ => print [Lit "- "; Val (JStr (name template))]) tt
   end)%prog.

(** What [main] does once the user has agreed. *)
Definition update_and_test (template_details : list detail) : prog json :=
  (lists <- for_loop template_details update_step ([], []) ;;
   let (updated_templates, failed_templates) :=
     lists : list detail * list detail in
   print [Lit (nl +++ "Testing updated templates...")] ;;
   print [Lit "---------------------------"] ;;
   for_loop updated_templates (fun template _ => test_template template) tt ;;
   summary template_details updated_templates failed_templates ;;
   Ret (JInt 0))%prog.

(** The listing and the question of [main]. *)
Definition show_and_confirm (template_details : list detail) : prog json :=
  (print [Lit (nl +++ "Current Templates:")] ;;
   print [Lit "-----------------"] ;;
   for_loop template_details display_template 1 ;;
   proceed <- py_input
     (nl +++ "Update all templates to 1 shard and 1 replica? (y/n): ") ;;
   if negb (lower proceed =? "y")%string then
     print [Lit "Operation canceled"] ;;
     Ret JNull
   else update_and_test template_details)%prog.

(** The body of the [try] of [main]; [return] gives [None]. *)
Definition main_body : prog json :=
  (print [Lit "OpenSearch Template Management Tool"] ;;
   print [Lit ("=================================" +++ nl)] ;;
   templates <- get_templates ;;
   if negb (truthy templates) then
     print [Lit "No templates found or error retrieving templates"] ;;
     Ret JNull
   else
     items <- lift (py_items templates) ;;
     let templates := filter_templates items in
     template_details <- get_template_details templates ;;
     show_and_confirm template_details)%prog.

Definition main : prog json :=
  catch main_body
    (fun e => Print [Lit "An error occurred: "; Exc e] (Ret (JInt 1))).

End Script.

(** ** Reading a trace *)

Definition method_of (c : command) : string :=
  match nth_error c 3 with
  | Some (A m) => m
  | _ => ""
  end.

Definition url_of (c : command) : string :=
  match nth_error c 4 with
  | Some (A u) => u
  | _ => ""
  end.

Definition data_of (c : command) : option json :=
  match nth_error c 8 with
  | Some (Dumps d) => Some d
  | _ => None
  end.

(** The requests of a given method, in order. *)
Fixpoint requests (method : string) (t : trace) : list command :=
  match t with
  | [] => []
  | ERun c _ :: t' =>
      if (method_of c =? method)%string then c :: requests method t'
      else requests method t'
  | _ :: t' => requests method t'
  end.

(** The child processes of a run with their answers, in order. *)
Fixpoint runs_of (t : trace) : list (command * proc) :=
  match t with
  | [] => []
  | ERun c a :: t' => (c, a) :: runs_of t'
  | _ :: t' => runs_of t'
  end.

(** The name shown by a line of the listing of [main],
    [f"{idx}. {template['name']}"]. *)
Definition listed (ev : event) : option string :=
  match ev with
  | EPrint [Val (JInt _); Lit sep; Val (JStr n)] =>
      if (sep =? ". ")%string then Some n else None
  | _ => None
  end.

(** The names shown in the listing of [main]. *)
Fixpoint displayed (t : trace) : list string :=
  match t with
  | [] => []
  | ev :: t' =>
      match listed ev with
      | Some n => n :: displayed t'
      | None => displayed t'
      end
  end.


(** Lines and the question of [main]. *)
Definition question : string :=
  nl +++ "Update all templates to 1 shard and 1 replica? (y/n): ".

Definition error_line (e : exn) : event :=
  EPrint [Lit "An error occurred: "; Exc e].

Definition no_templates_line : event :=
  EPrint [Lit "No templates found or error retrieving templates"].

Definition canceled_line : event := EPrint [Lit "Operation canceled"].

(** The heading of [main] and its discovery request, answered by [a]. *)
Definition discovery (a : proc) : trace :=
  [EPrint [Lit "OpenSearch Template Management Tool"];
   EPrint [Lit ("=================================" +++ nl)];
   EPrint [Lit "Retrieving templates..."];
   ERun (curl_command "GET" "_template" JNull) a].

Definition is_object (v : json) : bool :=
  match v with
  | JObj _ => true
  | _ => false
  end.

(** [k in template_to_change]. *)
Definition allowed (k : string) : bool :=
  existsb (String.eqb k) template_to_change.

(** The entries that [get_template_details] keeps. *)
Fixpoint details_of (templates : dict) : list detail :=
  match templates with
  | [] => []
  | (template_name, template_data) :: templates' =>
      match template_detail template_name template_data with
      | Ok d => d :: details_of templates'
      | Raise _ => details_of templates'
      end
  end.

(** An event that is not a line of the listing and, when it is a PUT or
    a POST, addresses a template of [details] or its test index. *)
Definition tame (details : list detail) (ev : event) : Prop :=
  match ev with
  | EPrint (Lit _ :: _) => True
  | EPrint _ => False
  | ERun c _ =>
      (method_of c = "PUT" ->
       exists t, In t details /\
                 url_of c = at_cluster ("_template/" +++ name t)) /\
      (method_of c = "POST" ->
       exists t, In t details /\
                 url_of c = at_cluster (test_index t +++ "/_doc"))
  | _ => True
  end.

(** A PUT, when the event is one, carries a body whose shard and replica
    counts are both the string of 1. *)
Definition one_each (ev : event) : Prop :=
  match ev with
  | ERun c _ =>
      method_of c = "PUT" ->
      exists body,
        data_of c = Some body /\
        get_path shards_path body = Some (JStr "1") /\
        get_path replicas_path body = Some (JStr "1")
  | _ => True
  end.

Definition careful (details : list detail) (ev : event) : Prop :=
  tame details ev /\ one_each ev.

(** The runs of [main], by the answer [a] to the discovery request and by
    the line the user types. *)
Definition main_outcome (a : proc) (tr : trace) (out : res json) : Prop :=
  match returned a with
  | Raise e => tr = discovery a ++ [error_line e] /\ out = Ok (JInt 1)
  | Ok v =>
      if truthy v then
        match v with
        | JObj templates =>
            let ds := details_of (filter_templates templates) in
            exists pre mid line rest,
              tr = discovery a ++ pre ++ mid ++ EInput question line :: rest
              /\ runs_of pre = [] /\
              displayed mid = map name ds /\ runs_of mid = [] /\
              match line with
              | None => rest = [error_line EOFError] /\ out = Ok (JInt 1)
              | Some s =>
                  if (lower s =? "y")%string then
                    Forall (careful ds) rest /\
                    (out = Ok (JInt 0) \/ out = Ok (JInt 1))
                  else rest = [canceled_line] /\ out = Ok JNull
              end
        | _ =>
            tr = discovery a ++ [error_line AttributeError] /\
            out = Ok (JInt 1)
        end
      else
        exists noise,
          tr = discovery a ++ noise ++ [no_templates_line] /\
          Forall (fun ev => exists m, ev = EPrint m) noise /\
          out = Ok JNull
  end.

(** Every event of every run of [p] satisfies [P], and every value it
    returns satisfies [Q]. *)
Definition sound {A} (P : event -> Prop) (Q : A -> Prop) (p : prog A) : Prop :=
  forall w h,
    Forall P (fst (exec w h p)) /\
    forall a, snd (exec w h p) = Ok a -> Q a.

(** ** Sample worlds *)

(** Integer literals made of decimal digits after an optional minus sign,
    on which [int] agrees with this reading. *)
Definition plain_decimal (s : string) : option Z :=
  option_map Z.of_int (NilZero.int_of_string s).

#[export] Instance plain_parser : IntOfStr :=
  {| int_of_str := plain_decimal; int_of_minus_one := eq_refl |}.

(** A cluster that answers by method and URL alone, and a user who types
    [line]. *)
Fixpoint answer_of (table : list (string * string * proc)) (c : command)
  : proc :=
  match table with
  | [] => Exit 0 (Text "")
  | (m, u, r) :: table' =>
      if ((m =? method_of c) && (u =? url_of c))%string then r
      else answer_of table' c
  end.

Definition scripted (table : list (string * string * proc))
  (line : option string) : env :=
  {| on_run := fun _ c => answer_of table c;
     on_input := fun _ _ => line;
     on_time := fun _ => 1700000000 |}.

Definition ack : proc :=
  Exit 0 (Json (JObj [("acknowledged", JBool true)])).

Definition stored_template : json :=
  JObj [("order", JInt 0);
        ("index_patterns", JArr [JStr "sharding_test_template*"]);
        ("settings", JObj [("index", JObj [("number_of_shards", JStr "5");
                                            ("number_of_replicas", JStr "2")])]);
        ("mappings", JObj [])].

(** The stored template after [update_template ... 1 1]. *)
Definition updated_template : json :=
  JObj [("order", JInt 0);
        ("index_patterns", JArr [JStr "sharding_test_template*"]);
        ("settings", JObj [("index", JObj [("number_of_shards", JStr "1");
                                            ("number_of_replicas", JStr "1")])]);
        ("mappings", JObj [])].

Definition listing : list (string * json) :=
  [("audit-v1", stored_template); ("sharding_test_template", stored_template)].

Definition test_index_name : string := "sharding_test_template_test".

Definition created_answer : proc :=
  Exit 0 (Json (JObj [("result", JStr "created")])).

Definition settings_answer : proc :=
  Exit 0 (Json (JObj [(test_index_name,
    JObj [("settings", JObj [("index",
      JObj [("number_of_shards", JStr "1");
            ("number_of_replicas", JStr "1")])])])])).

(** A cluster given by its answers to the six requests of the script. *)
Definition cluster (discovery fetched put probe settings deletion : proc)
  (line : option string) : env :=
  scripted
    [("GET", at_cluster "_template", discovery);
     ("GET", at_cluster ("_template/" +++ target_template), fetched);
     ("PUT", at_cluster ("_template/" +++ target_template), put);
     ("POST", at_cluster (test_index_name +++ "/_doc"), probe);
     ("GET", at_cluster (test_index_name +++ "/_settings"), settings);
     ("DELETE", at_cluster test_index_name, deletion)]
    line.

Definition fetched_answer (template : json) : proc :=
  Exit 0 (Json (JObj [(target_template, template)])).

(** Everything goes well. *)
Definition happy_world : env :=
  cluster (Exit 0 (Json (JObj listing))) (fetched_answer stored_template)
    ack created_answer settings_answer ack (Some "y").

(** The same cluster once the template has been updated. *)
Definition updated_world : env :=
  cluster (Exit 0 (Json (JObj listing))) (fetched_answer updated_template)
    ack created_answer settings_answer ack (Some "y").

(** The connection is lost after the probe document was created: [curl]
    exits with status 7 on the settings request. *)
Definition lost_connection_world : env :=
  cluster (Exit 0 (Json (JObj listing))) (fetched_answer stored_template)
    ack created_answer (Exit 7 (Text "")) ack (Some "y").

(** The connection is lost on the PUT. *)
Definition put_failure_world : env :=
  cluster (Exit 0 (Json (JObj listing))) (fetched_answer stored_template)
    (Exit 7 (Text "")) created_answer settings_answer ack (Some "y").



(** The probe document is refused. *)
Definition refused_answer : list (string * json) :=
  [("error", JStr "index_create_block_exception"); ("status", JInt 403)].

Definition refused_probe_world : env :=
  cluster (Exit 0 (Json (JObj listing))) (fetched_answer stored_template)
    ack (Exit 0 (Json (JObj refused_answer))) settings_answer ack (Some "y").



Definition sample_detail : detail :=
  {| name := target_template; shards := JStr "5"; replicas := JStr "2";
     test_index := test_index_name |}.

Definition get_request : command :=
  curl_command "GET" ("_template/" +++ target_template) JNull.

Definition put_request : command :=
  curl_command "PUT" ("_template/" +++ target_template) updated_template.

(** The source template of [copy_template] and what is written to the
    target. *)
Definition audit_template : json :=
  JObj [("order", JInt 5);
        ("index_patterns", JArr [JStr "audit-*"]);
        ("settings", JObj [("index", JObj [("number_of_shards", JStr "3");
                                            ("number_of_replicas", JStr "2")])]);
        ("mappings", JObj [])].

Definition copied_template : json :=
  JObj [("order", JInt 0);
        ("index_patterns", JArr [JStr "sharding_test_template*"]);
        ("settings", JObj [("index", JObj [("number_of_shards", JStr "3");
                                            ("number_of_replicas", JStr "2")])]);
        ("mappings", JObj []);
        ("version", JInt 1)].

Definition source_answer : proc :=
  Exit 0 (Json (JObj [(source_template, audit_template)])).

Definition copy_world : env :=
  scripted
    [("GET", at_cluster ("_template/" +++ source_template), source_answer);
     ("PUT", at_cluster ("_template/" +++ target_template), ack)]
    None.

(** The source template is not on the cluster. *)
Definition copy_missing_world : env :=
  scripted
    [("GET", at_cluster ("_template/" +++ source_template),
      Exit 0 (Json (JObj [])));
     ("PUT", at_cluster ("_template/" +++ target_template), ack)]
    None.

Definition source_request : command :=
  curl_command "GET" ("_template/" +++ source_template) JNull.

Definition copy_request : command :=
  curl_command "PUT" ("_template/" +++ target_template) copied_template.

Definition copied_detail : detail :=
  {| name := target_template; shards := JStr "3"; replicas := JStr "2";
     test_index := test_index_name |}.

Definition audit_detail : detail :=
  {| name := target_template; shards := JStr "3"; replicas := JStr "2";
     test_index := "audit-_test" |}.

(** The settings of the test index still hold the old counts. *)
Definition stale_settings : dict :=
  [("settings", JObj [("index",
      JObj [("number_of_shards", JStr "5");
            ("number_of_replicas", JStr "2")])])].

Definition stale_world : env :=
  cluster (Exit 0 (Json (JObj listing))) (fetched_answer stored_template)
    ack created_answer
    (Exit 0 (Json (JObj [(test_index_name, JObj stale_settings)]))) ack
    (Some "y").

(** The shard count of the test index is not a number. *)
Definition odd_index : dict :=
  [("number_of_shards", JStr "many"); ("number_of_replicas", JStr "1")].

Definition odd_settings : json :=
  JObj [(test_index_name,
         JObj [("settings", JObj [("index", JObj odd_index)])])].

Definition odd_world : env :=
  cluster (Exit 0 (Json (JObj listing))) (fetched_answer stored_template)
    ack created_answer (Exit 0 (Json odd_settings)) ack (Some "y").

(** The stored template has [settings] set to [null]. *)
Definition null_settings_template : json := JObj [("settings", JNull)].

Definition null_settings_world : env :=
  cluster (Exit 0 (Json (JObj listing)))
    (fetched_answer null_settings_template) ack created_answer
    settings_answer ack (Some "y").

(** The discovery request is answered by a page that is not JSON. *)
Definition gateway_answer : proc := Exit 0 (Text "502 Bad Gateway").

Definition gateway_world : env :=
  cluster gateway_answer (fetched_answer stored_template) ack created_answer
    settings_answer ack (Some "y").

(** Sample runs, evaluated. *)
Definition copy_trace : trace :=
  Eval vm_compute in
    fst (exec copy_world [] (copy_template source_template target_template)).

Definition copy_missing_trace : trace :=
  Eval vm_compute in
    fst (exec copy_missing_world []
           (copy_template source_template target_template)).

Definition happy_delete_trace : trace :=
  Eval vm_compute in
    fst (exec happy_world [] (delete_index test_index_name)).

Definition stale_verify_trace : trace :=
  Eval vm_compute in
    fst (exec stale_world [] (verify_index_settings test_index_name 1 1)).

Definition odd_verify_trace : trace :=
  Eval vm_compute in
    fst (exec odd_world [] (verify_index_settings test_index_name 1 1)).

Definition null_settings_trace : trace :=
  Eval vm_compute in
    fst (exec null_settings_world [] (update_template target_template 1 1)).

Definition happy_loop_trace : trace :=
  Eval vm_compute in
    fst (exec happy_world [] (for_loop [sample_detail] update_step ([], []))).

Definition gateway_main_trace : trace :=
  Eval vm_compute in fst (exec gateway_world [] main).



Definition happy_update_trace : trace :=
  Eval vm_compute in
    fst (exec happy_world [] (update_template target_template 1 1)).

Definition updated_update_trace : trace :=
  Eval vm_compute in
    fst (exec updated_world [] (update_template target_template 1 1)).

Definition put_failure_trace : trace :=
  Eval vm_compute in
    fst (exec put_failure_world [] (update_template target_template 1 1)).

Definition happy_verify_trace : trace :=
  Eval vm_compute in
    fst (exec happy_world [] (verify_index_settings test_index_name 1 1)).

Definition happy_create_trace : trace :=
  Eval vm_compute in
    fst (exec happy_world [] (create_test_document test_index_name)).

Definition happy_test_trace : trace :=
  Eval vm_compute in fst (exec happy_world [] (test_template sample_detail)).

Definition refused_create_trace : trace :=
  Eval vm_compute in
    fst (exec refused_probe_world [] (create_test_document test_index_name)).

Definition refused_test_trace : trace :=
  Eval vm_compute in
    fst (exec refused_probe_world [] (test_template sample_detail)).

Definition lost_test_trace : trace :=
  Eval vm_compute in
    fst (exec lost_connection_world [] (test_template sample_detail)).

Definition happy_main_trace : trace :=
  Eval vm_compute in fst (exec happy_world [] main).

Definition lost_main_trace : trace :=
  Eval vm_compute in fst (exec lost_connection_world [] main).


Section Properties.

Context {parser : IntOfStr}.

(** ** Running programs *)

Lemma exec_bind {A B} (w : env) (p : prog A) (f : A -> prog B) (h : trace) :
  exec w h (bind p f) =
  match exec w h p with
  | (t1, Ok a) => let (t2, r) := exec w (h ++ t1) (f a) in (t1 ++ t2, r)
  | (t1, Raise e) => (t1, Raise e)
  end.
Proof.
  revert h.
  induction p as [a|e|m k IH|c k IH|s k IH|k IH|n k IH]; intros h; simpl.
  - rewrite app_nil_r. now destruct (exec w h (f a)).
  - reflexivity.
  - rewrite IH. destruct (exec w (h ++ [EPrint m]) k) as [t1 [a|e]]; auto.
    rewrite <- app_assoc. simpl. now destruct (exec w _ (f a)).
  - rewrite IH.
    destruct (exec w (h ++ [ERun c (on_run w h c)]) _) as [t1 [a|e]]; auto.
    rewrite <- app_assoc. simpl. now destruct (exec w _ (f a)).
  - rewrite IH.
    destruct (exec w (h ++ [EInput s (on_input w h s)]) _) as [t1 [a|e]]; auto.
    rewrite <- app_assoc. simpl. now destruct (exec w _ (f a)).
  - rewrite IH.
    destruct (exec w (h ++ [ETime (on_time w h)]) _) as [t1 [a|e]]; auto.
    rewrite <- app_assoc. simpl. now destruct (exec w _ (f a)).
  - rewrite IH. destruct (exec w (h ++ [ESleep n]) k) as [t1 [a|e]]; auto.
    rewrite <- app_assoc. simpl. now destruct (exec w _ (f a)).
Qed.

Lemma exec_catch {A} (w : env) (p : prog A) (handler : exn -> prog A)
  (h : trace) :
  exec w h (catch p handler) =
  match exec w h p with
  | (t1, Ok a) => (t1, Ok a)
  | (t1, Raise e) => let (t2, r) := exec w (h ++ t1) (handler e) in (t1 ++ t2, r)
  end.
Proof.
  revert h.
  induction p as [a|e|m k IH|c k IH|s k IH|k IH|n k IH]; intros h; simpl.
  - reflexivity.
  - rewrite app_nil_r. now destruct (exec w h (handler e)).
  - rewrite IH. destruct (exec w (h ++ [EPrint m]) k) as [t1 [a|e]]; auto.
    rewrite <- app_assoc. simpl. now destruct (exec w _ (handler e)).
  - rewrite IH.
    destruct (exec w (h ++ [ERun c (on_run w h c)]) _) as [t1 [a|e]]; auto.
    rewrite <- app_assoc. simpl. now destruct (exec w _ (handler e)).
  - rewrite IH.
    destruct (exec w (h ++ [EInput s (on_input w h s)]) _) as [t1 [a|e]]; auto.
    rewrite <- app_assoc. simpl. now destruct (exec w _ (handler e)).
  - rewrite IH.
    destruct (exec w (h ++ [ETime (on_time w h)]) _) as [t1 [a|e]]; auto.
    rewrite <- app_assoc. simpl. now destruct (exec w _ (handler e)).
  - rewrite IH. destruct (exec w (h ++ [ESleep n]) k) as [t1 [a|e]]; auto.
    rewrite <- app_assoc. simpl. now destruct (exec w _ (handler e)).
Qed.

Lemma exec_lift {A} (w : env) (h : trace) (r : res A) :
  exec w h (lift r) = ([], r).
Proof. now destruct r. Qed.

Lemma method_of_curl m e d : method_of (curl_command m e d) = m.
Proof. unfold curl_command. now destruct (truthy d). Qed.

Lemma url_of_curl m e d : url_of (curl_command m e d) = at_cluster e.
Proof. unfold curl_command. now destruct (truthy d). Qed.

Lemma data_of_curl m e d :
  data_of (curl_command m e d) = if truthy d then Some d else None.
Proof. unfold curl_command. now destruct (truthy d). Qed.

Lemma runs_of_app t1 t2 : runs_of (t1 ++ t2) = runs_of t1 ++ runs_of t2.
Proof.
  induction t1 as [|[c a| | | |] t1 IH]; simpl; auto. now rewrite IH.
Qed.

Lemma In_runs_of c a t : In (ERun c a) t <-> In (c, a) (runs_of t).
Proof.
  induction t as [|[c' a'| | | |] t IH]; simpl; try tauto.
  - rewrite <- IH. split; (intros [E|H]; [left; congruence | tauto]).
  - rewrite <- IH. split; [intros [E|H]; [discriminate|auto] | auto].
  - rewrite <- IH. split; [intros [E|H]; [discriminate|auto] | auto].
  - rewrite <- IH. split; [intros [E|H]; [discriminate|auto] | auto].
  - rewrite <- IH. split; [intros [E|H]; [discriminate|auto] | auto].
Qed.

Lemma requests_runs_of m t :
  requests m t =
  map fst (filter (fun ca => (method_of (fst ca) =? m)%string) (runs_of t)).
Proof.
  induction t as [|[c a| | | |] t IH]; simpl; auto.
  destruct (method_of c =? m)%string; simpl; now rewrite IH.
Qed.

Lemma In_requests m c t :
  In c (requests m t) <-> (exists a, In (ERun c a) t) /\ method_of c = m.
Proof.
  rewrite requests_runs_of, in_map_iff. split.
  - intros [[c' a] [<- H]]. apply filter_In in H. destruct H as [H Hm].
    simpl in *. apply String.eqb_eq in Hm. split; auto.
    exists a. now apply In_runs_of.
  - intros [[a Ha] Hm]. exists (c, a). split; auto.
    apply filter_In. split; [now apply In_runs_of|].
    simpl. now apply String.eqb_eq.
Qed.

Lemma requests_app m t1 t2 :
  requests m (t1 ++ t2) = requests m t1 ++ requests m t2.
Proof.
  now rewrite !requests_runs_of, runs_of_app, filter_app, map_app.
Qed.

Ltac run_step :=
  cbn [exec bind lift print negb fst snd app
       opensearch_command run_command];
  match goal with
  | |- context [on_run ?w ?h ?c] =>
      let a := fresh "a" in
      let Ha := fresh "Ha" in
      remember (on_run w h c) as a eqn:Ha; clear Ha;
      let code := fresh "code" in
      destruct a as [code [?v|?s]];
      let Hc := fresh "Hcode" in
      destruct (code =? 0) eqn:Hc
  | |- context [on_time ?w ?h] =>
      let a := fresh "now" in
      let Ha := fresh "Ha" in
      remember (on_time w h) as a eqn:Ha; clear Ha
  | |- context [lift ?r] =>
      let Hr := fresh "Hr" in destruct r as [[|]|?e] eqn:Hr
  | |- context [lift ?r] =>
      let Hr := fresh "Hr" in destruct r as [?v|?e] eqn:Hr
  | |- context [bind (if ?b then _ else _) _] =>
      let Hb := fresh "Hb" in destruct b eqn:Hb
  | |- context [exec _ _ (if ?b then _ else _)] =>
      let Hb := fresh "Hb" in destruct b eqn:Hb
  end.

(** Runs a program symbolically, one case per way the world can answer. *)
Ltac run := repeat run_step; cbn [exec bind lift print negb fst snd app].

Ltac in_trace H :=
  simpl in H;
  repeat match type of H with
    | _ \/ _ => destruct H as [H|H]
    | False => contradiction
    | EPrint _ = ERun _ _ => discriminate H
    | ESleep _ = ERun _ _ => discriminate H
    | ETime _ = ERun _ _ => discriminate H
    | EInput _ _ = ERun _ _ => discriminate H
    | ERun _ _ = ERun _ _ => injection H as <- <-
    end.

(** ** [update_template] *)

Lemma absent_or_lacks_true cur k :
  truthy cur = false \/ (exists d, cur = JObj d /\ dict_get k d = None) ->
  absent_or_lacks cur k = Ok true.
Proof.
  unfold absent_or_lacks. intros [H|[d [-> H]]].
  - now rewrite H.
  - destruct (truthy (JObj d)); simpl; auto.
    unfold dict_has. now rewrite H.
Qed.

(** The two shapes of a run of [update_template]: the GET alone, or the
    GET followed by the PUT of the prepared body. *)
Lemma update_template_cases w h template_name shards replicas tr out :
  exec w h (update_template template_name shards replicas) = (tr, out) ->
  exists a,
    let get := curl_command "GET" ("_template/" +++ template_name) JNull in
    match prepared template_name shards replicas a with
    | Raise e => runs_of tr = [(get, a)] /\ out = Raise e
    | Ok None => runs_of tr = [(get, a)] /\ out = Ok (JBool false)
    | Ok (Some template_config) =>
        exists b,
          runs_of tr =
            [(get, a);
             (curl_command "PUT" ("_template/" +++ template_name)
                template_config, b)] /\
          out = (response <- returned b ;; acknowledged response)%res
    end.
Proof.
  unfold update_template. run.
  all: intros H; injection H; intros; subst tr out; clear H.
  all: match goal with
       | |- context [ERun (curl_command "GET" _ _) ?a] => exists a
       end; unfold prepared; simpl returned; rewrite ?Hcode;
       cbn [negb res_bind].
  all: rewrite ?Hr; cbn [res_bind]; rewrite ?Hr0; cbn [res_bind];
       rewrite ?Hr1; cbn [res_bind].
  all: try (split; reflexivity).
  all: match goal with
       | |- context [ERun (curl_command "PUT" _ _) ?b] => exists b
       end; simpl returned; rewrite ?Hcode0; cbn [negb res_bind];
       rewrite ?Hr2; split; reflexivity.
Qed.

(** The requests of a run of [update_template]: its PUT, when there is
    one, comes second and carries the prepared body. *)
Lemma update_template_put w h template_name shards replicas tr out c b :
  exec w h (update_template template_name shards replicas) = (tr, out) ->
  In (ERun c b) tr -> method_of c = "PUT" ->
  exists a template_config,
    prepared template_name shards replicas a = Ok (Some template_config) /\
    runs_of tr =
      [(curl_command "GET" ("_template/" +++ template_name) JNull, a);
       (curl_command "PUT" ("_template/" +++ template_name) template_config,
        b)] /\
    c = curl_command "PUT" ("_template/" +++ template_name) template_config /\
    out = (response <- returned b ;; acknowledged response)%res.
Proof.
  intros Hex Hin Hm. apply In_runs_of in Hin.
  destruct (update_template_cases _ _ _ _ _ _ _ Hex) as [a Hc]. cbv zeta in Hc.
  destruct (prepared template_name shards replicas a) as [[cfg|]|e] eqn:P.
  - destruct Hc as [b' [Hr ->]]. rewrite Hr in Hin.
    destruct Hin as [E|[E|[]]]; injection E as <- <-.
    + now rewrite method_of_curl in Hm.
    + exists a, cfg. auto.
  - destruct Hc as [Hr _]. rewrite Hr in Hin.
    destruct Hin as [E|[]]; injection E as <- <-.
    now rewrite method_of_curl in Hm.
  - destruct Hc as [Hr _]. rewrite Hr in Hin.
    destruct Hin as [E|[]]; injection E as <- <-.
    now rewrite method_of_curl in Hm.
Qed.

Lemma update_template_get w h template_name shards replicas tr out c a :
  exec w h (update_template template_name shards replicas) = (tr, out) ->
  In (ERun c a) tr -> method_of c = "GET" ->
  c = curl_command "GET" ("_template/" +++ template_name) JNull /\
  match prepared template_name shards replicas a with
  | Raise e => runs_of tr = [(c, a)] /\ out = Raise e
  | Ok None => runs_of tr = [(c, a)] /\ out = Ok (JBool false)
  | Ok (Some template_config) =>
      exists b,
        runs_of tr =
          [(c, a);
           (curl_command "PUT" ("_template/" +++ template_name)
              template_config, b)] /\
        out = (response <- returned b ;; acknowledged response)%res
  end.
Proof.
  intros Hex Hin Hm. apply In_runs_of in Hin.
  destruct (update_template_cases _ _ _ _ _ _ _ Hex) as [a0 Hc].
  cbv zeta in Hc.
  assert (E : (c, a) =
    (curl_command "GET" ("_template/" +++ template_name) JNull, a0)).
  { destruct (prepared template_name shards replicas a0) as [[cfg|]|e].
    - destruct Hc as [b' [Hr _]]. rewrite Hr in Hin.
      destruct Hin as [E|[E|[]]]; auto.
      injection E as <- <-. now rewrite method_of_curl in Hm.
    - destruct Hc as [Hr _]. rewrite Hr in Hin. now destruct Hin as [E|[]].
    - destruct Hc as [Hr _]. rewrite Hr in Hin. now destruct Hin as [E|[]]. }
  injection E as -> ->. auto.
Qed.


Lemma acknowledged_truthy response v :
  acknowledged response = Ok v -> truthy v = true ->
  exists d, response = JObj d /\ dict_get "acknowledged" d = Some v.
Proof.
  unfold acknowledged. destruct (truthy response) eqn:T.
  - destruct response; simpl; try discriminate.
    destruct (dict_get "acknowledged" d) eqn:G; intros [= <-] Hv.
    + eauto.
    + discriminate.
  - intros [= <-]. congruence.
Qed.

(** C9 (amended). [update_template] returns a true value exactly when its
    PUT request is answered by a process that exits with status 0 and whose
    output parses to a JSON object with a true [acknowledged].  For the
    other answers to the PUT: an object without a true [acknowledged],
    output that does not parse, or a value that is false make it return a
    false value; a non-zero exit status raises [CalledProcessError] and a
    true value that is not an object raises [AttributeError], both instead
    of returning. *)
Theorem update_template_outcome w h template_name shards replicas tr out :
  exec w h (update_template template_name shards replicas) = (tr, out) ->
  ((exists v, out = Ok v /\ truthy v = true) <->
   (exists c b, In (ERun c b) tr /\ method_of c = "PUT" /\
                affirmative b = true)) /\
  (forall c b, In (ERun c b) tr -> method_of c = "PUT" ->
     affirmative b = false ->
     match returned b with
     | Raise e => out = Raise e
     | Ok (JObj d) => exists v, out = Ok v /\ truthy v = false
     | Ok response =>
         if truthy response then out = Raise AttributeError
         else out = Ok response
     end).
Proof.
  intros Hex. split; [split|].
  - intros [v [-> Hv]].
    destruct (update_template_cases _ _ _ _ _ _ _ Hex) as [a Hc].
    cbv zeta in Hc.
    destruct (prepared template_name shards replicas a) as [[cfg|]|e].
    + destruct Hc as [b [Hr Hout]].
      exists (curl_command "PUT" ("_template/" +++ template_name) cfg), b.
      split; [apply In_runs_of; rewrite Hr; simpl; auto|].
      split; [apply method_of_curl|].
      unfold affirmative. destruct (returned b) as [response|e]; [|discriminate].
      cbn [res_bind] in Hout. symmetry in Hout.
      destruct (acknowledged_truthy _ _ Hout Hv) as [d [-> Hd]].
      now rewrite Hd.
    + destruct Hc as [_ [= ->]]. discriminate.
    + destruct Hc as [_ [=]].
  - intros [c [b [Hin [Hm Hb]]]].
    destruct (update_template_put _ _ _ _ _ _ _ _ _ Hex Hin Hm)
      as [a [cfg [_ [_ [_ ->]]]]].
    unfold affirmative in Hb.
    destruct (returned b) as [[| | | | | |d]|e]; try discriminate.
    cbn [res_bind]. unfold acknowledged.
    destruct (dict_get "acknowledged" d) as [v|] eqn:Hd; [|discriminate].
    exists v. split; auto.
    destruct d; [discriminate|]. simpl truthy. cbn [py_get]. now rewrite Hd.
  - intros c b Hin Hm Hb.
    destruct (update_template_put _ _ _ _ _ _ _ _ _ Hex Hin Hm)
      as [a [cfg [_ [_ [_ ->]]]]].
    unfold affirmative in Hb.
    destruct (returned b) as [response|e]; cbn [res_bind]; auto.
    unfold acknowledged.
    destruct response as [| |n|[| |m k]|s|l|d]; simpl;
      try match goal with
        | |- context [if ?x then _ else _] => now destruct x
        end; auto.
    destruct d as [|item d]; [now exists (JObj [])|].
    destruct (dict_get "acknowledged" (item :: d)) as [v|].
    + now exists v.
    + now exists (JBool false).
Qed.

(** ** The change made to a template *)

Lemma dict_get_set_same k v d : dict_get k (dict_set k v d) = Some v.
Proof.
  induction d as [|[k' v'] d IH]; simpl.
  - now rewrite String.eqb_refl.
  - destruct (k' =? k)%string eqn:E; simpl.
    + now rewrite String.eqb_refl.
    + now rewrite E.
Qed.

Lemma dict_get_set_other k k' v d :
  (k =? k')%string = false -> dict_get k' (dict_set k v d) = dict_get k' d.
Proof.
  intros Hk. induction d as [|[k0 v0] d IH]; simpl.
  - now rewrite Hk.
  - destruct (k0 =? k)%string eqn:E; simpl.
    + apply String.eqb_eq in E. subst k0. now rewrite Hk.
    + now rewrite IH.
Qed.

Lemma dict_set_same k v d : dict_get k d = Some v -> dict_set k v d = d.
Proof.
  induction d as [|[k' v'] d IH]; simpl; [discriminate|].
  destruct (k' =? k)%string eqn:E.
  - apply String.eqb_eq in E. now intros [= ->]; subst.
  - intros H. now rewrite IH.
Qed.

Lemma is_prefix_app_false q p l :
  is_prefix q (p ++ l) = false -> is_prefix q p = false.
Proof.
  revert p. induction q as [|a q IH]; intros [|b p]; simpl; auto.
  destruct (a =? b)%string; simpl; auto.
Qed.

Ltac bind_inv H :=
  repeat match type of H with
    | res_bind ?r _ = Ok _ =>
        let E := fresh "E" in
        destruct r eqn:E; [cbn [res_bind] in H | discriminate H]
    end.

Lemma py_setitem_inv c k v c' :
  py_setitem c k v = Ok c' ->
  exists d, c = JObj d /\ c' = JObj (dict_set k v d).
Proof. destruct c; simpl; try discriminate. intros [= <-]. eauto. Qed.

Lemma py_getitem_inv c k v :
  py_getitem c k = Ok v -> exists d, c = JObj d /\ dict_get k d = Some v.
Proof.
  destruct c; simpl; try discriminate.
  destruct (dict_get k d) eqn:E; [|discriminate]. intros [= <-]. eauto.
Qed.

(** An assignment leaves alone every field that is neither on the way to
    the assigned one nor inside it. *)
Lemma get_path_setitem_at path k v c c' q :
  setitem_at path k v c = Ok c' ->
  is_prefix q (path ++ [k]) = false -> is_prefix (path ++ [k]) q = false ->
  get_path q c' = get_path q c.
Proof.
  revert c c' q. induction path as [|p path IH]; intros c c' q H Hq1 Hq2.
  - apply py_setitem_inv in H. destruct H as [d [-> ->]].
    destruct q as [|a q]; [discriminate|]. simpl in *.
    destruct (k =? a)%string eqn:E.
    + rewrite String.eqb_sym in E. rewrite E in Hq1. simpl in Hq1, Hq2.
      discriminate.
    + now rewrite dict_get_set_other.
  - simpl in H. bind_inv H.
    apply py_getitem_inv in E. destruct E as [d [-> Hd]].
    apply py_setitem_inv in H. destruct H as [d' [[= <-] ->]].
    destruct q as [|b q]; [discriminate|]. simpl in *.
    destruct (p =? b)%string eqn:Ep.
    + apply String.eqb_eq in Ep. subst b.
      rewrite dict_get_set_same, Hd. rewrite String.eqb_refl in Hq1.
      simpl in Hq1, Hq2. eapply IH; eauto.
    + now rewrite dict_get_set_other.
Qed.

(** The assigned field holds the assigned value. *)
Lemma get_path_written path k v c c' :
  setitem_at path k v c = Ok c' -> get_path (path ++ [k]) c' = Some v.
Proof.
  revert c c'. induction path as [|p path IH]; intros c c' H.
  - apply py_setitem_inv in H. destruct H as [d [-> ->]].
    simpl. now rewrite dict_get_set_same.
  - simpl in H. bind_inv H.
    apply py_getitem_inv in E. destruct E as [d [-> Hd]].
    apply py_setitem_inv in H. destruct H as [d' [[= <-] ->]].
    simpl. rewrite dict_get_set_same. eauto.
Qed.

(** Assigning to a field the value it holds changes nothing. *)
Lemma setitem_at_same path k v c :
  get_path (path ++ [k]) c = Some v -> setitem_at path k v c = Ok c.
Proof.
  revert c. induction path as [|p path IH]; intros c H; simpl in *.
  - destruct c; try discriminate.
    destruct (dict_get k d) eqn:E; [|discriminate].
    injection H as ->. simpl. now rewrite dict_set_same.
  - destruct c; try discriminate. simpl.
    destruct (dict_get p d) eqn:E; [|discriminate].
    cbn [res_bind]. rewrite (IH _ H). cbn [res_bind]. simpl.
    now rewrite dict_set_same.
Qed.

(** Making an empty object where there was no field changes nothing that
    was there. *)
Lemma get_path_fresh path k c c' q :
  setitem_at path k (JObj []) c = Ok c' ->
  get_path (path ++ [k]) c = None ->
  is_prefix q (path ++ [k]) = false ->
  get_path q c' = get_path q c.
Proof.
  revert c c' q. induction path as [|p path IH]; intros c c' q H Hnone Hq.
  - apply py_setitem_inv in H. destruct H as [d [-> ->]].
    destruct q as [|a q]; [discriminate|]. simpl in *.
    destruct (dict_get k d) eqn:Hk; [discriminate|].
    destruct (k =? a)%string eqn:E.
    + apply String.eqb_eq in E. subst a.
      rewrite dict_get_set_same, Hk. rewrite String.eqb_refl in Hq.
      destruct q; [discriminate|]. reflexivity.
    + now rewrite dict_get_set_other.
  - simpl in H. bind_inv H.
    apply py_getitem_inv in E. destruct E as [d [-> Hd]].
    apply py_setitem_inv in H. destruct H as [d' [[= <-] ->]].
    destruct q as [|b q]; [discriminate|]. simpl in *. rewrite Hd in Hnone.
    destruct (p =? b)%string eqn:Ep.
    + apply String.eqb_eq in Ep. subst b.
      rewrite dict_get_set_same, Hd. rewrite String.eqb_refl in Hq.
      simpl in Hq. eapply IH; eauto.
    + now rewrite dict_get_set_other.
Qed.

Lemma unrelated_inv q p :
  unrelated q p = true -> is_prefix q p = false /\ is_prefix p q = false.
Proof.
  unfold unrelated. intros H. apply andb_prop in H. destruct H as [H1 H2].
  now apply negb_true_iff in H1, H2.
Qed.

Lemma dict_has_false k d : dict_has k d = false -> dict_get k d = None.
Proof. unfold dict_has. now destruct (dict_get k d). Qed.

Lemma dict_has_true k d v : dict_get k d = Some v -> dict_has k d = true.
Proof. unfold dict_has. now intros ->. Qed.

(** The objects on the way to the two settings after the first two steps
    of [modify_settings]. *)
Lemma ensure_settings template_config has c1 :
  py_contains template_config "settings" = Ok has ->
  (if has then Ok template_config
   else py_setitem template_config "settings" (JObj [])) = Ok c1 ->
  forall q, is_prefix q ["settings"] = false ->
            get_path q c1 = get_path q template_config.
Proof.
  intros Hc H q Hq. destruct has; [now injection H as <-|].
  apply (get_path_fresh [] "settings" template_config c1 q); auto.
  apply py_setitem_inv in H. destruct H as [d [-> _]].
  simpl in Hc. injection Hc as Hc. simpl. now rewrite (dict_has_false _ _ Hc).
Qed.

Lemma ensure_index c1 settings has c2 :
  py_getitem c1 "settings" = Ok settings ->
  py_contains settings "index" = Ok has ->
  (if has then Ok c1 else setitem_at ["settings"] "index" (JObj []) c1)
    = Ok c2 ->
  forall q, is_prefix q ["settings"; "index"] = false ->
            get_path q c2 = get_path q c1.
Proof.
  intros Hs Hc H q Hq. destruct has; [now injection H as <-|].
  apply (get_path_fresh ["settings"] "index" c1 c2 q); auto.
  simpl in H. rewrite Hs in H. cbn [res_bind] in H. bind_inv H.
  apply py_setitem_inv in E. destruct E as [ds [-> _]].
  apply py_getitem_inv in Hs. destruct Hs as [d [-> Hd]].
  simpl in Hc. injection Hc as Hc.
  simpl. now rewrite Hd, (dict_has_false _ _ Hc).
Qed.

(** [modify_settings] leaves alone every field that is neither one of the
    two settings, nor on the way to them, nor inside them. *)
Lemma modify_settings_frame template_config shards replicas c' q :
  modify_settings template_config shards replicas = Ok c' ->
  unrelated q shards_path = true -> unrelated q replicas_path = true ->
  get_path q c' = get_path q template_config.
Proof.
  unfold modify_settings. intros H Hs Hr. bind_inv H.
  apply unrelated_inv in Hs, Hr. destruct Hs as [Hs1 Hs2], Hr as [Hr1 Hr2].
  rewrite (get_path_setitem_at _ _ _ _ _ q H Hr1 Hr2).
  rewrite (get_path_setitem_at _ _ _ _ _ q E4 Hs1 Hs2).
  rewrite (ensure_index _ _ _ _ E1 E2 E3).
  - apply (ensure_settings _ _ _ E E0).
    now apply (is_prefix_app_false q ["settings"] ["index"; "number_of_shards"]).
  - now apply (is_prefix_app_false q ["settings"; "index"] ["number_of_shards"]).
Qed.

(** After [modify_settings] the two settings hold the requested values,
    as strings. *)
Lemma modify_settings_written template_config shards replicas c' :
  modify_settings template_config shards replicas = Ok c' ->
  get_path shards_path c' = Some (JStr (str_of_Z shards)) /\
  get_path replicas_path c' = Some (JStr (str_of_Z replicas)).
Proof.
  unfold modify_settings. intros H. bind_inv H. split.
  - rewrite (get_path_setitem_at _ _ _ _ _ shards_path H); auto.
    apply (get_path_written _ _ _ _ _ E4).
  - apply (get_path_written _ _ _ _ _ H).
Qed.

Lemma modify_settings_truthy template_config shards replicas c' :
  modify_settings template_config shards replicas = Ok c' ->
  truthy c' = true.
Proof.
  intros H. apply modify_settings_written in H. destruct H as [H _].
  destruct c' as [| | | | | |[|item d]]; try discriminate. reflexivity.
Qed.

(** A template that went through [modify_settings] goes through it again
    unchanged. *)
Lemma modify_settings_idempotent template_config shards replicas c' :
  modify_settings template_config shards replicas = Ok c' ->
  modify_settings c' shards replicas = Ok c'.
Proof.
  intros H. apply modify_settings_written in H. destruct H as [Hs Hr].
  pose proof (setitem_at_same ["settings"; "index"] _ _ _ Hs) as Ws.
  pose proof (setitem_at_same ["settings"; "index"] _ _ _ Hr) as Wr.
  simpl in Hs.
  destruct c' as [| | | | | |d]; try discriminate.
  destruct (dict_get "settings" d) as [settings|] eqn:Hd; [|discriminate].
  destruct settings as [| | | | | |ds]; try discriminate.
  destruct (dict_get "index" ds) as [index|] eqn:Hi; [|discriminate].
  unfold modify_settings. cbn [py_contains res_bind].
  rewrite (dict_has_true _ _ _ Hd). cbn [res_bind py_getitem].
  rewrite Hd. cbn [py_contains res_bind].
  rewrite (dict_has_true _ _ _ Hi). cbn [res_bind].
  rewrite Ws. cbn [res_bind]. exact Wr.
Qed.

Lemma prepared_inv template_name shards replicas a template_config :
  prepared template_name shards replicas a = Ok (Some template_config) ->
  exists current_template fetched,
    returned a = Ok current_template /\
    py_getitem current_template template_name = Ok fetched /\
    modify_settings fetched shards replicas = Ok template_config.
Proof.
  unfold prepared. intros H. bind_inv H.
  destruct a1; [discriminate|]. bind_inv H. injection H as <-. eauto.
Qed.

Lemma has_key_not_missing cur k v :
  py_getitem cur k = Ok v -> absent_or_lacks cur k = Ok false.
Proof.
  intros H. apply py_getitem_inv in H. destruct H as [d [-> Hd]].
  unfold absent_or_lacks. destruct d as [|item d]; [discriminate|].
  simpl truthy. cbn [negb py_contains res_bind].
  now rewrite (dict_has_true _ _ _ Hd).
Qed.

(** C6. The body that [update_template] PUTs is the fetched template
    [current_template[template_name]] after [modify_settings]: the two
    settings hold the requested values, and every field that is neither
    one of the two, nor on the way to them, nor inside them is the same in
    both, present or not. *)
Theorem update_template_passes_through w h template_name shards replicas
  tr out c b :
  exec w h (update_template template_name shards replicas) = (tr, out) ->
  In (ERun c b) tr -> method_of c = "PUT" ->
  exists a current_template fetched body,
    In (ERun (curl_command "GET" ("_template/" +++ template_name) JNull) a)
       tr /\
    returned a = Ok current_template /\
    py_getitem current_template template_name = Ok fetched /\
    c = curl_command "PUT" ("_template/" +++ template_name) body /\
    data_of c = Some body /\
    (forall q, unrelated q shards_path = true ->
               unrelated q replicas_path = true ->
               get_path q body = get_path q fetched) /\
    get_path shards_path body = Some (JStr (str_of_Z shards)) /\
    get_path replicas_path body = Some (JStr (str_of_Z replicas)).
Proof.
  intros Hex Hin Hm.
  destruct (update_template_put _ _ _ _ _ _ _ _ _ Hex Hin Hm)
    as [a [body [Hp [Hr [-> _]]]]].
  destruct (prepared_inv _ _ _ _ _ Hp) as [cur [fetched [Ha [Hg Hmod]]]].
  exists a, cur, fetched, body.
  split; [apply In_runs_of; rewrite Hr; simpl; auto|].
  repeat split; auto.
  - now rewrite data_of_curl, (modify_settings_truthy _ _ _ _ Hmod).
  - intros q. exact (modify_settings_frame _ _ _ _ q Hmod).
  - now apply (modify_settings_written _ _ _ _ Hmod).
  - now apply (modify_settings_written _ _ _ _ Hmod).
Qed.

(** C7. When [update_template] has PUT a body, and a second call with the
    same values fetches that body back, the second call PUTs the very same
    request: the stored template is replaced by itself. *)
Theorem update_template_idempotent w1 h1 w2 h2 template_name shards replicas
  tr1 out1 c1 b1 body tr2 out2 c a current_template :
  exec w1 h1 (update_template template_name shards replicas) = (tr1, out1) ->
  In (ERun c1 b1) tr1 -> method_of c1 = "PUT" -> data_of c1 = Some body ->
  exec w2 h2 (update_template template_name shards replicas) = (tr2, out2) ->
  In (ERun c a) tr2 -> method_of c = "GET" ->
  returned a = Ok current_template ->
  py_getitem current_template template_name = Ok body ->
  modify_settings body shards replicas = Ok body /\
  exists b2, runs_of tr2 = [(c, a); (c1, b2)].
Proof.
  intros Hex1 Hin1 Hm1 Hd1 Hex2 Hin2 Hm2 Ha Hg.
  destruct (update_template_put _ _ _ _ _ _ _ _ _ Hex1 Hin1 Hm1)
    as [a1 [body1 [Hp [_ [-> _]]]]].
  destruct (prepared_inv _ _ _ _ _ Hp) as [cur1 [fetched1 [_ [_ Hmod]]]].
  rewrite data_of_curl, (modify_settings_truthy _ _ _ _ Hmod) in Hd1.
  injection Hd1 as ->.
  pose proof (modify_settings_idempotent _ _ _ _ Hmod) as Hidem.
  split; auto.
  destruct (update_template_get _ _ _ _ _ _ _ _ _ Hex2 Hin2 Hm2) as [-> Hc].
  unfold prepared in Hc. rewrite Ha in Hc. cbn [res_bind] in Hc.
  rewrite (has_key_not_missing _ _ _ Hg) in Hc. cbn [res_bind] in Hc.
  rewrite Hg in Hc. cbn [res_bind] in Hc. rewrite Hidem in Hc.
  cbn [res_bind] in Hc. destruct Hc as [b2 [Hr _]]. eauto.
Qed.

(** ** [verify_index_settings] *)

(** A run of [verify_index_settings] is its GET, and the outcome is read
    off the answer. *)
Lemma verify_index_settings_cases w h index_name es er tr out :
  exec w h (verify_index_settings index_name es er) = (tr, out) ->
  exists a,
    runs_of tr = [(curl_command "GET" (index_name +++ "/_settings") JNull, a)]
    /\ out = verified index_name es er a.
Proof.
  unfold verify_index_settings. run.
  all: intros H; injection H; intros; subst tr out; clear H.
  all: match goal with
       | |- context [ERun (curl_command "GET" _ _) ?a] => exists a
       end; unfold verified; simpl returned; rewrite ?Hcode;
       cbn [negb res_bind].
  all: rewrite ?Hr; cbn [res_bind]; rewrite ?Hr0; cbn [res_bind];
       rewrite ?Hr1; cbn [res_bind]; rewrite ?Hr2; cbn [res_bind];
       rewrite ?Hb.
  all: split; reflexivity.
Qed.

Lemma index_settings_not_missing response index_name settings :
  index_settings response index_name = Ok settings ->
  absent_or_lacks response index_name = Ok false.
Proof.
  unfold index_settings. intros H. bind_inv H.
  now apply has_key_not_missing in E.
Qed.

Lemma parsed_count_missing d field :
  dict_get field d = None -> parsed_count (JObj d) field = Ok (-1).
Proof.
  intros H. unfold parsed_count. simpl. rewrite H. simpl.
  now rewrite int_of_minus_one.
Qed.

Lemma verified_true index_name es er a :
  verified index_name es er a = Ok (JBool true) <->
  exists response settings,
    returned a = Ok response /\
    index_settings response index_name = Ok settings /\
    parsed_count settings "number_of_shards" = Ok es /\
    parsed_count settings "number_of_replicas" = Ok er.
Proof.
  unfold verified. split.
  - intros H. bind_inv H. destruct a1; [discriminate|]. bind_inv H.
    injection H as H. apply andb_prop in H. destruct H as [H1 H2].
    apply Z.eqb_eq in H1, H2. subst. eexists _, _. eauto.
  - intros [response [settings [-> [Hs [H1 H2]]]]]. cbn [res_bind].
    rewrite (index_settings_not_missing _ _ _ Hs). cbn [res_bind].
    rewrite Hs. cbn [res_bind]. rewrite H1, H2. cbn [res_bind].
    now rewrite !Z.eqb_refl.
Qed.

(** C2. [verify_index_settings] returns [True] exactly when the answer to
    its GET holds, under the index name, settings whose parsed
    [number_of_shards] and [number_of_replicas] both equal the expected
    integers.  A missing field is parsed as [-1], so for expected counts,
    which are not negative, a missing field never makes it return
    [True]. *)
Theorem verify_index_settings_exact w h index_name expected_shards
  expected_replicas tr out :
  exec w h (verify_index_settings index_name expected_shards
              expected_replicas) = (tr, out) ->
  (out = Ok (JBool true) <->
   exists c a response settings,
     In (ERun c a) tr /\ returned a = Ok response /\
     index_settings response index_name = Ok settings /\
     parsed_count settings "number_of_shards" = Ok expected_shards /\
     parsed_count settings "number_of_replicas" = Ok expected_replicas) /\
  (forall d field,
     dict_get field d = None -> parsed_count (JObj d) field = Ok (-1)) /\
  (forall c a response d,
     In (ERun c a) tr -> returned a = Ok response ->
     index_settings response index_name = Ok (JObj d) ->
     0 <= expected_shards -> 0 <= expected_replicas ->
     dict_get "number_of_shards" d = None \/
     dict_get "number_of_replicas" d = None ->
     out <> Ok (JBool true)).
Proof.
  intros Hex.
  destruct (verify_index_settings_cases _ _ _ _ _ _ _ Hex) as [a0 [Hr ->]].
  assert (Hone : forall c a, In (ERun c a) tr -> a = a0).
  { intros c a Hin. apply In_runs_of in Hin. rewrite Hr in Hin.
    destruct Hin as [E|[]]. congruence. }
  split; [|split].
  - rewrite verified_true. split.
    + intros [response [settings H]].
      exists (curl_command "GET" (index_name +++ "/_settings") JNull), a0,
        response, settings.
      split; auto. apply In_runs_of. rewrite Hr. simpl. auto.
    + intros [c [a [response [settings [Hin H]]]]].
      rewrite (Hone _ _ Hin) in H. eauto.
  - apply parsed_count_missing.
  - intros c a response d Hin Ha Hs Hes Her Hmiss Htrue.
    rewrite (Hone _ _ Hin) in Ha. apply verified_true in Htrue.
    destruct Htrue as [response' [settings [Ha' [Hs' [H1 H2]]]]].
    rewrite Ha in Ha'. injection Ha' as <-. rewrite Hs in Hs'.
    injection Hs' as <-.
    destruct Hmiss as [Hm|Hm];
      rewrite (parsed_count_missing _ _ Hm) in *; [injection H1|injection H2];
      lia.
Qed.

(** ** The test index *)

Lemma replace_char_absent c new s :
  count_char c s = O -> replace_char c new s = s.
Proof.
  induction s as [|a s IH]; simpl; auto.
  destruct (Ascii.eqb a c); [discriminate|]. simpl. intros H. now rewrite IH.
Qed.

Lemma replace_char_first c new s :
  (count_char c s <= 1)%nat ->
  replace_char c new s = replace_first_char c new s.
Proof.
  induction s as [|a s IH]; simpl; auto.
  destruct (Ascii.eqb a c); simpl; intros H.
  - rewrite replace_char_absent; auto. lia.
  - now rewrite IH.
Qed.

(** C4 (amended). The test index of a template is the first entry of its
    [index_patterns] with every wildcard replaced by [_test], which is the
    substitution of the first wildcard when the entry has at most one; so
    ["audit-*"] derives [audit-_test].  Without an [index_patterns] field
    it is the template name followed by [_test]. *)
Theorem test_index_derivation template_name d t :
  template_detail template_name (JObj d) = Ok t ->
  match dict_get "index_patterns" d with
  | Some patterns =>
      exists first,
        py_first patterns = Ok (JStr first) /\
        test_index t = replace_char "*" "_test" first /\
        ((count_char "*" first <= 1)%nat ->
         test_index t = replace_first_char "*" "_test" first) /\
        (first = "audit-*" -> test_index t = "audit-_test")
  | None => test_index t = template_name +++ "_test"
  end.
Proof.
  unfold template_detail. intros H. bind_inv H. injection H as <-. simpl.
  simpl in E3. injection E3 as <-. unfold dict_has in E4.
  destruct (dict_get "index_patterns" d) as [patterns|] eqn:Hd.
  - bind_inv E4.
    match goal with
    | H : py_getitem _ _ = Ok _ |- _ =>
        simpl in H; rewrite Hd in H; injection H as <-
    end.
    match goal with
    | H : py_replace_star ?v = Ok _ |- _ =>
        destruct v; try discriminate H; injection H as <-
    end.
    exists s. repeat split; auto.
    + intros Hc. now apply replace_char_first.
    + now intros ->.
  - now injection E4 as <-.
Qed.

(** ** The base URL *)

(** C5. With [ELASTICSEARCH_URL] set to [http://localhost:9200],
    [opensearch_url] gives that value, but the one request that
    [opensearch_command] issues goes to the hardcoded URL. *)
Theorem opensearch_command_ignores_override w h method endpoint data :
  let environ := [("ELASTICSEARCH_URL", "http://localhost:9200")] in
  let tr := fst (exec w h (opensearch_command method endpoint data)) in
  opensearch_url environ = "http://localhost:9200" /\
  map (fun ca => url_of (fst ca)) (runs_of tr)
    = [elasticsearch_url +++ "/" +++ endpoint] /\
  map (fun ca => url_of (fst ca)) (runs_of tr)
    <> [opensearch_url environ +++ "/" +++ endpoint].
Proof.
  cbv zeta. split; [reflexivity|].
  assert (E : map (fun ca => url_of (fst ca))
                (runs_of (fst (exec w h (opensearch_command method endpoint
                                           data))))
              = [elasticsearch_url +++ "/" +++ endpoint]).
  { unfold opensearch_command. run; simpl; now rewrite url_of_curl. }
  split; [exact E|]. rewrite E. simpl. intros H. discriminate H.
Qed.

(** ** The testing step *)

Lemma create_test_document_cases w h index_name tr out :
  exec w h (create_test_document index_name) = (tr, out) ->
  exists now a,
    runs_of tr =
      [(curl_command "POST" (index_name +++ "/_doc") (probe_document now), a)]
    /\ out = (response <- returned a ;; created response)%res.
Proof.
  unfold create_test_document. run.
  all: intros H; injection H; intros; subst tr out; clear H.
  all: match goal with
       | |- context [ERun (curl_command "POST" _ (probe_document ?t)) ?a] =>
           exists t, a
       end; simpl returned; rewrite ?Hcode; cbn [negb res_bind];
       rewrite ?Hr; split; reflexivity.
Qed.

(** The lines of [create_test_document] are its own. *)
Lemma create_test_document_prints w h index_name tr out m :
  exec w h (create_test_document index_name) = (tr, out) ->
  In (EPrint m) tr ->
  exists rest,
    m = Lit "Creating test document in index " :: rest \/
    m = Lit "Failed to parse JSON: " :: rest \/
    m = Lit "Successfully created test document in " :: rest \/
    m = Lit "Failed to create test document in " :: rest.
Proof.
  unfold create_test_document. run.
  all: intros H; injection H; intros; subst tr out; clear H.
  all: repeat match goal with
       | H : In _ (_ :: _) |- _ => destruct H as [H|H]
       | H : In _ [] |- _ => destruct H
       | H : EPrint _ = EPrint _ |- _ => injection H as <-
       | H : _ = EPrint _ |- _ => discriminate H
       end.
  all: eexists; eauto.
Qed.

Lemma delete_index_cases w h index_name tr out :
  exec w h (delete_index index_name) = (tr, out) ->
  exists a,
    runs_of tr = [(curl_command "DELETE" index_name JNull, a)] /\
    out = (response <- returned a ;; acknowledged response)%res.
Proof.
  unfold delete_index. run.
  all: intros H; injection H; intros; subst tr out; clear H.
  all: match goal with
       | |- context [ERun (curl_command "DELETE" _ _) ?a] => exists a
       end; simpl returned; rewrite ?Hcode; cbn [negb res_bind];
       rewrite ?Hr; split; reflexivity.
Qed.

(** How a run of [test_template] is made of the runs of the three calls. *)
Lemma test_template_cases w h template tr out :
  exec w h (test_template template) = (tr, out) ->
  let index := test_index template in
  exists t1 out1,
    exec w h (create_test_document index) = (t1, out1) /\
    match out1 with
    | Raise e => tr = t1 /\ out = Raise e
    | Ok ok =>
        if truthy ok then
          exists t2 out2,
            exec w ((h ++ t1) ++ [ESleep 2]) (verify_index_settings index 1 1)
              = (t2, out2) /\
            match out2 with
            | Raise e => tr = t1 ++ ESleep 2 :: t2 /\ out = Raise e
            | Ok verified =>
                exists t3 out3,
                  exec w (((h ++ t1) ++ [ESleep 2]) ++ t2) (delete_index index)
                    = (t3, out3) /\
                  match out3 with
                  | Raise e =>
                      tr = t1 ++ ESleep 2 :: t2 ++ t3 /\ out = Raise e
                  | Ok _ =>
                      tr = t1 ++ ESleep 2 :: t2 ++ t3 ++
                           [EPrint (if truthy verified
                                    then verification_passed (name template)
                                    else verification_failed (name template))]
                      /\ out = Ok tt
                  end
            end
        else tr = t1 ++ [EPrint (failed_to_test (name template))] /\
             out = Ok tt
    end.
Proof.
  unfold test_template. cbv zeta. rewrite exec_bind.
  destruct (exec w h (create_test_document (test_index template)))
    as [t1 [ok|e]] eqn:H1; intros H.
  2:{ injection H as <- <-. exists t1, (Raise e). auto. }
  exists t1, (Ok ok). split; auto.
  destruct (truthy ok).
  2:{ simpl in H. injection H as <- <-. auto. }
  cbn [bind exec] in H. rewrite exec_bind in H.
  destruct (exec w ((h ++ t1) ++ [ESleep 2])
              (verify_index_settings (test_index template) 1 1))
    as [t2 [verified|e]] eqn:H2.
  2:{ injection H as <- <-. exists t2, (Raise e). auto. }
  exists t2, (Ok verified). split; auto.
  rewrite exec_bind in H.
  destruct (exec w (((h ++ t1) ++ [ESleep 2]) ++ t2)
              (delete_index (test_index template)))
    as [t3 [deleted|e]] eqn:H3.
  2:{ injection H as <- <-. exists t3, (Raise e). auto. }
  exists t3, (Ok deleted). split; auto.
  destruct (truthy verified); simpl in H; injection H as <- <-;
    split; auto; now rewrite <- !app_assoc.
Qed.

(** The testing loop of [main] runs the steps of the updated templates
    one after the other, and stops at the first that raises. *)
Lemma testing_loop_cons w h template templates :
  exec w h
    (for_loop (template :: templates)
       (fun template (_ : unit) => test_template template) tt) =
  match exec w h (test_template template) with
  | (t1, Ok _) =>
      let (t2, r) :=
        exec w (h ++ t1)
          (for_loop templates
             (fun template (_ : unit) => test_template template) tt) in
      (t1 ++ t2, r)
  | (t1, Raise e) => (t1, Raise e)
  end.
Proof.
  cbn [for_loop]. rewrite exec_bind.
  destruct (exec w h (test_template template)) as [t1 [[]|e]]; reflexivity.
Qed.

Lemma requests_single m t c a :
  runs_of t = [(c, a)] ->
  requests m t = if (method_of c =? m)%string then [c] else [].
Proof.
  intros H. rewrite requests_runs_of, H. simpl.
  now destruct (method_of c =? m)%string.
Qed.

Lemma requests_create w h index_name tr out m :
  exec w h (create_test_document index_name) = (tr, out) ->
  m <> "POST" -> requests m tr = [].
Proof.
  intros H Hm. destruct (create_test_document_cases _ _ _ _ _ H)
    as [now [a [Hr _]]].
  rewrite (requests_single _ _ _ _ Hr), method_of_curl.
  destruct ("POST" =? m)%string eqn:E; auto.
  apply String.eqb_eq in E. congruence.
Qed.

Lemma requests_verify w h index_name es er tr out m :
  exec w h (verify_index_settings index_name es er) = (tr, out) ->
  m <> "GET" -> requests m tr = [].
Proof.
  intros H Hm. destruct (verify_index_settings_cases _ _ _ _ _ _ _ H)
    as [a [Hr _]].
  rewrite (requests_single _ _ _ _ Hr), method_of_curl.
  destruct ("GET" =? m)%string eqn:E; auto.
  apply String.eqb_eq in E. congruence.
Qed.

Lemma requests_delete w h index_name tr out :
  exec w h (delete_index index_name) = (tr, out) ->
  requests "DELETE" tr = [curl_command "DELETE" index_name JNull].
Proof.
  intros H. destruct (delete_index_cases _ _ _ _ _ H) as [a [Hr _]].
  now rewrite (requests_single _ _ _ _ Hr), method_of_curl.
Qed.

(** C3 (amended). In the testing step of a template whose probe document
    was created ([create_test_document] returned a true value), the
    deletion of the test index is requested exactly once when the
    verification returns, whatever it returns, and not at all when the
    verification raises; when the probe was not created (a false value
    returned) no deletion is requested. *)
Theorem cleanup_after_probe w h template tr out t1 ok :
  exec w h (test_template template) = (tr, out) ->
  exec w h (create_test_document (test_index template)) = (t1, Ok ok) ->
  (truthy ok = false -> requests "DELETE" tr = []) /\
  (truthy ok = true ->
   forall t2 out2,
     exec w ((h ++ t1) ++ [ESleep 2])
       (verify_index_settings (test_index template) 1 1) = (t2, out2) ->
     match out2 with
     | Ok verified =>
         requests "DELETE" tr =
           [curl_command "DELETE" (test_index template) JNull]
     | Raise e => requests "DELETE" tr = [] /\ out = Raise e
     end).
Proof.
  intros Hex Hc.
  destruct (test_template_cases _ _ _ _ _ Hex) as [t1' [out1 [Hc' Hcases]]].
  rewrite Hc in Hc'. injection Hc' as <- <-.
  assert (Rc : requests "DELETE" t1 = []).
  { apply (requests_create _ _ _ _ _ "DELETE" Hc). discriminate. }
  split; intros Hok; rewrite Hok in Hcases.
  - destruct Hcases as [-> _]. now rewrite requests_app, Rc.
  - intros t2 out2 Hv. destruct Hcases as [t2' [out2' [Hv' Hcases]]].
    rewrite Hv in Hv'. injection Hv' as <- <-.
    assert (Rv : requests "DELETE" t2 = []).
    { apply (requests_verify _ _ _ _ _ _ _ "DELETE" Hv). discriminate. }
    destruct out2 as [verified|e].
    + destruct Hcases as [t3 [out3 [Hd Hcases]]].
      pose proof (requests_delete _ _ _ _ _ Hd) as Rd.
      assert (E : tr = t1 ++ [ESleep 2] ++ t2 ++ t3 \/
                  exists m, tr = t1 ++ [ESleep 2] ++ t2 ++ t3 ++ [EPrint m]).
      { destruct out3; destruct Hcases as [-> _];
          [right; eexists; reflexivity | left; reflexivity]. }
      destruct E as [->|[m ->]]; rewrite !requests_app, Rc, Rv, Rd;
        reflexivity.
    + destruct Hcases as [-> ->]. split; auto.
      change (ESleep 2 :: t2) with ([ESleep 2] ++ t2).
      now rewrite !requests_app, Rc, Rv.
Qed.

Lemma created_without_result d :
  (forall v, dict_get "result" d = Some v -> in_created_updated v = false) ->
  exists ok, created (JObj d) = Ok ok /\ truthy ok = false.
Proof.
  intros H. unfold created. destruct (truthy (JObj d)) eqn:T; eauto.
  cbn [py_contains res_bind]. unfold dict_has.
  destruct (dict_get "result" d) as [v|] eqn:Hd.
  - cbn [py_getitem]. rewrite Hd. cbn [res_bind]. rewrite (H v eq_refl).
    eauto.
  - eauto.
Qed.

(** C8. When the answer to the probe request is an object whose [result]
    is missing or is neither [created] nor [updated],
    [create_test_document] returns a false value; and whenever it returns
    a false value the testing step of that template ends there: nothing is
    requested after the probe (no settings are read), the line
    [Failed to test template ...] is printed last, and the line
    [... was updated but verification failed] is not printed. *)
Theorem failed_probe_not_verified w h template tr out t1 out1 :
  exec w h (test_template template) = (tr, out) ->
  exec w h (create_test_document (test_index template)) = (t1, out1) ->
  (forall c a d,
     In (ERun c a) t1 -> returned a = Ok (JObj d) ->
     (forall v, dict_get "result" d = Some v ->
                in_created_updated v = false) ->
     exists ok, out1 = Ok ok /\ truthy ok = false) /\
  (forall ok,
     out1 = Ok ok -> truthy ok = false ->
     tr = t1 ++ [EPrint (failed_to_test (name template))] /\
     out = Ok tt /\
     requests "GET" tr = [] /\
     ~ In (EPrint (verification_failed (name template))) tr).
Proof.
  intros Hex Hc. split.
  - intros c a d Hin Ha Hres.
    destruct (create_test_document_cases _ _ _ _ _ Hc) as [now [a' [Hr ->]]].
    apply In_runs_of in Hin. rewrite Hr in Hin.
    destruct Hin as [E|[]]. injection E as _ <-. rewrite Ha. cbn [res_bind].
    now apply created_without_result.
  - intros ok -> Hok.
    destruct (test_template_cases _ _ _ _ _ Hex) as [t1' [out1 [Hc' Hcases]]].
    rewrite Hc in Hc'. injection Hc' as <- <-. rewrite Hok in Hcases.
    destruct Hcases as [-> ->]. repeat split; auto.
    + rewrite requests_app, (requests_create _ _ _ _ _ "GET" Hc);
        [reflexivity|discriminate].
    + intros Hin. apply in_app_or in Hin. destruct Hin as [Hin|[Hin|[]]].
      * destruct (create_test_document_prints _ _ _ _ _ _ Hc Hin)
          as [rest [E|[E|[E|E]]]]; discriminate E.
      * discriminate Hin.
Qed.

(** ** Properties of all events of a run *)

Lemma sound_ret {A} (P : event -> Prop) (Q : A -> Prop) a :
  Q a -> sound P Q (Ret a).
Proof. intros H w h. simpl. split; [constructor | now intros ? [= <-]]. Qed.

Lemma sound_throw {A} (P : event -> Prop) (Q : A -> Prop) e :
  sound P Q (Throw e).
Proof. intros w h. simpl. split; [constructor | discriminate]. Qed.

Lemma sound_lift {A} (P : event -> Prop) (Q : A -> Prop) (r : res A) :
  (forall a, r = Ok a -> Q a) -> sound P Q (lift r).
Proof. intros H w h. rewrite exec_lift. simpl. split; [constructor | auto]. Qed.

Lemma sound_print (P : event -> Prop) m :
  P (EPrint m) -> sound P (fun _ : unit => True) (print m).
Proof. intros H w h. simpl. split; [repeat constructor; auto | auto]. Qed.

Lemma sound_weaken {A} (P : event -> Prop) (Q Q' : A -> Prop) p :
  sound P Q p -> (forall a, Q a -> Q' a) -> sound P Q' p.
Proof. intros H HQ w h. destruct (H w h). split; auto. Qed.

Lemma sound_bind {A B} (P : event -> Prop) (Q : A -> Prop) (R : B -> Prop)
  (p : prog A) (f : A -> prog B) :
  sound P Q p -> (forall a, Q a -> sound P R (f a)) -> sound P R (bind p f).
Proof.
  intros Hp Hf w h. rewrite exec_bind. destruct (Hp w h) as [H1 H2].
  destruct (exec w h p) as [t1 [a|e]]; simpl in *.
  - destruct (Hf a (H2 a eq_refl) w (h ++ t1)) as [H3 H4].
    destruct (exec w (h ++ t1) (f a)) as [t2 r]. simpl in *. split; auto.
    apply Forall_app. auto.
  - split; [auto | discriminate].
Qed.

Lemma sound_catch {A} (P : event -> Prop) (Q : A -> Prop) (p : prog A)
  handler :
  sound P Q p -> (forall e, sound P Q (handler e)) -> sound P Q (catch p handler).
Proof.
  intros Hp Hh w h. rewrite exec_catch. destruct (Hp w h) as [H1 H2].
  destruct (exec w h p) as [t1 [a|e]]; simpl in *.
  - split; auto.
  - destruct (Hh e w (h ++ t1)) as [H3 H4].
    destruct (exec w (h ++ t1) (handler e)) as [t2 r]. simpl in *.
    split; auto. apply Forall_app. auto.
Qed.

Lemma sound_for_loop {A S} (P : event -> Prop) (inv : S -> Prop)
  (l : list A) (body : A -> S -> prog S) :
  (forall x s, In x l -> inv s -> sound P inv (body x s)) ->
  forall s, inv s -> sound P inv (for_loop l body s).
Proof.
  induction l as [|x l IH]; intros Hbody s Hs; simpl.
  - now apply sound_ret.
  - apply sound_bind with (Q := inv).
    + apply Hbody; simpl; auto.
    + intros s' Hs'. apply IH; auto. intros y s0 Hy. apply Hbody. simpl; auto.
Qed.

Ltac tame_step t :=
  match goal with
  | |- Forall _ [] => constructor
  | |- Forall _ (_ :: _) => constructor
  | |- tame _ (EPrint _) => exact I
  | |- tame _ (ESleep _) => exact I
  | |- tame _ (ETime _) => exact I
  | |- tame _ (EInput _ _) => exact I
  | |- tame _ (ERun _ _) =>
      split; rewrite method_of_curl; intros Hm; try discriminate Hm;
      exists t; (split; [assumption | apply url_of_curl])
  end.

Lemma update_template_tame ds t shards replicas :
  In t ds ->
  sound (tame ds) (fun _ => True) (update_template (name t) shards replicas).
Proof.
  intros Hin w h. unfold update_template. run.
  all: split; [|auto]. all: repeat tame_step t.
Qed.

Lemma create_test_document_tame ds t :
  In t ds ->
  sound (tame ds) (fun _ => True) (create_test_document (test_index t)).
Proof.
  intros Hin w h. unfold create_test_document. run.
  all: split; [|auto]. all: repeat tame_step t.
Qed.

Lemma verify_index_settings_tame ds t index_name es er :
  In t ds ->
  sound (tame ds) (fun _ => True) (verify_index_settings index_name es er).
Proof.
  intros Hin w h. unfold verify_index_settings. run.
  all: split; [|auto]. all: repeat tame_step t.
Qed.

Lemma delete_index_tame ds t index_name :
  In t ds -> sound (tame ds) (fun _ => True) (delete_index index_name).
Proof.
  intros Hin w h. unfold delete_index. run.
  all: split; [|auto]. all: repeat tame_step t.
Qed.

Lemma sound_sleep (P : event -> Prop) n :
  P (ESleep n) -> sound P (fun _ : unit => True) (Sleep n (Ret tt)).
Proof. intros H w h. simpl. split; [repeat constructor; auto | auto]. Qed.

Lemma test_template_tame ds t :
  In t ds -> sound (tame ds) (fun _ => True) (test_template t).
Proof.
  intros Hin. unfold test_template. cbv zeta.
  eapply sound_bind; [now apply create_test_document_tame|].
  intros ok _. destruct (truthy ok).
  - eapply sound_bind; [now apply sound_sleep|]. intros _ _.
    eapply sound_bind; [now apply (verify_index_settings_tame ds t)|].
    intros verified _.
    eapply sound_bind; [now apply (delete_index_tame ds t)|]. intros _ _.
    destruct (truthy verified); now apply sound_print.
  - now apply sound_print.
Qed.

Lemma update_step_tame ds t lists :
  In t ds -> incl (fst lists) ds ->
  sound (tame ds) (fun lists' => incl (fst lists') ds) (update_step t lists).
Proof.
  intros Hin Hl. destruct lists as [updated failed]. unfold update_step.
  eapply sound_bind; [now apply update_template_tame|].
  intros ok _. destruct (truthy ok); apply sound_ret; simpl in *; auto.
  apply incl_app; auto. intros x [<-|[]]. auto.
Qed.

Lemma summary_tame ds l1 l2 l3 :
  sound (tame ds) (fun _ => True) (summary l1 l2 l3).
Proof.
  unfold summary.
  eapply sound_bind; [now apply sound_print|]. intros _ _.
  eapply sound_bind; [now apply sound_print|]. intros _ _.
  eapply sound_bind; [now apply sound_print|]. intros _ _.
  destruct l3 as [|t l3]; [now apply sound_ret|].
  eapply sound_bind; [now apply sound_print|]. intros _ _.
  apply sound_for_loop; auto. intros x u _ _. now apply sound_print.
Qed.




(** ** Selection and listing *)

Lemma dict_keys_set k v d k' :
  In k' (dict_keys (dict_set k v d)) <-> k' = k \/ In k' (dict_keys d).
Proof.
  induction d as [|[k0 v0] d IH]; simpl.
  - intuition.
  - destruct (k0 =? k)%string eqn:E; simpl.
    + apply String.eqb_eq in E. subst. intuition.
    + rewrite IH. intuition.
Qed.

Lemma filter_templates_keys_from items acc n :
  In n (dict_keys
          (fold_left
             (fun (templates : dict) (item : string * json) =>
                let (k, v) := item in
                if existsb (String.eqb k) template_to_change
                then dict_set k v templates else templates)
             items acc)) <->
  In n (dict_keys acc) \/
  (In n (dict_keys items) /\ In n template_to_change).
Proof.
  revert acc. induction items as [|[k v] items IH]; intros acc;
    cbn [fold_left dict_keys map fst In].
  - intuition.
  - fold (dict_keys items).
    destruct (existsb (String.eqb k) template_to_change) eqn:E; rewrite IH.
    + rewrite dict_keys_set. apply existsb_exists in E.
      destruct E as [x [Hx Hk]]. apply String.eqb_eq in Hk. subst x.
      intuition; subst; auto.
    + assert (~ In k template_to_change).
      { intros Hin. apply Bool.not_true_iff_false in E. apply E.
        apply existsb_exists. exists k. split; auto. apply String.eqb_refl. }
      intuition; subst; try contradiction; auto.
Qed.

(** The comprehension keeps the keys that are in the list, by equality of
    names. *)
Lemma filter_templates_keys items n :
  In n (dict_keys (filter_templates items)) <->
  In n (dict_keys items) /\ In n template_to_change.
Proof.
  unfold filter_templates. rewrite filter_templates_keys_from. simpl.
  intuition.
Qed.




Lemma template_detail_name n data t :
  template_detail n data = Ok t -> name t = n.
Proof.
  unfold template_detail. intros H. bind_inv H. now injection H as <-.
Qed.

Lemma details_of_In d t :
  In t (details_of d) <->
  exists n data, In (n, data) d /\ template_detail n data = Ok t.
Proof.
  induction d as [|[k v] d IH]; simpl.
  - split; [intros [] | now intros [n [data [[] _]]]].
  - destruct (template_detail k v) as [t0|e] eqn:E; simpl; rewrite IH.
    + split.
      * intros [<-|[n [data [Hin Ht]]]]; [exists k, v | exists n, data]; auto.
      * intros [n [data [[[= <- <-]|Hin] Ht]]]; [left; congruence|].
        right. eauto.
    + split.
      * intros [n [data [Hin Ht]]]. exists n, data. auto.
      * intros [n [data [[[= <- <-]|Hin] Ht]]]; [congruence|]. eauto.
Qed.



Lemma displayed_app t1 t2 : displayed (t1 ++ t2) = displayed t1 ++ displayed t2.
Proof.
  induction t1 as [|ev t1 IH]; simpl; auto.
  destruct (listed ev); simpl; now rewrite IH.
Qed.

Lemma display_loop l idx w h :
  displayed (fst (exec w h (for_loop l display_template idx))) = map name l /\
  runs_of (fst (exec w h (for_loop l display_template idx))) = [].
Proof.
  revert idx h. induction l as [|t l IH]; intros idx h; [now split|].
  cbn [for_loop display_template bind print exec].
  match goal with
  | |- context [exec w ?h' (for_loop l display_template ?i)] =>
      destruct (IH i h') as [H1 H2];
      destruct (exec w h' (for_loop l display_template i)) as [tl r]
  end.
  simpl in *. now rewrite H1, H2.
Qed.







Lemma dict_get_some n d :
  In n (dict_keys d) <-> exists data, dict_get n d = Some data.
Proof.
  induction d as [|[k v] d IH]; simpl.
  - split; [intros [] | now intros [data H]].
  - destruct (k =? n)%string eqn:E.
    + apply String.eqb_eq in E. split; eauto.
    + rewrite IH. split; auto. intros [->|H]; auto.
      now rewrite String.eqb_refl in E.
Qed.


(** ** [copy_template] *)

(** The two shapes of a run of [copy_template]: the GET of the source
    alone, or the GET followed by the PUT of the retargeted body. *)
Lemma copy_template_cases w h source target tr out :
  exec w h (copy_template source target) = (tr, out) ->
  exists a,
    let get := curl_command "GET" ("_template/" +++ source) JNull in
    match copy_prepared source target a with
    | Raise e => runs_of tr = [(get, a)] /\ out = Raise e
    | Ok None => runs_of tr = [(get, a)] /\ out = Ok (JBool false)
    | Ok (Some body) =>
        exists b,
          runs_of tr =
            [(get, a); (curl_command "PUT" ("_template/" +++ target) body, b)]
          /\ out = (response <- returned b ;; acknowledged response)%res
    end.
Proof.
  unfold copy_template. run.
  all: intros H; injection H; intros; subst tr out; clear H.
  all: match goal with
       | |- context [ERun (curl_command "GET" _ _) ?a] => exists a
       end; unfold copy_prepared; simpl returned; rewrite ?Hcode;
       cbn [negb res_bind].
  all: rewrite ?Hr; cbn [res_bind]; rewrite ?Hr0; cbn [res_bind];
       rewrite ?Hr1; cbn [res_bind].
  all: try (split; reflexivity).
  all: match goal with
       | |- context [ERun (curl_command "PUT" _ _) ?b] => exists b
       end; simpl returned; rewrite ?Hcode0; cbn [negb res_bind];
       rewrite ?Hr2; split; reflexivity.
Qed.

Lemma retarget_inv data target body :
  retarget data target = Ok body ->
  exists d,
    data = JObj d /\
    body = JObj (dict_set "index_patterns" (JArr [JStr (target +++ "*")])
                   (dict_set "version" (JInt 1)
                      (dict_set "order" (JInt 0) d))).
Proof.
  unfold retarget. destruct data; simpl; try discriminate.
  intros [= <-]. eauto.
Qed.

Lemma copy_prepared_inv source target a body :
  copy_prepared source target a = Ok (Some body) ->
  exists source_template_data fetched,
    returned a = Ok source_template_data /\
    py_getitem source_template_data source = Ok fetched /\
    retarget fetched target = Ok body.
Proof.
  unfold copy_prepared. intros H. bind_inv H.
  destruct a1; [discriminate|]. bind_inv H. injection H as <-. eauto.
Qed.

Lemma copy_template_put w h source target tr out c b :
  exec w h (copy_template source target) = (tr, out) ->
  In (ERun c b) tr -> method_of c = "PUT" ->
  exists a body,
    copy_prepared source target a = Ok (Some body) /\
    runs_of tr =
      [(curl_command "GET" ("_template/" +++ source) JNull, a);
       (curl_command "PUT" ("_template/" +++ target) body, b)] /\
    c = curl_command "PUT" ("_template/" +++ target) body /\
    out = (response <- returned b ;; acknowledged response)%res.
Proof.
  intros Hex Hin Hm. apply In_runs_of in Hin.
  destruct (copy_template_cases _ _ _ _ _ _ Hex) as [a Hc]. cbv zeta in Hc.
  destruct (copy_prepared source target a) as [[body|]|e] eqn:P.
  - destruct Hc as [b' [Hr ->]]. rewrite Hr in Hin.
    destruct Hin as [E|[E|[]]]; injection E as <- <-.
    + now rewrite method_of_curl in Hm.
    + exists a, body. auto.
  - destruct Hc as [Hr _]. rewrite Hr in Hin.
    destruct Hin as [E|[]]; injection E as <- <-.
    now rewrite method_of_curl in Hm.
  - destruct Hc as [Hr _]. rewrite Hr in Hin.
    destruct Hin as [E|[]]; injection E as <- <-.
    now rewrite method_of_curl in Hm.
Qed.

Lemma copy_template_get w h source target tr out c a :
  exec w h (copy_template source target) = (tr, out) ->
  In (ERun c a) tr -> method_of c = "GET" ->
  c = curl_command "GET" ("_template/" +++ source) JNull /\
  match copy_prepared source target a with
  | Raise e => runs_of tr = [(c, a)] /\ out = Raise e
  | Ok None => runs_of tr = [(c, a)] /\ out = Ok (JBool false)
  | Ok (Some body) =>
      exists b,
        runs_of tr =
          [(c, a); (curl_command "PUT" ("_template/" +++ target) body, b)]
        /\ out = (response <- returned b ;; acknowledged response)%res
  end.
Proof.
  intros Hex Hin Hm. apply In_runs_of in Hin.
  destruct (copy_template_cases _ _ _ _ _ _ Hex) as [a0 Hc]. cbv zeta in Hc.
  assert (E : (c, a) =
    (curl_command "GET" ("_template/" +++ source) JNull, a0)).
  { destruct (copy_prepared source target a0) as [[body|]|e].
    - destruct Hc as [b' [Hr _]]. rewrite Hr in Hin.
      destruct Hin as [E|[E|[]]]; auto.
      injection E as <- <-. now rewrite method_of_curl in Hm.
    - destruct Hc as [Hr _]. rewrite Hr in Hin. now destruct Hin as [E|[]].
    - destruct Hc as [Hr _]. rewrite Hr in Hin. now destruct Hin as [E|[]]. }
  injection E as -> ->. auto.
Qed.

(** X1. The body that [copy_template] PUTs, to the target template, is
    the fetched source template with [order] set to 0, [version] to 1 and
    [index_patterns] to the target name followed by a wildcard; every
    other field, at any depth, is the one of the source. *)
Theorem copy_template_retargets w h source target tr out c b :
  exec w h (copy_template source target) = (tr, out) ->
  In (ERun c b) tr -> method_of c = "PUT" ->
  exists a source_template_data fetched body,
    In (ERun (curl_command "GET" ("_template/" +++ source) JNull) a) tr /\
    returned a = Ok source_template_data /\
    py_getitem source_template_data source = Ok fetched /\
    c = curl_command "PUT" ("_template/" +++ target) body /\
    data_of c = Some body /\
    get_path ["order"] body = Some (JInt 0) /\
    get_path ["version"] body = Some (JInt 1) /\
    get_path ["index_patterns"] body = Some (JArr [JStr (target +++ "*")]) /\
    (forall k rest,
       k <> "order" -> k <> "version" -> k <> "index_patterns" ->
       get_path (k :: rest) body = get_path (k :: rest) fetched).
Proof.
  intros Hex Hin Hm.
  destruct (copy_template_put _ _ _ _ _ _ _ _ Hex Hin Hm)
    as [a [body [Hp [Hr [-> _]]]]].
  destruct (copy_prepared_inv _ _ _ _ Hp) as [cur [fetched [Ha [Hg Hre]]]].
  destruct (retarget_inv _ _ _ Hre) as [d [-> ->]].
  exists a, cur, (JObj d). eexists.
  split; [apply In_runs_of; rewrite Hr; simpl; auto|].
  split; auto. split; auto. split; [reflexivity|].
  split.
  { rewrite data_of_curl.
    destruct (dict_set "index_patterns" _ _) eqn:E; [|reflexivity].
    exfalso. assert (H := dict_get_set_same "index_patterns"
      (JArr [JStr (target +++ "*")])
      (dict_set "version" (JInt 1) (dict_set "order" (JInt 0) d))).
    rewrite E in H. discriminate H. }
  split.
  { cbn [get_path].
    rewrite dict_get_set_other, dict_get_set_other, dict_get_set_same;
      reflexivity. }
  split.
  { cbn [get_path]. rewrite dict_get_set_other, dict_get_set_same;
      reflexivity. }
  split.
  { cbn [get_path]. now rewrite dict_get_set_same. }
  intros k rest H1 H2 H3. cbn [get_path].
  rewrite !dict_get_set_other; auto; now apply String.eqb_neq.
Qed.

(** X2. When the GET of [copy_template] gives nothing usable (a value
    that is false) or a JSON object without the source name as a key,
    [copy_template] returns [False] and makes no PUT: the target template
    is not written. *)
Theorem copy_template_get_failure w h source target tr out c a cur :
  exec w h (copy_template source target) = (tr, out) ->
  In (ERun c a) tr -> method_of c = "GET" -> returned a = Ok cur ->
  truthy cur = false \/ (exists d, cur = JObj d /\ dict_get source d = None) ->
  out = Ok (JBool false) /\ requests "PUT" tr = [].
Proof.
  intros Hex Hin Hm Hret Hcur.
  destruct (copy_template_get _ _ _ _ _ _ _ _ Hex Hin Hm) as [-> Hc].
  unfold copy_prepared in Hc. rewrite Hret in Hc. cbn [res_bind] in Hc.
  rewrite (absent_or_lacks_true _ _ Hcur) in Hc. cbn [res_bind] in Hc.
  destruct Hc as [Hr ->]. split; auto.
  rewrite requests_runs_of, Hr. reflexivity.
Qed.

Lemma append_assoc_str s1 s2 s3 : (s1 +++ s2) +++ s3 = s1 +++ (s2 +++ s3).
Proof. induction s1 as [|a s1 IH]; simpl; auto. now rewrite IH. Qed.

Lemma replace_char_app c new s1 s2 :
  replace_char c new (s1 +++ s2) =
  replace_char c new s1 +++ replace_char c new s2.
Proof.
  induction s1 as [|a s1 IH]; simpl; auto.
  destruct (Ascii.eqb a c); rewrite IH; simpl; auto.
  now rewrite append_assoc_str.
Qed.

Lemma retarget_detail fetched target body n t :
  retarget fetched target = Ok body ->
  template_detail n body = Ok t ->
  test_index t = replace_char "*" "_test" target +++ "_test" /\
  (forall t0, template_detail n fetched = Ok t0 ->
     shards t = shards t0 /\ replicas t = replicas t0).
Proof.
  intros Hre Ht.
  destruct (retarget_inv _ _ _ Hre) as [d [-> ->]].
  assert (Hs : dict_get "settings"
                 (dict_set "index_patterns" (JArr [JStr (target +++ "*")])
                    (dict_set "version" (JInt 1)
                       (dict_set "order" (JInt 0) d)))
               = dict_get "settings" d).
  { now rewrite !dict_get_set_other. }
  unfold template_detail in Ht. cbn [py_get py_contains res_bind] in Ht.
  unfold dict_has in Ht. rewrite Hs, dict_get_set_same in Ht.
  cbn [res_bind py_getitem] in Ht. rewrite dict_get_set_same in Ht.
  cbn [res_bind py_first py_replace_star] in Ht.
  bind_inv Ht. injection Ht as <-. cbn [test_index shards replicas].
  rewrite replace_char_app. split; [reflexivity|].
  intros t0 Ht0. unfold template_detail in Ht0.
  cbn [py_get res_bind] in Ht0.
  bind_inv Ht0. injection Ht0 as <-. cbn [shards replicas].
  split; congruence.
Qed.

(** X3. A template written by [copy_template] and then read by
    [get_template_details] gets as test index the target name followed by
    [_test] (with the wildcards of the target name, if any, replaced as
    well), and shows the shard and replica counts that the source
    template shows. *)
Theorem copied_template_detail w h source target tr out c b body n t :
  exec w h (copy_template source target) = (tr, out) ->
  In (ERun c b) tr -> method_of c = "PUT" -> data_of c = Some body ->
  template_detail n body = Ok t ->
  test_index t = replace_char "*" "_test" target +++ "_test" /\
  (count_char "*" target = O -> test_index t = target +++ "_test") /\
  (forall a source_template_data fetched t0,
     In (ERun (curl_command "GET" ("_template/" +++ source) JNull) a) tr ->
     returned a = Ok source_template_data ->
     py_getitem source_template_data source = Ok fetched ->
     template_detail n fetched = Ok t0 ->
     shards t = shards t0 /\ replicas t = replicas t0).
Proof.
  intros Hex Hin Hm Hd Ht.
  destruct (copy_template_put _ _ _ _ _ _ _ _ Hex Hin Hm)
    as [a [body' [Hp [Hr [-> _]]]]].
  destruct (copy_prepared_inv _ _ _ _ Hp) as [cur [fetched [Ha [Hg Hre]]]].
  assert (body' = body).
  { rewrite data_of_curl in Hd. destruct (truthy body'); congruence. }
  subst body'.
  destruct (retarget_detail _ _ _ _ _ Hre Ht) as [Hi Hc].
  split; [exact Hi|]. split.
  - intros H0. rewrite Hi. now rewrite replace_char_absent.
  - intros a' cur' fetched' t0 Hin' Ha' Hg' Ht0.
    apply In_runs_of in Hin'. rewrite Hr in Hin'.
    destruct Hin' as [E|[E|[]]].
    + injection E as <-. rewrite Ha in Ha'. injection Ha' as <-.
      rewrite Hg in Hg'. injection Hg' as <-. now apply Hc.
    + apply (f_equal (fun ca => method_of (fst ca))) in E. simpl in E.
      rewrite !method_of_curl in E. discriminate E.
Qed.

(** ** [get_template_details] and the selection, further *)

Lemma get_template_details_loop l acc w h :
  let run :=
    exec w h
      (for_loop l
         (fun (item : string * json) template_details =>
            let (template_name, template_data) := item in
            match template_detail template_name template_data with
            | Ok d => Ret (template_details ++ [d])
            | Raise e =>
                Print [Lit "Error processing template ";
                       Val (JStr template_name); Lit ": "; Exc e]
                  (Ret template_details)
            end) acc) in
  snd run = Ok (acc ++ details_of l) /\
  runs_of (fst run) = [] /\
  (List.length (fst run) + List.length (details_of l) = List.length l)%nat /\
  (forall ev, In ev (fst run) ->
     exists n e, ev = EPrint [Lit "Error processing template ";
                              Val (JStr n); Lit ": "; Exc e]).
Proof.
  cbv zeta. revert acc h. induction l as [|[k v] l IH]; intros acc h.
  - simpl. rewrite app_nil_r. repeat split; auto. intros ev [].
  - cbn [for_loop details_of]. destruct (template_detail k v) as [d|e].
    + cbn [bind]. destruct (IH (acc ++ [d]) h) as [H1 [H2 [H3 H4]]].
      rewrite H1, <- app_assoc. simpl. repeat split; auto. lia.
    + cbn [bind exec].
      match goal with
      | |- context [exec w ?h' (for_loop l ?f acc)] =>
          destruct (IH acc h') as [H1 [H2 [H3 H4]]];
          destruct (exec w h' (for_loop l f acc)) as [t r]
      end.
      simpl in *. repeat split; auto.
      intros ev [<-|Hin]; eauto.
Qed.

(** X4. [get_template_details] never raises and makes no request: it
    returns, in the order of the mapping, one entry for each template whose
    extraction succeeds, and prints one [Error processing template] line
    for each of the others and nothing else. *)
Theorem get_template_details_total w h templates :
  exists details,
    snd (exec w h (get_template_details templates)) = Ok details /\
    details = details_of templates /\
    (forall t, In t details <->
       exists n data, In (n, data) templates /\
                      template_detail n data = Ok t) /\
    runs_of (fst (exec w h (get_template_details templates))) = [] /\
    (List.length (fst (exec w h (get_template_details templates)))
     + List.length details = List.length templates)%nat /\
    (forall ev, In ev (fst (exec w h (get_template_details templates))) ->
       exists n e, ev = EPrint [Lit "Error processing template ";
                                Val (JStr n); Lit ": "; Exc e]).
Proof.
  destruct (get_template_details_loop templates [] w h)
    as [H1 [H2 [H3 H4]]].
  exists (details_of templates). repeat split; auto.
  - now apply details_of_In.
  - now apply details_of_In.
Qed.

(** X5. The entry of a template keeps its name; its counts are the
    stored [settings.index.number_of_shards] and [number_of_replicas],
    whatever their type, and the marker [default] for each one that is
    missing, also when [settings] or [settings.index] is missing. *)
Theorem template_detail_counts n d t :
  template_detail n (JObj d) = Ok t ->
  name t = n /\
  exists index,
    match dict_get "settings" d with
    | None => index = []
    | Some settings =>
        exists s, settings = JObj s /\
          match dict_get "index" s with
          | None => index = []
          | Some i => i = JObj index
          end
    end /\
    shards t = match dict_get "number_of_shards" index with
               | Some v => v
               | None => JStr "default"
               end /\
    replicas t = match dict_get "number_of_replicas" index with
                 | Some v => v
                 | None => JStr "default"
                 end.
Proof.
  intros H. split; [now apply template_detail_name in H|].
  unfold template_detail in H. cbn [py_get res_bind] in H.
  assert (Hfin : forall index,
    (shards <- py_get (JObj index) "number_of_shards" (JStr "default") ;;
     replicas <- py_get (JObj index) "number_of_replicas" (JStr "default") ;;
     has <- py_contains (JObj d) "index_patterns" ;;
     pattern <- (if has : bool then
                   (patterns <- py_getitem (JObj d) "index_patterns" ;;
                    first <- py_first patterns ;;
                    py_replace_star first)
                 else Ok (n +++ "_test")) ;;
     Ok {| name := n; shards := shards; replicas := replicas;
           test_index := pattern |})%res = Ok t ->
    shards t = match dict_get "number_of_shards" index with
               | Some v => v
               | None => JStr "default"
               end /\
    replicas t = match dict_get "number_of_replicas" index with
                 | Some v => v
                 | None => JStr "default"
                 end).
  { intros index Hi. cbn [py_get res_bind] in Hi. bind_inv Hi.
    injection Hi as <-. auto. }
  destruct (dict_get "settings" d) as [settings|].
  - destruct settings as [| | | | | |s]; try discriminate H.
    cbn [py_get res_bind] in H.
    destruct (dict_get "index" s) as [i|] eqn:Hi.
    + destruct i as [| | | | | |index]; try discriminate H.
      exists index. split; [exists s; now rewrite Hi|]. exact (Hfin index H).
    + exists []. split; [exists s; now rewrite Hi|]. exact (Hfin [] H).
  - exists []. split; [reflexivity|]. exact (Hfin [] H).
Qed.

(** X6. What makes the extraction of a template fail: a template that is
    not an object, or whose [settings] or [settings.index] is not an
    object, raises [AttributeError]; when these are in order, an empty
    [index_patterns] list raises [IndexError] and a first pattern that is
    not a string raises [AttributeError]. *)
Theorem template_detail_errors n data :
  (is_object data = false -> template_detail n data = Raise AttributeError) /\
  (forall d v, data = JObj d -> dict_get "settings" d = Some v ->
     is_object v = false -> template_detail n data = Raise AttributeError) /\
  (forall d s v, data = JObj d -> dict_get "settings" d = Some (JObj s) ->
     dict_get "index" s = Some v -> is_object v = false ->
     template_detail n data = Raise AttributeError) /\
  (forall d s i, data = JObj d ->
     py_get data "settings" (JObj []) = Ok s ->
     py_get s "index" (JObj []) = Ok (JObj i) ->
     (dict_get "index_patterns" d = Some (JArr []) ->
      template_detail n data = Raise IndexError) /\
     (forall v l, dict_get "index_patterns" d = Some (JArr (v :: l)) ->
        (forall p, v <> JStr p) ->
        template_detail n data = Raise AttributeError)).
Proof.
  unfold template_detail. split; [|split; [|split]].
  - destruct data; simpl; auto; discriminate.
  - intros d v -> Hs Hv. cbn [py_get res_bind]. rewrite Hs.
    destruct v; simpl; auto; discriminate.
  - intros d s v -> Hs Hi Hv. cbn [py_get res_bind]. rewrite Hs.
    cbn [py_get res_bind]. rewrite Hi. destruct v; simpl; auto; discriminate.
  - intros d s i -> Hs Hi. rewrite Hs. cbn [res_bind]. rewrite Hi.
    cbn [py_get res_bind py_contains]. unfold dict_has. split.
    + intros Hp. rewrite Hp. cbn [py_getitem res_bind]. now rewrite Hp.
    + intros v l Hp Hv. rewrite Hp. cbn [py_getitem res_bind]. rewrite Hp.
      cbn [res_bind py_first].
      destruct v; simpl; auto. now destruct (Hv s0).
Qed.

Lemma dict_set_fresh k v d :
  ~ In k (dict_keys d) -> dict_set k v d = d ++ [(k, v)].
Proof.
  induction d as [|[k0 v0] d IH]; simpl; intros H; auto.
  destruct (k0 =? k)%string eqn:E.
  - apply String.eqb_eq in E. subst. tauto.
  - rewrite IH; auto.
Qed.

Lemma filter_templates_from items acc :
  NoDup (dict_keys items) ->
  (forall k, In k (dict_keys items) -> ~ In k (dict_keys acc)) ->
  fold_left
    (fun (templates : dict) (item : string * json) =>
       let (k, v) := item in
       if existsb (String.eqb k) template_to_change
       then dict_set k v templates else templates)
    items acc
  = acc ++ filter (fun item => allowed (fst item)) items.
Proof.
  revert acc. induction items as [|[k v] items IH]; intros acc Hnd Hacc;
    cbn [fold_left filter fst].
  - now rewrite app_nil_r.
  - inversion Hnd as [|? ? Hk Hnd']; subst. unfold allowed at 1.
    destruct (existsb (String.eqb k) template_to_change).
    + rewrite dict_set_fresh; [|apply Hacc; simpl; auto].
      rewrite IH; auto.
      * now rewrite <- app_assoc.
      * intros k' Hin Hin'. unfold dict_keys in Hin'.
        rewrite map_app in Hin'. apply in_app_or in Hin'.
        destruct Hin' as [Hin'|[<-|[]]]; [|contradiction].
        apply (Hacc k'); simpl; auto.
    + apply IH; auto. intros k' Hin. apply Hacc. simpl. auto.
Qed.

(** X7. On a dictionary, where every key occurs once, the selection of
    [main] keeps the items whose key is in [template_to_change], with
    their values, in their order. *)
Theorem filter_templates_filter templates :
  NoDup (dict_keys templates) ->
  filter_templates templates
  = filter (fun item => allowed (fst item)) templates.
Proof.
  intros H. unfold filter_templates.
  rewrite filter_templates_from; auto.
Qed.

(** ** The probe, the deletion and the verification, further *)

Lemma create_test_document_shape w h index_name tr out :
  exec w h (create_test_document index_name) = (tr, out) ->
  exists now a rest,
    tr = [EPrint [Lit "Creating test document in index ";
                  Val (JStr index_name); Lit "..."];
          ETime now;
          ERun (curl_command "POST" (index_name +++ "/_doc")
                  (probe_document now)) a] ++ rest /\
    runs_of rest = [] /\
    out = (response <- returned a ;; created response)%res.
Proof.
  unfold create_test_document. run.
  all: intros H; injection H; intros; subst tr out; clear H.
  all: match goal with
       | |- context [ERun (curl_command "POST" _ (probe_document ?t)) ?a] =>
           exists t, a
       end; eexists; (split; [reflexivity|]); (split; [reflexivity|]);
       simpl returned; rewrite ?Hcode; cbn [negb res_bind];
       rewrite ?Hr; reflexivity.
Qed.

Lemma created_true a :
  (exists v, (response <- returned a ;; created response)%res = Ok v /\
             truthy v = true) <->
  (exists d r, returned a = Ok (JObj d) /\
               dict_get "result" d = Some (JStr r) /\
               (r = "created" \/ r = "updated")).
Proof.
  split.
  - intros [v [H Hv]]. bind_inv H. unfold created in H.
    destruct (truthy a0) eqn:T; [|injection H as <-; congruence].
    bind_inv H. destruct a1; [|injection H as <-; discriminate].
    bind_inv H. injection H as <-. simpl in Hv.
    match goal with
    | Hg : py_getitem _ "result" = Ok ?result |- _ =>
        apply py_getitem_inv in Hg; destruct Hg as [d [-> Hd]];
        unfold in_created_updated in Hv; apply orb_prop in Hv;
        destruct result as [| | | |s| |]; try (destruct Hv; discriminate)
    end.
    exists d, s. repeat split; auto.
    destruct Hv as [Hv|Hv]; apply String.eqb_eq in Hv; auto.
  - intros [d [r [-> [Hd Hr]]]]. cbn [res_bind]. unfold created.
    destruct d as [|item d]; [discriminate|]. simpl truthy.
    cbn [py_contains res_bind]. rewrite (dict_has_true _ _ _ Hd).
    cbn [py_getitem]. rewrite Hd. cbn [res_bind].
    eexists. split; [reflexivity|].
    destruct Hr as [->| ->]; reflexivity.
Qed.

(** X8. [create_test_document] makes one request, a POST to
    [<index>/_doc] whose body is the fixed document stamped with the
    clock value it has just read, and it returns a true value exactly
    when that request is answered by a JSON object whose [result] is the
    string [created] or [updated]. *)
Theorem create_test_document_outcome w h index_name tr out :
  exec w h (create_test_document index_name) = (tr, out) ->
  exists now a,
    In (ETime now) tr /\
    runs_of tr =
      [(curl_command "POST" (index_name +++ "/_doc") (probe_document now), a)]
    /\
    data_of (curl_command "POST" (index_name +++ "/_doc")
               (probe_document now)) = Some (probe_document now) /\
    ((exists v, out = Ok v /\ truthy v = true) <->
     (exists d r, returned a = Ok (JObj d) /\
                  dict_get "result" d = Some (JStr r) /\
                  (r = "created" \/ r = "updated"))).
Proof.
  intros Hex.
  destruct (create_test_document_shape _ _ _ _ _ Hex)
    as [now [a [rest [-> [Hr ->]]]]].
  exists now, a. split; [simpl; auto|].
  split; [rewrite runs_of_app, Hr; reflexivity|].
  split; [reflexivity|]. apply created_true.
Qed.

Lemma acknowledged_affirmative b :
  (exists v, (response <- returned b ;; acknowledged response)%res = Ok v /\
             truthy v = true) <->
  affirmative b = true.
Proof.
  unfold affirmative. split.
  - intros [v [H Hv]]. destruct (returned b) as [response|e]; [|discriminate].
    cbn [res_bind] in H.
    destruct (acknowledged_truthy _ _ H Hv) as [d [-> Hd]]. now rewrite Hd.
  - intros H. destruct (returned b) as [[| | | | | |d]|e]; try discriminate.
    destruct (dict_get "acknowledged" d) as [v|] eqn:Hd; [|discriminate].
    exists v. split; auto. cbn [res_bind]. unfold acknowledged.
    destruct d; [discriminate|]. simpl truthy. cbn [py_get]. now rewrite Hd.
Qed.

(** X9. [delete_index] makes one request, a DELETE of the index without
    a body; it returns a true value exactly when the answer is an object
    with a true [acknowledged], and raises what the request raises. *)
Theorem delete_index_outcome w h index_name tr out :
  exec w h (delete_index index_name) = (tr, out) ->
  exists a,
    runs_of tr = [(curl_command "DELETE" index_name JNull, a)] /\
    url_of (curl_command "DELETE" index_name JNull) = at_cluster index_name /\
    data_of (curl_command "DELETE" index_name JNull) = None /\
    ((exists v, out = Ok v /\ truthy v = true) <-> affirmative a = true) /\
    (forall e, returned a = Raise e -> out = Raise e).
Proof.
  intros Hex. destruct (delete_index_cases _ _ _ _ _ Hex) as [a [Hr ->]].
  exists a. split; auto. split; [reflexivity|]. split; [reflexivity|].
  split; [apply acknowledged_affirmative|]. now intros e ->.
Qed.

(** X10. [verify_index_settings] makes one request, a GET of
    [<index>/_settings] without a body; when the answer is a value that
    is false or an object without the index name it returns [False], and
    when the counts parse but one differs from the expected it returns
    [False] as well. *)
Theorem verify_index_settings_false w h index_name es er tr out :
  exec w h (verify_index_settings index_name es er) = (tr, out) ->
  exists a,
    runs_of tr =
      [(curl_command "GET" (index_name +++ "/_settings") JNull, a)] /\
    data_of (curl_command "GET" (index_name +++ "/_settings") JNull) = None /\
    (forall response,
       returned a = Ok response ->
       truthy response = false \/
         (exists d, response = JObj d /\ dict_get index_name d = None) ->
       out = Ok (JBool false)) /\
    (forall response settings n m,
       returned a = Ok response ->
       index_settings response index_name = Ok settings ->
       parsed_count settings "number_of_shards" = Ok n ->
       parsed_count settings "number_of_replicas" = Ok m ->
       n <> es \/ m <> er -> out = Ok (JBool false)).
Proof.
  intros Hex.
  destruct (verify_index_settings_cases _ _ _ _ _ _ _ Hex) as [a [Hr ->]].
  exists a. split; auto. split; [reflexivity|]. unfold verified. split.
  - intros response -> Hu. cbn [res_bind].
    now rewrite (absent_or_lacks_true _ _ Hu).
  - intros response settings n m -> Hs Hn Hm Hd. cbn [res_bind].
    rewrite (index_settings_not_missing _ _ _ Hs). cbn [res_bind].
    rewrite Hs. cbn [res_bind]. rewrite Hn, Hm. cbn [res_bind].
    destruct Hd as [Hd|Hd]; apply Z.eqb_neq in Hd; rewrite Hd; auto.
    now rewrite andb_false_r.
Qed.

(** X11. [verify_index_settings] raises instead of returning when a
    count that is present cannot be read as an integer: [ValueError] for a
    string that [int] rejects, [TypeError] for [null], a list or an
    object. *)
Theorem verify_index_settings_unreadable w h index_name es er tr out
  c a response d :
  exec w h (verify_index_settings index_name es er) = (tr, out) ->
  In (ERun c a) tr -> returned a = Ok response ->
  index_settings response index_name = Ok (JObj d) ->
  (forall s, int_of_str s = None -> py_int (JStr s) = Raise ValueError) /\
  (forall v, v = JNull \/ (exists l, v = JArr l) \/ (exists o, v = JObj o) ->
             py_int v = Raise TypeError) /\
  (forall v e,
     py_int v = Raise e ->
     (dict_get "number_of_shards" d = Some v -> out = Raise e) /\
     (dict_get "number_of_replicas" d = Some v ->
      (exists n, parsed_count (JObj d) "number_of_shards" = Ok n) ->
      out = Raise e)).
Proof.
  intros Hex Hin Ha Hs.
  destruct (verify_index_settings_cases _ _ _ _ _ _ _ Hex) as [a0 [Hr ->]].
  apply In_runs_of in Hin. rewrite Hr in Hin.
  destruct Hin as [E|[]]. injection E as _ <-.
  split; [|split].
  - intros s H. simpl. now rewrite H.
  - intros v [->|[[l ->]|[o ->]]]; reflexivity.
  - intros v e Hv. unfold verified. rewrite Ha. cbn [res_bind].
    rewrite (index_settings_not_missing _ _ _ Hs). cbn [res_bind].
    rewrite Hs. cbn [res_bind]. unfold parsed_count. cbn [py_get res_bind].
    split.
    + intros Hd. rewrite Hd, Hv. reflexivity.
    + intros Hd [n Hn]. unfold parsed_count in Hn. cbn [py_get res_bind] in Hn.
      rewrite Hn. cbn [res_bind]. rewrite Hd, Hv. reflexivity.
Qed.

(** ** [update_template], further *)

Lemma modify_settings_type_error template_config shards replicas :
  is_object template_config = false \/
  (exists d v, template_config = JObj d /\ dict_get "settings" d = Some v /\
               is_object v = false) \/
  (exists d o v, template_config = JObj d /\
                 dict_get "settings" d = Some (JObj o) /\
                 dict_get "index" o = Some v /\ is_object v = false) ->
  modify_settings template_config shards replicas = Raise TypeError.
Proof.
  unfold modify_settings.
  intros [H|[[d [v [-> [Hd Hv]]]]|[d [o [v [-> [Hd [Hi Hv]]]]]]]].
  - destruct template_config as [| | | |s|l|d]; try discriminate H;
      try reflexivity.
    + cbn [py_contains res_bind]. now destruct (is_infix "settings" s).
    + cbn [py_contains res_bind].
      now destruct (existsb (is_str "settings") l).
  - cbn [py_contains res_bind]. rewrite (dict_has_true _ _ _ Hd).
    cbn [res_bind py_getitem]. rewrite Hd. cbn [res_bind].
    destruct v as [| | | |s|l|o]; try discriminate Hv; try reflexivity.
    + cbn [py_contains res_bind].
      destruct (is_infix "index" s); cbn [res_bind setitem_at py_getitem];
        rewrite Hd; reflexivity.
    + cbn [py_contains res_bind].
      destruct (existsb (is_str "index") l);
        cbn [res_bind setitem_at py_getitem]; rewrite Hd; reflexivity.
  - cbn [py_contains res_bind]. rewrite (dict_has_true _ _ _ Hd).
    cbn [res_bind py_getitem]. rewrite Hd. cbn [res_bind py_contains].
    rewrite (dict_has_true _ _ _ Hi).
    cbn [res_bind setitem_at py_getitem]. rewrite Hd.
    cbn [res_bind py_getitem]. rewrite Hi. cbn [res_bind].
    destruct v; try discriminate Hv; reflexivity.
Qed.

(** X12. When the fetched template is not an object, or its [settings]
    or its [settings.index] is present and is not an object (for instance
    [null]), [update_template] raises [TypeError] and makes no PUT. *)
Theorem update_template_type_error w h template_name shards replicas tr out
  c a current_template fetched :
  exec w h (update_template template_name shards replicas) = (tr, out) ->
  In (ERun c a) tr -> method_of c = "GET" ->
  returned a = Ok current_template ->
  py_getitem current_template template_name = Ok fetched ->
  is_object fetched = false \/
  (exists d v, fetched = JObj d /\ dict_get "settings" d = Some v /\
               is_object v = false) \/
  (exists d o v, fetched = JObj d /\
                 dict_get "settings" d = Some (JObj o) /\
                 dict_get "index" o = Some v /\ is_object v = false) ->
  out = Raise TypeError /\ requests "PUT" tr = [].
Proof.
  intros Hex Hin Hm Ha Hg Hbad.
  destruct (update_template_get _ _ _ _ _ _ _ _ _ Hex Hin Hm) as [-> Hc].
  unfold prepared in Hc. rewrite Ha in Hc. cbn [res_bind] in Hc.
  rewrite (has_key_not_missing _ _ _ Hg) in Hc. cbn [res_bind] in Hc.
  rewrite Hg in Hc. cbn [res_bind] in Hc.
  rewrite (modify_settings_type_error _ shards replicas Hbad) in Hc.
  cbn [res_bind] in Hc. destruct Hc as [Hr ->]. split; auto.
  rewrite requests_runs_of, Hr. reflexivity.
Qed.

Lemma dict_keys_set_present k v d :
  dict_has k d = true -> dict_keys (dict_set k v d) = dict_keys d.
Proof.
  unfold dict_has. induction d as [|[k0 v0] d IH]; simpl; [discriminate|].
  destruct (k0 =? k)%string eqn:E; simpl.
  - apply String.eqb_eq in E. now subst.
  - intros H. now rewrite IH.
Qed.

Lemma dict_keys_set_absent k v d :
  dict_has k d = false -> dict_keys (dict_set k v d) = dict_keys d ++ [k].
Proof.
  intros H. rewrite dict_set_fresh.
  - unfold dict_keys. now rewrite map_app.
  - intros Hin. apply dict_get_some in Hin. destruct Hin as [data Hd].
    now rewrite (dict_has_true _ _ _ Hd) in H.
Qed.

Lemma setitem_at_keys p path k v d c' :
  setitem_at (p :: path) k v (JObj d) = Ok c' ->
  exists d', c' = JObj d' /\ dict_keys d' = dict_keys d.
Proof.
  cbn [setitem_at]. intros H. bind_inv H.
  apply py_getitem_inv in E. destruct E as [d0 [[= <-] Hd]].
  simpl in H. injection H as <-. eexists. split; [reflexivity|].
  apply dict_keys_set_present. now apply (dict_has_true _ _ a).
Qed.

Lemma modify_settings_keys d shards replicas body :
  modify_settings (JObj d) shards replicas = Ok body ->
  exists d',
    body = JObj d' /\
    dict_keys d' = if dict_has "settings" d then dict_keys d
                   else dict_keys d ++ ["settings"].
Proof.
  unfold modify_settings. cbn [py_contains res_bind]. intros H.
  assert (H1 : exists d1,
    (if dict_has "settings" d then Ok (JObj d)
     else py_setitem (JObj d) "settings" (JObj [])) = Ok (JObj d1) /\
    dict_keys d1 = if dict_has "settings" d then dict_keys d
                   else dict_keys d ++ ["settings"]).
  { destruct (dict_has "settings" d) eqn:Hs.
    - exists d. auto.
    - eexists. split; [reflexivity|]. now apply dict_keys_set_absent. }
  destruct H1 as [d1 [E1 <-]]. rewrite E1 in H. cbn [res_bind] in H.
  bind_inv H.
  match goal with
  | Hc : (if ?has then Ok (JObj d1) else _) = Ok ?c2,
    Hs : setitem_at _ "number_of_shards" _ ?c2 = Ok ?c3 |- _ =>
      assert (H2 : exists d2, c2 = JObj d2 /\ dict_keys d2 = dict_keys d1)
        by (destruct has;
            [injection Hc as <-; eauto | now apply setitem_at_keys in Hc]);
      destruct H2 as [d2 [-> <-]];
      apply setitem_at_keys in Hs; destruct Hs as [d3 [-> <-]]
  end.
  apply setitem_at_keys in H. destruct H as [d4 [-> <-]]. eauto.
Qed.

(** X13. The body that [update_template] PUTs has the top-level keys of
    the fetched template in the same order, followed by [settings] when
    the fetched template had none. *)
Theorem update_template_key_order w h template_name shards replicas tr out
  c b :
  exec w h (update_template template_name shards replicas) = (tr, out) ->
  In (ERun c b) tr -> method_of c = "PUT" ->
  exists a current_template d d',
    In (ERun (curl_command "GET" ("_template/" +++ template_name) JNull) a)
       tr /\
    returned a = Ok current_template /\
    py_getitem current_template template_name = Ok (JObj d) /\
    data_of c = Some (JObj d') /\
    dict_keys d' = if dict_has "settings" d then dict_keys d
                   else dict_keys d ++ ["settings"].
Proof.
  intros Hex Hin Hm.
  destruct (update_template_put _ _ _ _ _ _ _ _ _ Hex Hin Hm)
    as [a [body [Hp [Hr [-> _]]]]].
  destruct (prepared_inv _ _ _ _ _ Hp) as [cur [fetched [Ha [Hg Hmod]]]].
  destruct fetched as [| | | | | |d];
    try (rewrite modify_settings_type_error in Hmod;
         [discriminate|left; reflexivity]).
  destruct (modify_settings_keys _ _ _ _ Hmod) as [d' [-> Hk]].
  exists a, cur, d, d'.
  split; [apply In_runs_of; rewrite Hr; simpl; auto|].
  repeat split; auto.
  now rewrite data_of_curl, (modify_settings_truthy _ _ _ _ Hmod).
Qed.

(** ** The loops of [main] *)

(** X14. The testing step of a template makes at most three requests, in
    this order and all on its test index: the POST of the probe; then,
    only when the probe was created, the GET of the settings; then, only
    when the verification returned, the DELETE.  It raises exactly what
    the first failing call raises. *)
Theorem test_template_requests w h template tr out :
  exec w h (test_template template) = (tr, out) ->
  exists now a,
    let index := test_index template in
    let post := curl_command "POST" (index +++ "/_doc") (probe_document now) in
    let get := curl_command "GET" (index +++ "/_settings") JNull in
    let del := curl_command "DELETE" index JNull in
    match (response <- returned a ;; created response)%res with
    | Raise e => runs_of tr = [(post, a)] /\ out = Raise e
    | Ok ok =>
        if truthy ok then
          exists g,
            match verified index 1 1 g with
            | Raise e => runs_of tr = [(post, a); (get, g)] /\ out = Raise e
            | Ok _ =>
                exists d,
                  runs_of tr = [(post, a); (get, g); (del, d)] /\
                  out = (_ <- (response <- returned d ;;
                               acknowledged response) ;; Ok tt)%res
            end
        else runs_of tr = [(post, a)] /\ out = Ok tt
    end.
Proof.
  intros Hex.
  destruct (test_template_cases _ _ _ _ _ Hex) as [t1 [out1 [Hc Hcases]]].
  destruct (create_test_document_cases _ _ _ _ _ Hc) as [now [a [R1 ->]]].
  exists now, a. cbv zeta.
  destruct (response <- returned a ;; created response)%res as [ok|e].
  2:{ destruct Hcases as [-> ->]. auto. }
  destruct (truthy ok).
  2:{ destruct Hcases as [-> ->]. rewrite runs_of_app, R1. auto. }
  destruct Hcases as [t2 [out2 [Hv Hcases]]].
  destruct (verify_index_settings_cases _ _ _ _ _ _ _ Hv) as [g [R2 ->]].
  exists g. destruct (verified (test_index template) 1 1 g) as [v|e].
  2:{ destruct Hcases as [-> ->].
      change (ESleep 2 :: t2) with ([ESleep 2] ++ t2).
      rewrite !runs_of_app, R1, R2. auto. }
  destruct Hcases as [t3 [out3 [Hd Hcases]]].
  destruct (delete_index_cases _ _ _ _ _ Hd) as [d [R3 ->]].
  exists d.
  destruct (response <- returned d ;; acknowledged response)%res as [v'|e];
    destruct Hcases as [-> ->]; cbn [res_bind];
    change (ESleep 2 :: t2 ++ ?x) with ([ESleep 2] ++ t2 ++ x);
    rewrite !runs_of_app, R1, R2, R3; auto.
Qed.

Lemma update_step_run w h t u0 f0 tr out :
  exec w h (update_step t (u0, f0)) = (tr, out) ->
  requests "GET" tr
    = [curl_command "GET" ("_template/" +++ name t) JNull] /\
  (List.length (requests "PUT" tr) <= 1)%nat /\
  forall u f,
    out = Ok (u, f) ->
    (u = u0 ++ [t] /\ f = f0 /\
     exists c b, In (ERun c b) tr /\ method_of c = "PUT" /\
                 url_of c = at_cluster ("_template/" +++ name t) /\
                 affirmative b = true) \/
    (u = u0 /\ f = f0 ++ [t]).
Proof.
  unfold update_step. rewrite exec_bind.
  destruct (exec w h (update_template (name t) 1 1)) as [t1 out1] eqn:Hu.
  destruct (update_template_cases _ _ _ _ _ _ _ Hu) as [a Hc].
  cbv zeta in Hc.
  assert (Hreq : requests "GET" t1
                 = [curl_command "GET" ("_template/" +++ name t) JNull] /\
                 (List.length (requests "PUT" t1) <= 1)%nat).
  { rewrite !requests_runs_of.
    destruct (prepared (name t) 1 1 a) as [[cfg|]|e].
    - destruct Hc as [b [-> _]]. simpl. rewrite !method_of_curl. simpl. auto.
    - destruct Hc as [-> _]. simpl. auto.
    - destruct Hc as [-> _]. simpl. auto. }
  destruct out1 as [ok|e].
  2:{ intros [= <- <-]. split; [apply Hreq|]. split; [apply Hreq|].
      discriminate. }
  destruct (truthy ok) eqn:Hok; simpl; rewrite app_nil_r;
    intros [= <- <-]; (split; [apply Hreq|]); (split; [apply Hreq|]);
    intros u f [= <- <-]; [left|right]; auto.
  split; auto. split; auto.
  destruct (prepared (name t) 1 1 a) as [[cfg|]|e'].
  - destruct Hc as [b [Hr Hout]].
    exists (curl_command "PUT" ("_template/" +++ name t) cfg), b.
    split; [apply In_runs_of; rewrite Hr; simpl; auto|].
    split; [apply method_of_curl|]. split; [apply url_of_curl|].
    apply acknowledged_affirmative. exists ok. auto.
  - destruct Hc as [_ [= ->]]. discriminate.
  - destruct Hc as [_ [=]].
Qed.

Lemma update_loop_from ds u0 f0 w h tr u f :
  exec w h (for_loop ds update_step (u0, f0)) = (tr, Ok (u, f)) ->
  exists u' f',
    u = u0 ++ u' /\ f = f0 ++ f' /\
    (List.length u' + List.length f' = List.length ds)%nat /\
    (forall t, In t ds <-> In t u' \/ In t f') /\
    requests "GET" tr
      = map (fun t => curl_command "GET" ("_template/" +++ name t) JNull) ds
    /\
    (List.length (requests "PUT" tr) <= List.length ds)%nat /\
    (forall t, In t u' ->
       exists c b, In (ERun c b) tr /\ method_of c = "PUT" /\
                   url_of c = at_cluster ("_template/" +++ name t) /\
                   affirmative b = true).
Proof.
  revert u0 f0 h tr. induction ds as [|t ds IH]; intros u0 f0 h tr.
  - simpl. intros [= <- <- <-]. exists [], []. rewrite !app_nil_r.
    repeat split; auto; try tauto. intros t [].
  - cbn [for_loop]. rewrite exec_bind.
    destruct (exec w h (update_step t (u0, f0))) as [t1 [[u1 f1]|e]] eqn:Hs;
      [|discriminate].
    destruct (update_step_run _ _ _ _ _ _ _ Hs) as [Hg [Hp Hres]].
    destruct (exec w (h ++ t1) (for_loop ds update_step (u1, f1)))
      as [t2 r] eqn:Hl.
    intros [= <- ->].
    destruct (IH _ _ _ _ Hl) as [u' [f' [-> [-> [Hlen [Hin [Hg2 [Hp2 Hu]]]]]]]].
    rewrite !requests_app, Hg, Hg2, !length_app.
    destruct (Hres u1 f1 eq_refl) as [[-> [-> Hack]]|[-> ->]].
    + exists (t :: u'), f'. rewrite <- app_assoc. simpl.
      repeat split; auto; try lia.
      * intros [<-|H]; auto. apply Hin in H. tauto.
      * intros [[<-|H]|H]; auto; right; apply Hin; auto.
      * intros t' [<-|H].
        -- destruct Hack as [c [b [Hi H']]]. exists c, b.
           split; auto. apply in_or_app. auto.
        -- destruct (Hu t' H) as [c [b [Hi H']]]. exists c, b.
           split; auto. apply in_or_app. auto.
    + exists u', (t :: f'). rewrite <- app_assoc. simpl.
      repeat split; auto; try lia.
      * intros [<-|H]; auto. apply Hin in H. tauto.
      * intros [H|[<-|H]]; auto; right; apply Hin; auto.
      * intros t' H. destruct (Hu t' H) as [c [b [Hi H']]]. exists c, b.
        split; auto. apply in_or_app. auto.
Qed.

(** X15. When the update loop of [main] runs to its end, every listed
    template went through [update_template] once, in order (one GET each),
    and is in exactly one of the two lists, so that their lengths add up
    to the number of templates; a template is in the updated list only if
    a PUT to it was acknowledged, and there is at most one PUT per
    template. *)
Theorem update_loop_partition w h template_details tr updated failed :
  exec w h (for_loop template_details update_step ([], []))
    = (tr, Ok (updated, failed)) ->
  (List.length updated + List.length failed
   = List.length template_details)%nat /\
  (forall t, In t template_details <-> In t updated \/ In t failed) /\
  requests "GET" tr
    = map (fun t => curl_command "GET" ("_template/" +++ name t) JNull)
        template_details /\
  (List.length (requests "PUT" tr) <= List.length template_details)%nat /\
  (forall t, In t updated ->
     exists c b, In (ERun c b) tr /\ method_of c = "PUT" /\
                 url_of c = at_cluster ("_template/" +++ name t) /\
                 affirmative b = true).
Proof.
  intros H. destruct (update_loop_from _ _ _ _ _ _ _ _ H)
    as [u' [f' [-> [-> H']]]]. exact H'.
Qed.

(** ** [main] as a whole *)

Lemma update_and_test_zero ds :
  sound (tame ds) (fun v => v = JInt 0) (update_and_test ds).
Proof.
  unfold update_and_test.
  eapply sound_bind.
  - apply (sound_for_loop (tame ds) (fun lists => incl (fst lists) ds)).
    + intros t lists Hin Hl. now apply update_step_tame.
    + intros x [].
  - intros [updated failed] Hl. simpl in Hl.
    eapply sound_bind; [now apply sound_print|]. intros _ _.
    eapply sound_bind; [now apply sound_print|]. intros _ _.
    eapply sound_bind.
    + apply (sound_for_loop (tame ds) (fun _ => True)); auto.
      intros t u Hin _. apply test_template_tame. auto.
    + intros _ _. eapply sound_bind; [apply summary_tame|].
      intros _ _. now apply sound_ret.
Qed.

Lemma sound_events {A} (P P' : event -> Prop) (Q : A -> Prop) p :
  sound P Q p -> (forall ev, P ev -> P' ev) -> sound P' Q p.
Proof.
  intros H HP w h. destruct (H w h) as [H1 H2]. split; auto.
  eapply Forall_impl; [|exact H1]. auto.
Qed.

Lemma sound_any {A} (p : prog A) : sound (fun _ => True) (fun _ => True) p.
Proof. intros w h. split; auto. apply Forall_forall. auto. Qed.

Lemma sound_conj {A} (P P' : event -> Prop) (Q Q' : A -> Prop) p :
  sound P Q p -> sound P' Q' p ->
  sound (fun ev => P ev /\ P' ev) (fun a => Q a /\ Q' a) p.
Proof.
  intros H H' w h. destruct (H w h) as [H1 H2]. destruct (H' w h) as [H3 H4].
  split; auto. rewrite Forall_forall in *. auto.
Qed.

Ltac one_each_step :=
  match goal with
  | |- Forall _ [] => constructor
  | |- Forall _ (_ :: _) => constructor
  | |- one_each (ERun _ _) =>
      simpl; rewrite method_of_curl; intros Hm; discriminate Hm
  | |- one_each _ => exact I
  end.

(** The PUT of [update_template name 1 1] asks for one shard and one
    replica. *)
Lemma update_template_one_each template_name :
  sound one_each (fun _ => True) (update_template template_name 1 1).
Proof.
  intros w h. split; auto. apply Forall_forall.
  intros [c b|m|q l|now|n] Hin; simpl; auto. intros Hm.
  destruct (exec w h (update_template template_name 1 1)) as [tr out] eqn:Hex.
  simpl in Hin.
  destruct (update_template_put _ _ _ _ _ _ _ _ _ Hex Hin Hm)
    as [a [cfg [Hp [_ [-> _]]]]].
  apply prepared_inv in Hp. destruct Hp as [cur [fetched [_ [_ Hmod]]]].
  exists cfg. rewrite data_of_curl, (modify_settings_truthy _ _ _ _ Hmod).
  split; auto. apply (modify_settings_written _ _ _ _ Hmod).
Qed.

Lemma create_test_document_one_each index_name :
  sound one_each (fun _ => True) (create_test_document index_name).
Proof.
  intros w h. unfold create_test_document. run.
  all: split; [|auto]. all: repeat one_each_step.
Qed.

Lemma verify_index_settings_one_each index_name es er :
  sound one_each (fun _ => True) (verify_index_settings index_name es er).
Proof.
  intros w h. unfold verify_index_settings. run.
  all: split; [|auto]. all: repeat one_each_step.
Qed.

Lemma delete_index_one_each index_name :
  sound one_each (fun _ => True) (delete_index index_name).
Proof.
  intros w h. unfold delete_index. run.
  all: split; [|auto]. all: repeat one_each_step.
Qed.

Lemma test_template_one_each t :
  sound one_each (fun _ => True) (test_template t).
Proof.
  unfold test_template. cbv zeta.
  eapply sound_bind; [apply create_test_document_one_each|].
  intros ok _. destruct (truthy ok).
  - eapply sound_bind; [now apply sound_sleep|]. intros _ _.
    eapply sound_bind; [apply verify_index_settings_one_each|].
    intros verified _.
    eapply sound_bind; [apply delete_index_one_each|]. intros _ _.
    destruct (truthy verified); now apply sound_print.
  - now apply sound_print.
Qed.

Lemma summary_one_each l1 l2 l3 :
  sound one_each (fun _ => True) (summary l1 l2 l3).
Proof.
  unfold summary.
  eapply sound_bind; [now apply sound_print|]. intros _ _.
  eapply sound_bind; [now apply sound_print|]. intros _ _.
  eapply sound_bind; [now apply sound_print|]. intros _ _.
  destruct l3 as [|t l3]; [now apply sound_ret|].
  eapply sound_bind; [now apply sound_print|]. intros _ _.
  apply sound_for_loop; auto. intros x u _ _. now apply sound_print.
Qed.

Lemma update_and_test_one_each ds :
  sound one_each (fun _ => True) (update_and_test ds).
Proof.
  unfold update_and_test.
  eapply sound_bind.
  - apply (sound_for_loop one_each (fun _ => True)); auto.
    intros t [updated failed] _ _. unfold update_step.
    eapply sound_bind; [apply update_template_one_each|].
    intros ok _. destruct (truthy ok); now apply sound_ret.
  - intros [updated failed] _.
    eapply sound_bind; [now apply sound_print|]. intros _ _.
    eapply sound_bind; [now apply sound_print|]. intros _ _.
    eapply sound_bind.
    + apply (sound_for_loop one_each (fun _ => True)); auto.
      intros t u _ _. apply test_template_one_each.
    + intros _ _. eapply sound_bind; [apply summary_one_each|].
      intros _ _. now apply sound_ret.
Qed.

Lemma update_and_test_careful ds :
  sound (careful ds) (fun v => v = JInt 0) (update_and_test ds).
Proof.
  eapply sound_weaken.
  - apply (sound_conj _ _ _ _ _ (update_and_test_zero ds)
             (update_and_test_one_each ds)).
  - now intros v [H _].
Qed.

(** [main_body] returns [None] or 0. *)
Lemma main_body_returns :
  sound (fun _ => True) (fun v => v = JNull \/ v = JInt 0) main_body.
Proof.
  unfold main_body.
  eapply sound_bind; [now apply sound_print|]. intros _ _.
  eapply sound_bind; [now apply sound_print|]. intros _ _.
  eapply sound_bind; [apply sound_any|]. intros templates _.
  destruct (negb (truthy templates)).
  - eapply sound_bind; [now apply sound_print|]. intros _ _.
    apply sound_ret. auto.
  - eapply sound_bind; [apply sound_any|]. intros items _. cbv zeta.
    eapply sound_bind; [apply sound_any|]. intros ds _.
    unfold show_and_confirm.
    eapply sound_bind; [now apply sound_print|]. intros _ _.
    eapply sound_bind; [now apply sound_print|]. intros _ _.
    eapply sound_bind; [apply sound_any|]. intros _ _.
    eapply sound_bind; [apply sound_any|]. intros proceed _.
    destruct (negb (lower proceed =? "y")%string).
    + eapply sound_bind; [now apply sound_print|]. intros _ _.
      apply sound_ret. auto.
    + eapply sound_events; [|intros ev _; exact I].
      eapply sound_weaken; [apply update_and_test_zero|]. auto.
Qed.

(** The question and what follows it. *)
Lemma after_listing_shape ds w h tr out :
  exec w h
    (proceed <- py_input question ;;
     if negb (lower proceed =? "y")%string then
       print [Lit "Operation canceled"] ;; Ret JNull
     else update_and_test ds)%prog = (tr, out) ->
  exists line rest,
    tr = EInput question line :: rest /\
    match line with
    | None => rest = [] /\ out = Raise EOFError
    | Some s =>
        if (lower s =? "y")%string then
          Forall (careful ds) rest /\
          (out = Ok (JInt 0) \/ exists e, out = Raise e)
        else rest = [canceled_line] /\ out = Ok JNull
    end.
Proof.
  unfold py_input. cbn [bind exec].
  destruct (on_input w h question) as [s|].
  - cbn [bind]. destruct (lower s =? "y")%string eqn:E; cbn [negb].
    + match goal with
      | |- context [exec w ?h' (update_and_test ds)] =>
          destruct (update_and_test_careful ds w h') as [H1 H2];
          destruct (exec w h' (update_and_test ds)) as [t r]
      end.
      simpl in H1, H2. intros [= <- <-]. exists (Some s), t.
      split; auto. rewrite E. split; auto.
      destruct r as [v|e]; [left; now rewrite (H2 v eq_refl) | right; eauto].
    + simpl. intros [= <- <-]. exists (Some s). eexists.
      split; [reflexivity|]. rewrite E. auto.
  - simpl. intros [= <- <-]. exists None, []. auto.
Qed.

Lemma display_loop_returns l idx w h :
  exists i, snd (exec w h (for_loop l display_template idx)) = Ok i.
Proof.
  revert idx h. induction l as [|t l IH]; intros idx h; [simpl; eauto|].
  cbn [for_loop display_template bind print exec].
  match goal with
  | |- context [exec w ?h' (for_loop l display_template ?i)] =>
      destruct (IH i h') as [j Hj];
      destruct (exec w h' (for_loop l display_template i)) as [tl r]
  end.
  simpl in *. eauto.
Qed.

Lemma show_and_confirm_shape ds w h tr out :
  exec w h (show_and_confirm ds) = (tr, out) ->
  exists mid line rest,
    tr = mid ++ EInput question line :: rest /\
    displayed mid = map name ds /\ runs_of mid = [] /\
    match line with
    | None => rest = [] /\ out = Raise EOFError
    | Some s =>
        if (lower s =? "y")%string then
          Forall (careful ds) rest /\
          (out = Ok (JInt 0) \/ exists e, out = Raise e)
        else rest = [canceled_line] /\ out = Ok JNull
    end.
Proof.
  unfold show_and_confirm. cbn [bind print exec]. rewrite exec_bind.
  match goal with
  | |- context [exec w ?h' (for_loop ds display_template 1)] =>
      destruct (display_loop ds 1 w h') as [H1 H2];
      destruct (display_loop_returns ds 1 w h') as [i Hi];
      destruct (exec w h' (for_loop ds display_template 1)) as [tl r]
  end.
  simpl in H1, H2, Hi. subst r.
  match goal with
  | |- context [exec w ?h' ?p] =>
      destruct (exec w h' p) as [t r] eqn:Hp
  end.
  apply after_listing_shape in Hp. destruct Hp as [line [rest [-> Hl]]].
  intros [= <- <-].
  exists ([EPrint [Lit (nl +++ "Current Templates:")];
           EPrint [Lit "-----------------"]] ++ tl), line, rest.
  rewrite <- app_assoc. split; [reflexivity|].
  rewrite displayed_app, runs_of_app. simpl. auto.
Qed.

(** The runs of [main], by the answer to the discovery request and the
    answer of the user. *)
Lemma main_shape w h tr out :
  exec w h main = (tr, out) -> exists a, main_outcome a tr out.
Proof.
  unfold main. rewrite exec_catch.
  unfold main_body, get_templates, opensearch_command, run_command.
  cbn [bind print exec].
  match goal with
  | |- context [on_run w ?h' ?c] => destruct (on_run w h' c) as [code so]
  end.
  intros H. exists (Exit code so). unfold main_outcome. simpl returned.
  destruct (code =? 0) eqn:Hcode; cbn [negb bind exec] in H |- *.
  2:{ simpl in H. injection H as <- <-. auto. }
  destruct so as [v|s].
  2:{ cbn [bind exec truthy negb print app] in H |- *.
      injection H as <- <-.
      exists [EPrint [Lit "Failed to parse JSON: "; Val (JStr s)]].
      repeat split; auto. repeat constructor. eauto. }
  cbn [bind exec] in H.
  destruct (truthy v) eqn:Tv; cbn [negb] in H.
  2:{ cbn [bind print exec] in H. injection H as <- <-. exists [].
      repeat split; auto. }
  destruct v as [| | | | | |templates];
    try (cbn [lift py_items bind exec] in H; injection H as <- <-;
         split; reflexivity).
  cbn [lift py_items bind] in H. rewrite exec_bind in H.
  match type of H with
  | context [exec w ?h' (get_template_details ?d)] =>
      destruct (get_template_details_loop d [] w h') as [Hres [Hpre _]];
      change (for_loop d _ []) with (get_template_details d) in Hres, Hpre;
      destruct (exec w h' (get_template_details d)) as [pre r]
  end.
  simpl in Hpre, Hres. subst r.
  match type of H with
  | context [exec w ?h' (show_and_confirm ?ds)] =>
      destruct (exec w h' (show_and_confirm ds)) as [ts r] eqn:Hs
  end.
  apply show_and_confirm_shape in Hs.
  destruct Hs as [mid [line [rest [-> [Hd [Hr Hl]]]]]]. cbv zeta.
  destruct r as [v|e].
  - injection H as <- <-. exists pre, mid, line, rest.
    split; [reflexivity|]. split; auto. split; auto. split; auto.
    destruct line as [s|].
    + destruct (lower s =? "y")%string.
      * destruct Hl as [Ht [Ho|[e Ho]]]; [|discriminate]. auto.
      * exact Hl.
    + destruct Hl as [_ Hl]. discriminate.
  - simpl in H. injection H as <- <-.
    exists pre, mid, line, (rest ++ [error_line e]).
    split; [unfold discovery; simpl; now rewrite <- !app_assoc|].
    split; auto. split; auto. split; auto.
    destruct line as [s|].
    + destruct (lower s =? "y")%string.
      * destruct Hl as [Ht _]. split; auto.
        apply Forall_app. split; auto. repeat constructor.
      * destruct Hl as [_ Hl]. discriminate.
    + destruct Hl as [-> [= ->]]. auto.
Qed.

Lemma main_outcome_head a tr out :
  main_outcome a tr out -> exists rest, tr = discovery a ++ rest.
Proof.
  unfold main_outcome. destruct (returned a) as [v|e].
  - destruct (truthy v).
    + destruct v as [| | | | | |templates];
        try (intros [-> _]; eexists; reflexivity).
      intros [pre [mid [line [rest [-> _]]]]]. eexists. reflexivity.
    + intros [noise [-> _]]. eexists. reflexivity.
  - intros [-> _]. eexists. reflexivity.
Qed.

Lemma prints_runs_of t :
  Forall (fun ev => exists m, ev = EPrint m) t ->
  runs_of t = [] /\ forall q l, ~ In (EInput q l) t.
Proof.
  induction 1 as [|ev t [m ->] _ [IH1 IH2]]; simpl; split; auto.
  intros q l [E|H]; [discriminate | now apply (IH2 q l)].
Qed.

(** Either the discovery request is the only one of the run, which does
    not return 0, or the user typed y and only the discovery request came
    before. *)
Lemma main_runs w h tr out :
  exec w h main = (tr, out) ->
  exists a,
    let first := (curl_command "GET" "_template" JNull, a) in
    (runs_of tr = [first] /\ out <> Ok (JInt 0)) \/
    (exists templates before s after,
       returned a = Ok (JObj templates) /\
       tr = before ++ EInput question (Some s) :: after /\
       lower s = "y" /\ runs_of before = [first] /\
       Forall (careful (details_of (filter_templates templates))) after).
Proof.
  intros Hex. destruct (main_shape _ _ _ _ Hex) as [a Hs]. exists a.
  cbv zeta. unfold main_outcome in Hs.
  destruct (returned a) as [v|e] eqn:Hr.
  - destruct (truthy v) eqn:Tv.
    + destruct v as [| | | | | |templates];
        try (destruct Hs as [-> ->]; left; split; [reflexivity|discriminate]).
      destruct Hs as [pre [mid [line [rest [-> [Hpre [_ [Hmid Hl]]]]]]]].
      destruct line as [s|].
      * destruct (lower s =? "y")%string eqn:E.
        -- right. exists templates, (discovery a ++ pre ++ mid), s, rest.
           apply String.eqb_eq in E. destruct Hl as [Hl _].
           split; auto. split; [now rewrite <- !app_assoc|].
           split; auto. split; auto.
           now rewrite !runs_of_app, Hpre, Hmid.
        -- destruct Hl as [-> ->]. left.
           split; [|discriminate].
           now rewrite !runs_of_app, Hpre, Hmid.
      * destruct Hl as [-> ->]. left. split; [|discriminate].
        now rewrite !runs_of_app, Hpre, Hmid.
    + destruct Hs as [noise [-> [Hn ->]]]. left. split; [|discriminate].
      destruct (prints_runs_of _ Hn) as [Hn1 _].
      now rewrite !runs_of_app, Hn1.
  - destruct Hs as [-> ->]. left. split; [reflexivity|discriminate].
Qed.

(** X16. [main] never raises: it returns [None], 0 or 1, and 1 exactly
    when the body of its [try] raised, in which case the run of the body is
    followed by the line "An error occurred: ..." for that exception;
    otherwise the run of [main] is the run of the body. *)
Theorem main_exit_code w h :
  exists v,
    snd (exec w h main) = Ok v /\
    (v = JNull \/ v = JInt 0 \/ v = JInt 1) /\
    (v = JInt 1 <-> exists e, snd (exec w h main_body) = Raise e) /\
    (forall e, snd (exec w h main_body) = Raise e ->
               fst (exec w h main) =
               fst (exec w h main_body) ++ [error_line e]) /\
    (forall v', snd (exec w h main_body) = Ok v' ->
                exec w h main = exec w h main_body).
Proof.
  unfold main. rewrite exec_catch.
  destruct (main_body_returns w h) as [_ H].
  destruct (exec w h main_body) as [t [v|e]]; simpl in *.
  - exists v. split; auto. split; [destruct (H v eq_refl); auto|].
    split; [|split; [discriminate|reflexivity]].
    split; [|intros [e He]; discriminate].
    intros ->. destruct (H _ eq_refl); discriminate.
  - exists (JInt 1). split; auto. split; auto.
    split; [split; eauto|]. split; [|discriminate].
    now intros e' [= <-].
Qed.

(** X17. When the discovery request of [main] gives a value that is false
    ([None] after an answer that is not JSON, an empty object, ...), the
    run makes no other request, never asks the user, ends with the line
    "No templates found or error retrieving templates" and returns
    [None]. *)
Theorem main_no_templates w h tr out c a v :
  exec w h main = (tr, out) ->
  hd_error (runs_of tr) = Some (c, a) ->
  returned a = Ok v -> truthy v = false ->
  out = Ok JNull /\
  runs_of tr = [(c, a)] /\
  (forall q l, ~ In (EInput q l) tr) /\
  last tr (EPrint []) = no_templates_line.
Proof.
  intros Hex Hhd Hr Hv. destruct (main_shape _ _ _ _ Hex) as [a' Hs].
  destruct (main_outcome_head _ _ _ Hs) as [rest0 E].
  assert (Ha : c = curl_command "GET" "_template" JNull /\ a' = a).
  { rewrite E in Hhd. simpl in Hhd. now injection Hhd as <- <-. }
  destruct Ha as [-> ->]. clear E rest0 Hhd.
  unfold main_outcome in Hs. rewrite Hr, Hv in Hs.
  destruct Hs as [noise [-> [Hn ->]]].
  destruct (prints_runs_of _ Hn) as [Hn1 Hn2].
  split; auto. split; [now rewrite !runs_of_app, Hn1|]. split.
  - intros q l Hin. apply in_app_or in Hin. destruct Hin as [Hin|Hin].
    + unfold discovery in Hin. simpl in Hin.
      repeat (destruct Hin as [Hin|Hin]; [discriminate Hin|]). exact Hin.
    + apply in_app_or in Hin. destruct Hin as [Hin|[Hin|[]]].
      * now apply (Hn2 q l).
      * discriminate Hin.
  - rewrite !app_assoc. apply last_last.
Qed.

(** X18. Nothing is changed before the user agrees: in every run of
    [main], either the discovery GET is the only request and the run does
    not return 0, or the user answered the question with a line that is
    "y" in lower case and the discovery GET is the only request made
    before that answer. *)
Theorem main_needs_consent w h tr out :
  exec w h main = (tr, out) ->
  exists a,
    let first := (curl_command "GET" "_template" JNull, a) in
    (runs_of tr = [first] /\ out <> Ok (JInt 0)) \/
    (exists before s after,
       tr = before ++ EInput question (Some s) :: after /\
       lower s = "y" /\ runs_of before = [first]).
Proof.
  intros Hex. destruct (main_runs _ _ _ _ Hex) as [a [H|H]]; exists a.
  - now left.
  - right. destruct H as [templates [before [s [after [_ [E [Hs [Hb _]]]]]]]].
    exists before, s, after. auto.
Qed.

(** X19. Every PUT of every run of [main] goes to the template
    [sharding_test_template] and carries a body whose
    [settings.index.number_of_shards] and
    [settings.index.number_of_replicas] are both the string "1". *)
Theorem main_put_requests w h tr out c :
  exec w h main = (tr, out) ->
  In c (requests "PUT" tr) ->
  url_of c = at_cluster ("_template/" +++ target_template) /\
  exists body,
    data_of c = Some body /\
    get_path shards_path body = Some (JStr "1") /\
    get_path replicas_path body = Some (JStr "1").
Proof.
  intros Hex Hin. apply In_requests in Hin. destruct Hin as [[b Hin] Hm].
  destruct (main_runs _ _ _ _ Hex) as [a [[Hr _]|H]].
  - apply In_runs_of in Hin. rewrite Hr in Hin.
    destruct Hin as [[= <- <-]|[]]. now rewrite method_of_curl in Hm.
  - destruct H as [templates [before [s [after [_ [-> [_ [Hb Ha]]]]]]]].
    apply in_app_or in Hin. destruct Hin as [Hin|[Hin|Hin]].
    + apply In_runs_of in Hin. rewrite Hb in Hin.
      destruct Hin as [[= <- <-]|[]]. now rewrite method_of_curl in Hm.
    + discriminate Hin.
    + rewrite Forall_forall in Ha. destruct (Ha _ Hin) as [[Hput _] Hone].
      split; [|exact (Hone Hm)].
      destruct (Hput Hm) as [t [Ht ->]].
      apply details_of_In in Ht. destruct Ht as [n [data [Hnd Ht]]].
      rewrite (template_detail_name _ _ _ Ht).
      assert (Hk : In n (dict_keys (filter_templates templates))).
      { unfold dict_keys. apply in_map_iff. now exists (n, data). }
      apply filter_templates_keys in Hk. destruct Hk as [_ [<-|[]]].
      reflexivity.
Qed.

End Properties.








(** ** The properties on sample runs *)

Ltac in_concrete := vm_compute; repeat ((left; reflexivity) || right).



Lemma update_template_outcome_witness :
  exec happy_world [] (update_template target_template 1 1)
    = (happy_update_trace, Ok (JBool true)) /\
  ((exists v, Ok (JBool true) = Ok v /\ truthy v = true) <->
   (exists c b, In (ERun c b) happy_update_trace /\ method_of c = "PUT" /\
                affirmative b = true)).
Proof.
  assert (H : exec happy_world [] (update_template target_template 1 1)
              = (happy_update_trace, Ok (JBool true)))
    by (vm_compute; reflexivity).
  split; [exact H|].
  exact (proj1 (update_template_outcome happy_world [] target_template 1 1
                  happy_update_trace (Ok (JBool true)) H)).
Defined.

(** C9, as worded, fails when the PUT does not get through: [curl] exits
    with status 7, [update_template] raises and returns nothing. *)
Lemma transport_failure_counterexample :
  exec put_failure_world [] (update_template target_template 1 1)
    = (put_failure_trace, Raise (CalledProcessError 7)) /\
  In (ERun put_request (Exit 7 (Text ""))) put_failure_trace /\
  affirmative (Exit 7 (Text "")) = false /\
  ~ (exists v, Raise (CalledProcessError 7) = Ok v /\ truthy v = false).
Proof.
  split; [vm_compute; reflexivity|].
  split; [in_concrete|].
  split; [reflexivity|].
  intros [v [H _]]. discriminate H.
Qed.

Lemma update_template_passes_through_witness :
  exec happy_world [] (update_template target_template 1 1)
    = (happy_update_trace, Ok (JBool true)) /\
  In (ERun put_request ack) happy_update_trace /\
  exists a current_template fetched body,
    In (ERun get_request a) happy_update_trace /\
    returned a = Ok current_template /\
    py_getitem current_template target_template = Ok fetched /\
    put_request = curl_command "PUT" ("_template/" +++ target_template) body
    /\ data_of put_request = Some body /\
    (forall q, unrelated q shards_path = true ->
               unrelated q replicas_path = true ->
               get_path q body = get_path q fetched) /\
    get_path shards_path body = Some (JStr (str_of_Z 1)) /\
    get_path replicas_path body = Some (JStr (str_of_Z 1)).
Proof.
  assert (H : exec happy_world [] (update_template target_template 1 1)
              = (happy_update_trace, Ok (JBool true)))
    by (vm_compute; reflexivity).
  assert (Hin : In (ERun put_request ack) happy_update_trace)
    by in_concrete.
  split; [exact H|]. split; [exact Hin|].
  exact (update_template_passes_through happy_world [] target_template 1 1
           happy_update_trace (Ok (JBool true)) put_request ack H Hin
           eq_refl).
Defined.

Lemma update_template_idempotent_witness :
  exec happy_world [] (update_template target_template 1 1)
    = (happy_update_trace, Ok (JBool true)) /\
  exec updated_world [] (update_template target_template 1 1)
    = (updated_update_trace, Ok (JBool true)) /\
  modify_settings updated_template 1 1 = Ok updated_template /\
  exists b2,
    runs_of updated_update_trace =
      [(get_request, fetched_answer updated_template); (put_request, b2)].
Proof.
  assert (H1 : exec happy_world [] (update_template target_template 1 1)
               = (happy_update_trace, Ok (JBool true)))
    by (vm_compute; reflexivity).
  assert (H2 : exec updated_world [] (update_template target_template 1 1)
               = (updated_update_trace, Ok (JBool true)))
    by (vm_compute; reflexivity).
  assert (Hput : In (ERun put_request ack) happy_update_trace)
    by in_concrete.
  assert (Hget : In (ERun get_request (fetched_answer updated_template))
                   updated_update_trace)
    by in_concrete.
  split; [exact H1|]. split; [exact H2|].
  exact (update_template_idempotent happy_world [] updated_world []
           target_template 1 1 happy_update_trace (Ok (JBool true))
           put_request ack updated_template updated_update_trace
           (Ok (JBool true)) get_request (fetched_answer updated_template)
           (JObj [(target_template, updated_template)])
           H1 Hput eq_refl eq_refl H2 Hget eq_refl eq_refl eq_refl).
Defined.

Lemma verify_index_settings_exact_witness :
  exec happy_world [] (verify_index_settings test_index_name 1 1)
    = (happy_verify_trace, Ok (JBool true)) /\
  (Ok (JBool true) = Ok (JBool true) <->
   exists c a response settings,
     In (ERun c a) happy_verify_trace /\ returned a = Ok response /\
     index_settings response test_index_name = Ok settings /\
     parsed_count settings "number_of_shards" = Ok 1 /\
     parsed_count settings "number_of_replicas" = Ok 1).
Proof.
  assert (H : exec happy_world [] (verify_index_settings test_index_name 1 1)
              = (happy_verify_trace, Ok (JBool true)))
    by (vm_compute; reflexivity).
  split; [exact H|].
  exact (proj1 (verify_index_settings_exact happy_world [] test_index_name
                  1 1 happy_verify_trace (Ok (JBool true)) H)).
Defined.

Lemma test_index_derivation_witness :
  template_detail "audit" (JObj [("index_patterns", JArr [JStr "audit-*"])])
    = Ok {| name := "audit"; shards := JStr "default";
            replicas := JStr "default"; test_index := "audit-_test" |} /\
  exists first,
    py_first (JArr [JStr "audit-*"]) = Ok (JStr first) /\
    "audit-_test" = replace_char "*" "_test" first /\
    ((count_char "*" first <= 1)%nat ->
     "audit-_test" = replace_first_char "*" "_test" first) /\
    (first = "audit-*" -> "audit-_test" = "audit-_test").
Proof.
  assert (H : template_detail "audit"
                (JObj [("index_patterns", JArr [JStr "audit-*"])])
              = Ok {| name := "audit"; shards := JStr "default";
                      replicas := JStr "default";
                      test_index := "audit-_test" |})
    by reflexivity.
  split; [exact H|].
  exact (test_index_derivation "audit"
           [("index_patterns", JArr [JStr "audit-*"])] _ H).
Defined.

(** C4, as worded, fails on a pattern with two wildcards: both are
    replaced, where the substitution of the first alone gives another
    name. *)
Lemma first_wildcard_counterexample :
  template_detail "logs" (JObj [("index_patterns", JArr [JStr "logs-*-*"])])
    = Ok {| name := "logs"; shards := JStr "default";
            replicas := JStr "default"; test_index := "logs-_test-_test" |} /\
  replace_first_char "*" "_test" "logs-*-*" = "logs-_test-*" /\
  "logs-_test-_test" <> replace_first_char "*" "_test" "logs-*-*".
Proof.
  split; [reflexivity|]. split; [reflexivity|]. discriminate.
Qed.

Lemma cleanup_after_probe_witness :
  exec happy_world [] (test_template sample_detail)
    = (happy_test_trace, Ok tt) /\
  exec happy_world [] (create_test_document test_index_name)
    = (happy_create_trace, Ok (JBool true)) /\
  requests "DELETE" happy_test_trace
    = [curl_command "DELETE" test_index_name JNull].
Proof.
  assert (H1 : exec happy_world [] (test_template sample_detail)
               = (happy_test_trace, Ok tt))
    by (vm_compute; reflexivity).
  assert (H2 : exec happy_world [] (create_test_document test_index_name)
               = (happy_create_trace, Ok (JBool true)))
    by (vm_compute; reflexivity).
  assert (H3 : exec happy_world (([] ++ happy_create_trace) ++ [ESleep 2])
                 (verify_index_settings test_index_name 1 1)
               = (happy_verify_trace, Ok (JBool true)))
    by (vm_compute; reflexivity).
  split; [exact H1|]. split; [exact H2|].
  exact (proj2 (cleanup_after_probe happy_world [] sample_detail
                  happy_test_trace (Ok tt) happy_create_trace (JBool true)
                  H1 H2)
           eq_refl happy_verify_trace (Ok (JBool true)) H3).
Defined.

(** C3, as worded, fails when the verification raises: the probe document
    was created, the settings request does not get through, and the run
    ends without a deletion request. *)
Lemma cleanup_counterexample :
  exec lost_connection_world [] (create_test_document test_index_name)
    = (happy_create_trace, Ok (JBool true)) /\
  exec lost_connection_world [] (test_template sample_detail)
    = (lost_test_trace, Raise (CalledProcessError 7)) /\
  requests "DELETE" lost_test_trace = [] /\
  exec lost_connection_world [] main = (lost_main_trace, Ok (JInt 1)) /\
  requests "POST" lost_main_trace
    = [curl_command "POST" (test_index_name +++ "/_doc")
         (probe_document 1700000000)] /\
  requests "DELETE" lost_main_trace = [].
Proof.
  repeat split; vm_compute; reflexivity.
Qed.

Lemma failed_probe_not_verified_witness :
  exec refused_probe_world [] (test_template sample_detail)
    = (refused_test_trace, Ok tt) /\
  exec refused_probe_world [] (create_test_document test_index_name)
    = (refused_create_trace, Ok (JBool false)) /\
  refused_test_trace
    = refused_create_trace ++ [EPrint (failed_to_test target_template)] /\
  Ok tt = Ok tt /\
  requests "GET" refused_test_trace = [] /\
  ~ In (EPrint (verification_failed target_template)) refused_test_trace.
Proof.
  assert (H1 : exec refused_probe_world [] (test_template sample_detail)
               = (refused_test_trace, Ok tt))
    by (vm_compute; reflexivity).
  assert (H2 : exec refused_probe_world []
                 (create_test_document test_index_name)
               = (refused_create_trace, Ok (JBool false)))
    by (vm_compute; reflexivity).
  split; [exact H1|]. split; [exact H2|].
  exact (proj2 (failed_probe_not_verified refused_probe_world []
                  sample_detail refused_test_trace (Ok tt)
                  refused_create_trace (Ok (JBool false)) H1 H2)
           (JBool false) eq_refl eq_refl).
Defined.



(** ** The further properties on sample runs *)

Lemma copy_template_retargets_witness :
  exec copy_world [] (copy_template source_template target_template)
    = (copy_trace, Ok (JBool true)) /\
  In (ERun copy_request ack) copy_trace /\
  exists a source_template_data fetched body,
    In (ERun source_request a) copy_trace /\
    returned a = Ok source_template_data /\
    py_getitem source_template_data source_template = Ok fetched /\
    copy_request = curl_command "PUT" ("_template/" +++ target_template) body
    /\ data_of copy_request = Some body /\
    get_path ["order"] body = Some (JInt 0) /\
    get_path ["version"] body = Some (JInt 1) /\
    get_path ["index_patterns"] body
      = Some (JArr [JStr (target_template +++ "*")]) /\
    (forall k rest,
       k <> "order" -> k <> "version" -> k <> "index_patterns" ->
       get_path (k :: rest) body = get_path (k :: rest) fetched).
Proof.
  assert (H : exec copy_world []
                (copy_template source_template target_template)
              = (copy_trace, Ok (JBool true)))
    by (vm_compute; reflexivity).
  assert (Hin : In (ERun copy_request ack) copy_trace) by in_concrete.
  split; [exact H|]. split; [exact Hin|].
  exact (copy_template_retargets copy_world [] source_template
           target_template copy_trace (Ok (JBool true)) copy_request ack
           H Hin eq_refl).
Defined.

Lemma copy_template_get_failure_witness :
  exec copy_missing_world [] (copy_template source_template target_template)
    = (copy_missing_trace, Ok (JBool false)) /\
  In (ERun source_request (Exit 0 (Json (JObj [])))) copy_missing_trace /\
  requests "PUT" copy_missing_trace = [].
Proof.
  assert (H : exec copy_missing_world []
                (copy_template source_template target_template)
              = (copy_missing_trace, Ok (JBool false)))
    by (vm_compute; reflexivity).
  assert (Hin : In (ERun source_request (Exit 0 (Json (JObj []))))
                  copy_missing_trace) by in_concrete.
  split; [exact H|]. split; [exact Hin|].
  apply (copy_template_get_failure copy_missing_world [] source_template
           target_template copy_missing_trace (Ok (JBool false))
           source_request (Exit 0 (Json (JObj []))) (JObj []) H Hin
           eq_refl eq_refl).
  left. reflexivity.
Defined.

Lemma copied_template_detail_witness :
  exec copy_world [] (copy_template source_template target_template)
    = (copy_trace, Ok (JBool true)) /\
  In (ERun copy_request ack) copy_trace /\
  data_of copy_request = Some copied_template /\
  template_detail target_template copied_template = Ok copied_detail /\
  template_detail target_template audit_template = Ok audit_detail /\
  test_index copied_detail = target_template +++ "_test" /\
  shards copied_detail = shards audit_detail /\
  replicas copied_detail = replicas audit_detail.
Proof.
  assert (H : exec copy_world []
                (copy_template source_template target_template)
              = (copy_trace, Ok (JBool true)))
    by (vm_compute; reflexivity).
  assert (Hin : In (ERun copy_request ack) copy_trace) by in_concrete.
  assert (Hget : In (ERun source_request source_answer) copy_trace)
    by in_concrete.
  assert (Hd : data_of copy_request = Some copied_template) by reflexivity.
  assert (Ht : template_detail target_template copied_template
               = Ok copied_detail) by reflexivity.
  assert (Hs : template_detail target_template audit_template
               = Ok audit_detail) by reflexivity.
  split; [exact H|]. split; [exact Hin|]. split; [exact Hd|].
  split; [exact Ht|]. split; [exact Hs|].
  pose proof (copied_template_detail copy_world [] source_template
                target_template copy_trace (Ok (JBool true)) copy_request
                ack copied_template target_template copied_detail
                H Hin eq_refl Hd Ht) as [_ [H2 H3]].
  split; [exact (H2 eq_refl)|].
  exact (H3 source_answer (JObj [(source_template, audit_template)])
           audit_template audit_detail Hget eq_refl eq_refl Hs).
Defined.

Lemma template_detail_counts_witness :
  template_detail target_template stored_template = Ok sample_detail /\
  name sample_detail = target_template.
Proof.
  assert (H : template_detail target_template stored_template
              = Ok sample_detail) by reflexivity.
  split; [exact H|].
  exact (proj1 (template_detail_counts target_template _ sample_detail H)).
Defined.

Lemma filter_templates_filter_witness :
  NoDup (dict_keys listing) /\
  filter_templates listing
  = filter (fun item => allowed (fst item)) listing.
Proof.
  assert (H : NoDup (dict_keys listing)).
  { repeat constructor; simpl; intros K;
      repeat (destruct K as [K|K]; [discriminate K|]); exact K. }
  split; [exact H|]. exact (filter_templates_filter listing H).
Defined.

Lemma create_test_document_outcome_witness :
  exec happy_world [] (create_test_document test_index_name)
    = (happy_create_trace, Ok (JBool true)) /\
  exists now a,
    In (ETime now) happy_create_trace /\
    runs_of happy_create_trace =
      [(curl_command "POST" (test_index_name +++ "/_doc")
          (probe_document now), a)] /\
    data_of (curl_command "POST" (test_index_name +++ "/_doc")
               (probe_document now)) = Some (probe_document now) /\
    ((exists v, Ok (JBool true) = Ok v /\ truthy v = true) <->
     (exists d r, returned a = Ok (JObj d) /\
                  dict_get "result" d = Some (JStr r) /\
                  (r = "created" \/ r = "updated"))).
Proof.
  assert (H : exec happy_world [] (create_test_document test_index_name)
              = (happy_create_trace, Ok (JBool true)))
    by (vm_compute; reflexivity).
  split; [exact H|].
  exact (create_test_document_outcome happy_world [] test_index_name
           happy_create_trace (Ok (JBool true)) H).
Defined.

Lemma delete_index_outcome_witness :
  exec happy_world [] (delete_index test_index_name)
    = (happy_delete_trace, Ok (JBool true)) /\
  exists a,
    runs_of happy_delete_trace
      = [(curl_command "DELETE" test_index_name JNull, a)] /\
    url_of (curl_command "DELETE" test_index_name JNull)
      = at_cluster test_index_name /\
    data_of (curl_command "DELETE" test_index_name JNull) = None /\
    ((exists v, Ok (JBool true) = Ok v /\ truthy v = true)
     <-> affirmative a = true) /\
    (forall e, returned a = Raise e -> Ok (JBool true) = Raise e).
Proof.
  assert (H : exec happy_world [] (delete_index test_index_name)
              = (happy_delete_trace, Ok (JBool true)))
    by (vm_compute; reflexivity).
  split; [exact H|].
  exact (delete_index_outcome happy_world [] test_index_name
           happy_delete_trace (Ok (JBool true)) H).
Defined.

Lemma verify_index_settings_false_witness :
  exec stale_world [] (verify_index_settings test_index_name 1 1)
    = (stale_verify_trace, Ok (JBool false)) /\
  exists a,
    runs_of stale_verify_trace
      = [(curl_command "GET" (test_index_name +++ "/_settings") JNull, a)] /\
    data_of (curl_command "GET" (test_index_name +++ "/_settings") JNull)
      = None.
Proof.
  assert (H : exec stale_world [] (verify_index_settings test_index_name 1 1)
              = (stale_verify_trace, Ok (JBool false)))
    by (vm_compute; reflexivity).
  split; [exact H|].
  destruct (verify_index_settings_false stale_world [] test_index_name 1 1
              stale_verify_trace (Ok (JBool false)) H) as [a [H1 [H2 _]]].
  exists a. exact (conj H1 H2).
Defined.

Lemma verify_index_settings_unreadable_witness :
  exec odd_world [] (verify_index_settings test_index_name 1 1)
    = (odd_verify_trace, Raise ValueError) /\
  In (ERun (curl_command "GET" (test_index_name +++ "/_settings") JNull)
        (Exit 0 (Json odd_settings))) odd_verify_trace /\
  index_settings odd_settings test_index_name = Ok (JObj odd_index) /\
  py_int (JStr "many") = Raise ValueError.
Proof.
  assert (H : exec odd_world [] (verify_index_settings test_index_name 1 1)
              = (odd_verify_trace, Raise ValueError))
    by (vm_compute; reflexivity).
  assert (Hin : In (ERun (curl_command "GET"
                            (test_index_name +++ "/_settings") JNull)
                      (Exit 0 (Json odd_settings))) odd_verify_trace)
    by in_concrete.
  assert (Hs : index_settings odd_settings test_index_name
               = Ok (JObj odd_index)) by reflexivity.
  split; [exact H|]. split; [exact Hin|]. split; [exact Hs|].
  exact (proj1 (verify_index_settings_unreadable odd_world []
                  test_index_name 1 1 odd_verify_trace (Raise ValueError)
                  _ _ odd_settings odd_index H Hin eq_refl Hs)
           "many" eq_refl).
Defined.

Lemma update_template_type_error_witness :
  exec null_settings_world [] (update_template target_template 1 1)
    = (null_settings_trace, Raise TypeError) /\
  In (ERun get_request (fetched_answer null_settings_template))
     null_settings_trace /\
  requests "PUT" null_settings_trace = [].
Proof.
  assert (H : exec null_settings_world []
                (update_template target_template 1 1)
              = (null_settings_trace, Raise TypeError))
    by (vm_compute; reflexivity).
  assert (Hin : In (ERun get_request (fetched_answer null_settings_template))
                  null_settings_trace) by in_concrete.
  split; [exact H|]. split; [exact Hin|].
  apply (update_template_type_error null_settings_world [] target_template
           1 1 null_settings_trace (Raise TypeError) get_request
           (fetched_answer null_settings_template)
           (JObj [(target_template, null_settings_template)])
           null_settings_template H Hin eq_refl eq_refl eq_refl).
  right. left. exists [("settings", JNull)], JNull.
  split; [reflexivity|]. split; reflexivity.
Defined.

Lemma update_template_key_order_witness :
  exec happy_world [] (update_template target_template 1 1)
    = (happy_update_trace, Ok (JBool true)) /\
  In (ERun put_request ack) happy_update_trace /\
  exists a current_template d d',
    In (ERun get_request a) happy_update_trace /\
    returned a = Ok current_template /\
    py_getitem current_template target_template = Ok (JObj d) /\
    data_of put_request = Some (JObj d') /\
    dict_keys d' = if dict_has "settings" d then dict_keys d
                   else dict_keys d ++ ["settings"].
Proof.
  assert (H : exec happy_world [] (update_template target_template 1 1)
              = (happy_update_trace, Ok (JBool true)))
    by (vm_compute; reflexivity).
  assert (Hin : In (ERun put_request ack) happy_update_trace)
    by in_concrete.
  split; [exact H|]. split; [exact Hin|].
  exact (update_template_key_order happy_world [] target_template 1 1
           happy_update_trace (Ok (JBool true)) put_request ack H Hin
           eq_refl).
Defined.

Lemma test_template_requests_witness :
  exec happy_world [] (test_template sample_detail)
    = (happy_test_trace, Ok tt) /\
  exists now a,
    let index := test_index sample_detail in
    let post := curl_command "POST" (index +++ "/_doc") (probe_document now) in
    let get := curl_command "GET" (index +++ "/_settings") JNull in
    let del := curl_command "DELETE" index JNull in
    match (response <- returned a ;; created response)%res with
    | Raise e => runs_of happy_test_trace = [(post, a)] /\ Ok tt = Raise e
    | Ok ok =>
        if truthy ok then
          exists g,
            match verified index 1 1 g with
            | Raise e =>
                runs_of happy_test_trace = [(post, a); (get, g)] /\
                Ok tt = Raise e
            | Ok _ =>
                exists d,
                  runs_of happy_test_trace = [(post, a); (get, g); (del, d)]
                  /\
                  Ok tt = (_ <- (response <- returned d ;;
                                 acknowledged response) ;; Ok tt)%res
            end
        else runs_of happy_test_trace = [(post, a)] /\ Ok tt = Ok tt
    end.
Proof.
  assert (H : exec happy_world [] (test_template sample_detail)
              = (happy_test_trace, Ok tt))
    by (vm_compute; reflexivity).
  split; [exact H|].
  exact (test_template_requests happy_world [] sample_detail
           happy_test_trace (Ok tt) H).
Defined.

Lemma update_loop_partition_witness :
  exec happy_world [] (for_loop [sample_detail] update_step ([], []))
    = (happy_loop_trace, Ok ([sample_detail], [])) /\
  requests "GET" happy_loop_trace = [get_request] /\
  (List.length (requests "PUT" happy_loop_trace) <= 1)%nat.
Proof.
  assert (H : exec happy_world []
                (for_loop [sample_detail] update_step ([], []))
              = (happy_loop_trace, Ok ([sample_detail], [])))
    by (vm_compute; reflexivity).
  split; [exact H|].
  pose proof (update_loop_partition happy_world [] [sample_detail]
                happy_loop_trace [sample_detail] [] H)
    as [_ [_ [H3 [H4 _]]]].
  exact (conj H3 H4).
Defined.

Lemma main_no_templates_witness :
  exec gateway_world [] main = (gateway_main_trace, Ok JNull) /\
  hd_error (runs_of gateway_main_trace)
    = Some (curl_command "GET" "_template" JNull, gateway_answer) /\
  runs_of gateway_main_trace
    = [(curl_command "GET" "_template" JNull, gateway_answer)] /\
  (forall q l, ~ In (EInput q l) gateway_main_trace) /\
  last gateway_main_trace (EPrint []) = no_templates_line.
Proof.
  assert (H : exec gateway_world [] main = (gateway_main_trace, Ok JNull))
    by (vm_compute; reflexivity).
  assert (Hhd : hd_error (runs_of gateway_main_trace)
                = Some (curl_command "GET" "_template" JNull, gateway_answer))
    by reflexivity.
  split; [exact H|]. split; [exact Hhd|].
  exact (proj2 (main_no_templates gateway_world [] gateway_main_trace
                  (Ok JNull) (curl_command "GET" "_template" JNull)
                  gateway_answer JNull H Hhd eq_refl eq_refl)).
Defined.

Lemma main_needs_consent_witness :
  exec happy_world [] main = (happy_main_trace, Ok (JInt 0)) /\
  exists a,
    let first := (curl_command "GET" "_template" JNull, a) in
    (runs_of happy_main_trace = [first] /\ Ok (JInt 0) <> Ok (JInt 0)) \/
    (exists before s after,
       happy_main_trace = before ++ EInput question (Some s) :: after /\
       lower s = "y" /\ runs_of before = [first]).
Proof.
  assert (H : exec happy_world [] main = (happy_main_trace, Ok (JInt 0)))
    by (vm_compute; reflexivity).
  split; [exact H|].
  exact (main_needs_consent happy_world [] happy_main_trace (Ok (JInt 0)) H).
Defined.

Lemma main_put_requests_witness :
  exec happy_world [] main = (happy_main_trace, Ok (JInt 0)) /\
  In put_request (requests "PUT" happy_main_trace) /\
  url_of put_request = at_cluster ("_template/" +++ target_template) /\
  exists body,
    data_of put_request = Some body /\
    get_path shards_path body = Some (JStr "1") /\
    get_path replicas_path body = Some (JStr "1").
Proof.
  assert (H : exec happy_world [] main = (happy_main_trace, Ok (JInt 0)))
    by (vm_compute; reflexivity).
  assert (Hin : In put_request (requests "PUT" happy_main_trace))
    by in_concrete.
  split; [exact H|]. split; [exact Hin|].
  exact (main_put_requests happy_world [] happy_main_trace (Ok (JInt 0))
           put_request H Hin).
Defined.
